(** * db1000n job engine: runner loop, launch pass, instance scaler and
      utility/combinator jobs

    Shallow embedding of package [job]: the runner ([Runner.Run],
    [runJobs], [computeCount]) and [src/job/utils.go] (the utility and
    combinator jobs), together with the parts of the Go standard library
    they rely on ([strconv], [strings.TrimSpace], [float64] arithmetic and
    conversion, [time.Sleep], [context]).

    Not modelled: the flag parsing of [NewConfigOptionsWithFlags], and the
    "log", "check" and "js" jobs, which no statement below is about.

    Conventions
    - a Go [string] is a [string] of bytes; [[]byte] with a possible [nil]
      is [option string];
    - Go integers are [Z] with the wrap-around written out;
    - [float64] is [spec_float] at precision 53 / emax 1024;
    - [time.Duration] is [Z] nanoseconds;
    - code with effects lives in the monad [M] (state, event trace, and the
      ways a goroutine can stop without returning). *)

From Stdlib Require Import ZArith List String Ascii Bool Lia.
From Stdlib Require Import QArith Qround.
From Stdlib Require Import SpecFloat.
Import ListNotations.

Local Open Scope string_scope.
Local Open Scope Z_scope.

(* ===================================================================== *)
(** * Go standard library: strconv (base 10)                              *)
(* ===================================================================== *)

Module Strconv.

(** [strconv.ErrSyntax] and [strconv.ErrRange]. *)
Inductive NumErrKind := ErrSyntax | ErrRange.

(** The byte of a string element as a number. *)
Definition byte_val (c : ascii) : Z := Z.of_N (N_of_ascii c).

Definition uint64_mod : Z := 2 ^ 64.
Definition maxUint64 : Z := 2 ^ 64 - 1.

(** The digit loop of [ParseUint] at base 10.  [n] is the [uint64]
    accumulator; the result is the returned value and the error kind.

    for _, c := range []byte(s) {
      switch { case '0' <= c && c <= '9': d = c - '0'
               case 'a' <= lower(c) && lower(c) <= 'z': d = lower(c)-'a'+10
               default: return 0, syntaxError }
      if d >= byte(base) { return 0, syntaxError }
      if n >= cutoff { return maxVal, rangeError }
      n *= uint64(base)
      n1 := n + uint64(d)
      if n1 < n || n1 > maxVal { return maxVal, rangeError }
      n = n1 }
    return n, nil

    At base 10 a letter has digit value >= 10 and so is a syntax error,
    like every other non-digit byte; the underscore case needs base 0. *)
Fixpoint parseUint_loop (maxVal : Z) (cs : string) (n : Z)
  : Z * option NumErrKind :=
  match cs with
  | EmptyString => (n, None)
  | String c rest =>
      if (48 <=? byte_val c) && (byte_val c <=? 57) then
        let d := byte_val c - 48 in
        let cutoff := maxUint64 / 10 + 1 in
        if cutoff <=? n then (maxVal, Some ErrRange)
        else
          let n' := (n * 10) mod uint64_mod in
          let n1 := (n' + d) mod uint64_mod in
          if (n1 <? n') || (maxVal <? n1) then (maxVal, Some ErrRange)
          else parseUint_loop maxVal rest n1
      else (0, Some ErrSyntax)
  end.

(** [strconv.ParseUint(s, 10, bitSize)]; [intSize] is the platform's
    [strconv.IntSize], used when [bitSize] is 0.  The repository only
    calls it with bit sizes 32 and 64 (and 0 through [Atoi]); the
    [bitSize] range check of the library is not reachable from it. *)
Definition ParseUint (intSize : Z) (s : string) (bitSize : Z)
  : Z * option NumErrKind :=
  match s with
  | EmptyString => (0, Some ErrSyntax)
  | _ =>
      let bitSize := if bitSize =? 0 then intSize else bitSize in
      let maxVal := 2 ^ bitSize - 1 in
      parseUint_loop maxVal s 0
  end.

(** [strconv.ParseInt(s, 10, bitSize)]. *)
Definition ParseInt (intSize : Z) (s : string) (bitSize : Z)
  : Z * option NumErrKind :=
  match s with
  | EmptyString => (0, Some ErrSyntax)
  | String c0 rest =>
      let neg := Ascii.eqb c0 "-" in
      let s' := if Ascii.eqb c0 "+" || neg then rest else s in
      let '(un, err) := ParseUint intSize s' bitSize in
      match err with
      | Some ErrSyntax => (0, Some ErrSyntax)
      | _ =>
          let bitSize := if bitSize =? 0 then intSize else bitSize in
          let cutoff := 2 ^ (bitSize - 1) in
          if negb neg && (cutoff <=? un) then (cutoff - 1, Some ErrRange)
          else if neg && (cutoff <? un) then (- cutoff, Some ErrRange)
          else ((if neg then - un else un), None)
      end
  end.

(** The fast path loop of [Atoi]:
    for _, ch := range []byte(s) { ch -= '0'; if ch > 9 { syntax error };
                                   n = n*10 + int(ch) } *)
Fixpoint atoi_fast (cs : string) (n : Z) : option Z :=
  match cs with
  | EmptyString => Some n
  | String c rest =>
      let ch := (byte_val c - 48) mod 256 in
      if 9 <? ch then None else atoi_fast rest (n * 10 + ch)
  end.

(** [strconv.Atoi(s)]. *)
Definition Atoi (intSize : Z) (s : string) : Z * option NumErrKind :=
  let sLen := Z.of_nat (String.length s) in
  if ((intSize =? 32) && (0 <? sLen) && (sLen <? 10))
     || ((intSize =? 64) && (0 <? sLen) && (sLen <? 19)) then
    match s with
    | EmptyString => (0, Some ErrSyntax)
    | String c0 rest =>
        let signed := Ascii.eqb c0 "-" || Ascii.eqb c0 "+" in
        let digits := if signed then rest else s in
        if signed && (String.length digits <? 1)%nat then (0, Some ErrSyntax)
        else
          match atoi_fast digits 0 with
          | None => (0, Some ErrSyntax)
          | Some n => ((if Ascii.eqb c0 "-" then - n else n), None)
          end
    end
  else ParseInt intSize s 0.

(** ** Decimal numerals, independently of the parser *)

Definition is_digit (c : ascii) : bool :=
  (48 <=? byte_val c) && (byte_val c <=? 57).

Fixpoint all_digits (s : string) : bool :=
  match s with
  | EmptyString => true
  | String c rest => is_digit c && all_digits rest
  end.

(** A decimal input: one or more digits. *)
Definition is_decimal (s : string) : bool :=
  match s with EmptyString => false | _ => all_digits s end.

(** Value of a digit string, most significant digit first:
    the last digit counts once, the ones before it ten times more. *)
Fixpoint decimal_value_rev (rs : list ascii) : Z :=
  match rs with
  | [] => 0
  | c :: more => (byte_val c - 48) + 10 * decimal_value_rev more
  end.

Definition decimal_value (s : string) : Z :=
  decimal_value_rev (rev (list_ascii_of_string s)).

End Strconv.

(* ===================================================================== *)
(** * Go standard library: strings                                        *)
(* ===================================================================== *)

Module Strings.

Definition bytes (codes : list nat) : list ascii := map ascii_of_nat codes.

(** UTF-8 encodings of the runes for which [unicode.IsSpace] holds:
    tab, LF, VT, FF, CR, space, U+0085, U+00A0, U+1680, U+2000..U+200A,
    U+2028, U+2029, U+202F, U+205F, U+3000. *)
Definition space_encodings : list (list ascii) :=
  map bytes
    [ [9]; [10]; [11]; [12]; [13]; [32];
      [194; 133]; [194; 160]; [225; 154; 128];
      [226; 128; 128]; [226; 128; 129]; [226; 128; 130]; [226; 128; 131];
      [226; 128; 132]; [226; 128; 133]; [226; 128; 134]; [226; 128; 135];
      [226; 128; 136]; [226; 128; 137]; [226; 128; 138];
      [226; 128; 168]; [226; 128; 169]; [226; 128; 175];
      [226; 129; 159]; [227; 128; 128] ]%nat.

Fixpoint strip_prefix (p s : list ascii) : option (list ascii) :=
  match p, s with
  | [], _ => Some s
  | a :: p', b :: s' => if Ascii.eqb a b then strip_prefix p' s' else None
  | _ :: _, [] => None
  end.

(** Drop the first encoding of [encs] that [s] starts with, if any. *)
Fixpoint strip_any (encs : list (list ascii)) (s : list ascii)
  : option (list ascii) :=
  match encs with
  | [] => None
  | p :: more =>
      match strip_prefix p s with
      | Some rest => Some rest
      | None => strip_any more s
      end
  end.

(** Drop leading runes as long as they are white space; [fuel] bounds the
    number of runes (the length of the string is enough). *)
Fixpoint trim_front (fuel : nat) (encs : list (list ascii)) (s : list ascii)
  : list ascii :=
  match fuel with
  | O => s
  | S fuel' =>
      match strip_any encs s with
      | Some rest => trim_front fuel' encs rest
      | None => s
      end
  end.

(** [strings.TrimLeftFunc(s, unicode.IsSpace)] on the bytes of [s]. *)
Definition TrimLeftSpace (s : list ascii) : list ascii :=
  trim_front (List.length s) space_encodings s.

(** [strings.TrimRightFunc(s, unicode.IsSpace)]: the same from the end,
    where the last rune is a white space exactly when the bytes end with
    its encoding. *)
Definition TrimRightSpace (s : list ascii) : list ascii :=
  rev (trim_front (List.length s) (map (@rev ascii) space_encodings) (rev s)).

(** [strings.TrimSpace(s)]: leading and trailing white space removed.
    The library's ASCII fast path and its fallback to
    [TrimFunc(s, unicode.IsSpace)] compute this same slice. *)
Definition TrimSpace (s : string) : string :=
  string_of_list_ascii (TrimRightSpace (TrimLeftSpace (list_ascii_of_string s))).

(** [strings.Split(s, ",")]: the fields between the separators; one field
    (possibly empty) when there is no separator. *)
Fixpoint split_comma (s : string) (field : string) : list string :=
  match s with
  | EmptyString => [field]
  | String c rest =>
      if Ascii.eqb c ","
      then field :: split_comma rest EmptyString
      else split_comma rest (field ++ String c EmptyString)
  end.

Definition Split_comma (s : string) : list string := split_comma s EmptyString.

End Strings.

(* ===================================================================== *)
(** * float64 and its conversions                                         *)
(* ===================================================================== *)

Module Float64.

Definition prec : Z := 53.
Definition emax : Z := 1024.

Definition float64 := spec_float.

(** [x * y], rounded to nearest even. *)
Definition mul (x y : float64) : float64 := SFmul prec emax x y.

(** [x < y]; false as soon as one side is NaN. *)
Definition ltb (x y : float64) : bool := SFltb x y.

(** [float64(n)] for an integer [n]: the nearest float64. *)
Definition of_int (n : Z) : float64 := binary_normalize prec emax n 0 false.

Definition zero : float64 := S754_zero false.
Definition one : float64 := of_int 1.

(** The integer part of a finite float, fraction discarded (towards zero);
    nothing for infinities and NaN. *)
Definition trunc (f : float64) : option Z :=
  match f with
  | S754_zero _ => Some 0
  | S754_finite s m e =>
      let a := if 0 <=? e then Z.pos m * 2 ^ e
               else Z.quot (Z.pos m) (2 ^ (- e)) in
      Some (if s then - a else a)
  | S754_infinity _ | S754_nan => None
  end.

(** What is fixed by the target rather than by the language: the width of
    [int], and the value a float-to-int conversion yields when the
    truncated operand is not representable in [int] (the language
    specification leaves it implementation-dependent). *)
Record Platform := {
  intSize : Z;
  unrepresentable : float64 -> Z
}.

Definition minInt (P : Platform) : Z := - 2 ^ (intSize P - 1).
Definition maxInt (P : Platform) : Z := 2 ^ (intSize P - 1) - 1.

(** [int(f)]. *)
Definition to_int (P : Platform) (f : float64) : Z :=
  match trunc f with
  | Some t =>
      if (minInt P <=? t) && (t <=? maxInt P) then t else unrepresentable P f
  | None => unrepresentable P f
  end.

(** amd64: CVTTSD2SQ yields the "integer indefinite" value, the smallest
    int64, for every operand it cannot represent. *)
Definition amd64 : Platform :=
  {| intSize := 64; unrepresentable := fun _ => - 2 ^ 63 |}.

(** arm64: FCVTZS saturates, and sends NaN to 0. *)
Definition arm64 : Platform :=
  {| intSize := 64;
     unrepresentable := fun f =>
       match f with
       | S754_nan => 0
       | S754_infinity true | S754_finite true _ _ => - 2 ^ 63
       | _ => 2 ^ 63 - 1
       end |}.

(** The literals 0.5, 2.0 and 1e19. *)
Definition half : float64 := S754_finite false 4503599627370496 (-53).
Definition two : float64 := of_int 2.
Definition ten_to_19 : float64 := of_int (10 ^ 19).

(** ** The mathematical value of a float, for stating results *)

(** The rational a finite float denotes. *)
Definition value (f : float64) : option Q :=
  match f with
  | S754_zero _ => Some 0%Q
  | S754_finite s m e =>
      let sm := if s then Z.neg m else Z.pos m in
      Some (match e with
            | Z0 => inject_Z sm
            | Z.pos p => inject_Z (sm * 2 ^ Z.pos p)
            | Z.neg p => Qmake sm (2 ^ p)%positive
            end)
  | S754_infinity _ | S754_nan => None
  end.

(** [floor] of a finite float. *)
Definition floor (f : float64) : option Z := option_map Qfloor (value f).

End Float64.

(* ===================================================================== *)
(** * Package job: data                                                   *)
(* ===================================================================== *)

Local Open Scope list_scope.

(** [time.Duration], in nanoseconds. *)
Definition Duration := Z.

(** An [error] value: [fmt.Errorf(msg)], [fmt.Errorf(format, arg)] with one
    string argument, [fmt.Errorf(format, err)] wrapping [err] by [%w], and
    [*strconv.NumError]. *)
Inductive GoError :=
| ErrorString (msg : string)
| Errorf_q (format : string) (arg : string)
| Errorf_w (format : string) (cause : GoError)
| NumError (func num : string) (kind : Strconv.NumErrKind).

(** The error result of a [strconv] call on input [num]. *)
Definition num_error (func num : string) (k : option Strconv.NumErrKind)
  : option GoError :=
  option_map (NumError func num) k.

(** A value of type [any] as the jobs return it; [VNil] is the nil
    interface, [VOther] any other dynamic value, known by a tag. *)
Inductive Value :=
| VNil
| VInt (n : Z)
| VUint (n : Z)
| VInt64 (n : Z)
| VUint64 (n : Z)
| VString (s : string)
| VOther (tag : nat).

(** [*zap.Logger]: the logger [zap.NewNop()] returns, or a real one. *)
Inductive Logger := NopLogger | ZapLogger (id : nat).

Inductive Level := DebugLevel | InfoLevel | WarnLevel | ErrorLevel | FatalLevel.

Inductive Field :=
| FString (key val : string)
| FInt (key : string) (val : Z)
| FError (err : GoError).

(** Modelled from the spec: [GlobalConfig], declared outside the given
    sources; "process-wide immutable settings: scale factor (float >= 0),
    client identifier, confidentiality-skip flag". *)
Record GlobalConfig := {
  ClientID : string;
  SkipEncrypted : bool;
  ScaleFactor : Float64.float64
}.

(** [*metrics.Metrics], an object known by its allocation. *)
Record Metrics := { metrics_addr : nat }.

(** [*metrics.StatsTracker], made by [metrics.NewStatsTracker(metric)]. *)
Record StatsTracker := NewStatsTracker { tracked : Metrics }.

(** Ways not to return: [os.Exit], a panic, or still running when the
    model's budget of loop iterations is used up. *)
Inductive Halt := Exited | Panicked | Running.

Inductive Res (A : Type) :=
| Ret (a : A)
| Halted (h : Halt).
Arguments Ret {A} a.
Arguments Halted {A} h.

(** [config.RawMultiConfig]: the undecoded configuration.  A [nil] body is
    [None]. *)
Record RawMultiConfig := {
  Body : option string;
  Protected : bool
}.

(** [ConfigOptions] for fetching job configs for the runner. *)
Record ConfigOptions := {
  PathsCSV : string;
  BackupConfig : string;
  Format : string;
  RefreshTimeout : Duration
}.

Section Engine.

(** ** What the modelled files take from elsewhere: types *)

(** [W] is the world outside the goroutine at hand (random source, network,
    timers, locks, metrics backend); [Args] is [config.Args], the undecoded
    arguments of a job; [BasicJobConfig] is embedded in the combinators'
    configurations; [CfgMap] is the [map[string]any] that [utils.Decode]
    makes of a job entry; [Accumulator] and [Reporter] are those of package
    [metrics]. *)
Context {W Args BasicJobConfig CfgMap Accumulator Reporter : Type}.

(** [config.Config]: one job entry. *)
Record Config := {
  Name : string;
  Type_ : string;
  Count : Z;
  Filter : string;
  Args_ : Args
}.

(** [config.MultiConfig]. *)
Record MultiConfig := { Jobs : list Config }.

(** A value stored in a context. *)
Inductive CtxValue :=
| CtxGlobal (g : GlobalConfig)
| CtxString (s : string)
| CtxConfig (m : CfgMap)
| CtxMetrics (m : option Metrics)
| CtxData (v : Value).

(** [context.Context], as the chain the [context] package builds.
    [scope] names the cancellation scope a [WithCancel], [WithTimeout]
    creates. *)
Inductive Context :=
| Background
| WithValue (parent : Context) (key : string) (val : CtxValue)
| WithCancel (parent : Context) (scope : nat)
| WithDeadline (parent : Context) (scope : nat) (deadline : Z).

(** [ctx.Value(key)]: the innermost binding. *)
Fixpoint ctx_Value (ctx : Context) (key : string) : option CtxValue :=
  match ctx with
  | Background => None
  | WithValue parent k v =>
      if String.eqb k key then Some v else ctx_Value parent key
  | WithCancel parent _ | WithDeadline parent _ _ => ctx_Value parent key
  end.

(** [templates.ContextKey(s)]. *)
Definition ContextKey (s : string) : string := s.

(** ** Effects *)

(** State a goroutine runs against. *)
Record State := {
  world : W;
  now : Z;                 (* the monotonic clock, nanoseconds *)
  fresh : nat;             (* next object / scope to allocate *)
  cancelled : list nat     (* scopes whose CancelFunc has been called *)
}.

(** [ctx.Done()] is closed: a scope on the chain was cancelled or its
    deadline has passed. *)
Fixpoint ctx_done (s : State) (ctx : Context) : bool :=
  match ctx with
  | Background => false
  | WithValue parent _ _ => ctx_done s parent
  | WithCancel parent scope =>
      existsb (Nat.eqb scope) (cancelled s) || ctx_done s parent
  | WithDeadline parent scope deadline =>
      existsb (Nat.eqb scope) (cancelled s) || (deadline <=? now s)
      || ctx_done s parent
  end.

(** One goroutine to start: what the closure of the [go] statement in
    [runJobs] captures.  Started, it calls the handler of [inst_entry]
    with [inst_ctx], the entry's arguments, the global configuration,
    [inst_metric.NewAccumulator(uuid.NewString())] and [inst_logger], and
    logs the handler's error. *)
Record Instance := {
  inst_ctx : Context;
  inst_entry : Config;
  inst_metric : option Metrics;
  inst_logger : Logger
}.

(** What a function does that can be observed from outside it: the calls
    it makes, with the arguments and results that matter here. *)
Inductive Call :=
| c_mapstructure_Decode
| c_utils_Decode
| c_ParseConfig
| c_ParseAndExecute (input : string) (ctx : Context)
| c_Get (type : string)
| c_base64_DecodeString (data : string)
| c_Decrypt
| c_Unmarshal
| c_Next (ctx : Context) (holds : Res bool)
| c_job (type : string) (ctx : Context) (a : option Accumulator)
        (logger : Logger) (result : Res (Value * option GoError))
| c_cancel (scope : nat)
| c_Sleep (d : Duration)
| c_Lock (key : string)
| c_unlock (key : string)
| c_rand_Float64 (draw : Float64.float64)
| c_IncClient
| c_FetchRawMultiConfig (fallback : RawMultiConfig) (got : RawMultiConfig)
| c_config_Unmarshal
| c_runJobs (cfg : MultiConfig) (metric : option Metrics) (logger : Logger)
| c_go (i : Instance)
| c_select (tick : bool)
| c_WriteSummary (t : StatsTracker)
| c_ReportStatistics.

(** The trace: log lines written, and calls with what the callee did. *)
#[warnings="-register-all"] Inductive Event :=
| Log (lvl : Level) (msg : string) (fields : list Field)
| Called (c : Call) (inner : list Event).

Definition M (A : Type) : Type := State -> Res A * State * list Event.

Definition ret {A} (a : A) : M A := fun s => (Ret a, s, []).

Definition bind {A B} (m : M A) (k : A -> M B) : M B :=
  fun s =>
    match m s with
    | (Ret a, s1, t1) => let '(r, s2, t2) := k a s1 in (r, s2, t1 ++ t2)
    | (Halted h, s1, t1) => (Halted h, s1, t1)
    end.

Notation "x <- m ;; k" := (bind m (fun x => k))
  (at level 61, m at next level, right associativity).
Notation "m ;;; k" := (bind m (fun _ => k))
  (at level 61, right associativity).

Definition emit (e : Event) : M unit := fun s => (Ret tt, s, [e]).

Definition halt {A} (h : Halt) : M A := fun s => (Halted h, s, []).

(** A pure call, recorded. *)
Definition called {A} (c : Call) (a : A) : M A :=
  emit (Called c []) ;;; ret a.

(** A call into code that has effects of its own: what it did is kept
    inside the call's event, with how it ended. *)
Definition calling {A} (c : Res A -> Call) (m : M A) : M A :=
  fun s => let '(r, s1, t1) := m s in (r, s1, [Called (c r) t1]).

(** [defer f()] around [body]: [f] runs when [body] returns or panics,
    not when the process exits or the goroutine never gets there. *)
Definition defer {A} (f : M unit) (body : M A) : M A :=
  fun s =>
    match body s with
    | (Ret a, s1, t1) =>
        match f s1 with
        | (Ret _, s2, t2) => (Ret a, s2, t1 ++ t2)
        | (Halted h, s2, t2) => (Halted h, s2, t1 ++ t2)
        end
    | (Halted Panicked, s1, t1) =>
        match f s1 with
        | (Ret _, s2, t2) => (Halted Panicked, s2, t1 ++ t2)
        | (Halted h, s2, t2) => (Halted h, s2, t1 ++ t2)
        end
    | (Halted h, s1, t1) => (Halted h, s1, t1)
    end.

(** [logger.Debug/Info/Warn/Error]: a no-op logger writes nothing. *)
Definition log (logger : Logger) (lvl : Level) (msg : string)
           (fields : list Field) : M unit :=
  match logger with
  | NopLogger => ret tt
  | ZapLogger _ => emit (Log lvl msg fields)
  end.

(** [logger.Fatal]: writes, then [os.Exit(1)], also on a no-op logger. *)
Definition log_Fatal {A} (logger : Logger) (msg : string) : M A :=
  log logger FatalLevel msg [] ;;; halt Exited.

Definition set_now (s : State) (t : Z) : State :=
  {| world := world s; now := t; fresh := fresh s; cancelled := cancelled s |}.

Definition set_world (s : State) (w : W) : State :=
  {| world := w; now := now s; fresh := fresh s; cancelled := cancelled s |}.

(** A new object or scope. *)
Definition alloc : M nat :=
  fun s =>
    (Ret (fresh s),
     {| world := world s; now := now s;
        fresh := S (fresh s); cancelled := cancelled s |},
     []).

(** [time.Sleep(d)]: returns at once for [d <= 0], else pauses the
    goroutine for (at least) [d]. *)
Definition Sleep (d : Duration) : M unit :=
  fun s => (Ret tt, set_now s (now s + Z.max 0 d), [Called (c_Sleep d) []]).

(** [context.WithCancel(ctx)]: a new scope; the [CancelFunc] is the
    scope's name. *)
Definition context_WithCancel (ctx : Context) : M (Context * nat) :=
  scope <- alloc ;; ret (WithCancel ctx scope, scope).

(** [context.WithTimeout(ctx, d)]. *)
Definition context_WithTimeout (ctx : Context) (d : Duration)
  : M (Context * nat) :=
  scope <- alloc ;;
  fun s => (Ret (WithDeadline ctx scope (now s + d), scope), s, []).

(** Calling a [CancelFunc]. *)
Definition cancel (scope : nat) : M unit :=
  fun s =>
    (Ret tt,
     {| world := world s; now := now s;
        fresh := fresh s; cancelled := scope :: cancelled s |},
     [Called (c_cancel scope) []]).

(** A step of the world outside. *)
Definition outside {A} (c : A -> Call) (f : W -> A * W) : M A :=
  fun s =>
    let '(a, w) := f (world s) in (Ret a, set_world s w, [Called (c a) []]).

(** The handler contract: [type Job = func(ctx, args, globalConfig, a,
    logger) (data any, err error)]. *)
Definition Job : Type :=
  Context -> Args -> GlobalConfig -> option Accumulator -> Logger ->
  M (Value * option GoError).

(** Running a handler found under [type]. *)
Definition run (type : string) (job : Job) : Job :=
  fun ctx args globalConfig a logger =>
    calling (c_job type ctx a logger) (job ctx args globalConfig a logger).

(** The anonymous [jobConfig] structs. *)
Record SetVarConfig := { sv_Value : string; sv_Type : string }.
Record DiscardErrorConfig := { de_Basic : BasicJobConfig; de_Job : Config }.
Record TimeoutConfig :=
  { to_Basic : BasicJobConfig; to_Timeout : Duration; to_Job : Config }.
Record LoopConfig := { lp_Basic : BasicJobConfig; lp_Job : Config }.
Record LockConfig :=
  { lk_Basic : BasicJobConfig; lk_Key : string; lk_Job : Config }.
Record EncryptedConfig :=
  { en_Basic : BasicJobConfig; en_Format : string; en_Data : string }.

(** ** What the modelled files take from elsewhere: functions

    - [platform]: the build target;
    - [Decode_setVar], [Decode_sleep], [Decode_cfgMap]:
      [mapstructure.Decode(args, &jobConfig)] and [utils.Decode(x, &y)] at
      the types they are used with;
    - [ParseConfig_*]: [ParseConfig(&jobConfig, args, *globalConfig)] at
      each struct type;
    - [ParseAndExecute]: [templates.ParseAndExecute(logger, input, ctx)],
      the template [input] rendered against [ctx];
    - [Get]: the registry of handlers, [None] being the nil [Job];
    - [Next]: [(c *BasicJobConfig).Next(ctx)], whether the loop goes on, and
      the configuration as the call leaves it;
    - [Lock], [Unlock]: [locker.Lock(key)], which returns once the key is
      free, and the [unlock] it returns;
    - [base64_DecodeString], [Decrypt] (plaintext and whether it is
      protected), [Unmarshal]: [base64.StdEncoding.DecodeString],
      [utils.Decrypt], [utils.Unmarshal(data, &jobCfg, format)];
    - [DefaultConfig], [GOOS], [GOARCH], [Version]: [config.DefaultConfig],
      [runtime.GOOS], [runtime.GOARCH], [ota.Version];
    - [FetchRawMultiConfig]: [config.FetchRawMultiConfig(logger, paths,
      fallback, skipEncrypted)];
    - [config_Unmarshal]: [config.Unmarshal(body, format)], [None] being
      the nil [*MultiConfig];
    - [rand_Float64]: [rand.Float64()], a draw from [0,1);
    - [select_refresh]: which case of the [select] in [Run] is taken, the
      refresh timer ([true]) or [ctx.Done()] ([false]);
    - [IncClient], [WriteSummary], [ReportStatistics]: [metrics.IncClient()],
      [reporter.WriteSummary(tracker)], [metrics.ReportStatistics(0, id)]. *)
Class Collaborators := {
  platform : Float64.Platform;
  Decode_setVar : Args -> GoError + SetVarConfig;
  Decode_sleep : Args -> GoError + Duration;
  Decode_cfgMap : Config -> GoError + CfgMap;
  ParseConfig_discardError : Args -> GlobalConfig -> GoError + DiscardErrorConfig;
  ParseConfig_timeout : Args -> GlobalConfig -> GoError + TimeoutConfig;
  ParseConfig_loop : Args -> GlobalConfig -> GoError + LoopConfig;
  ParseConfig_lock : Args -> GlobalConfig -> GoError + LockConfig;
  ParseConfig_encrypted : Args -> GlobalConfig -> GoError + EncryptedConfig;
  ParseAndExecute : Logger -> string -> Context -> string;
  Get : string -> option Job;
  Next : BasicJobConfig -> Context -> M (bool * BasicJobConfig);
  Lock : string -> W -> unit * W;
  Unlock : string -> W -> unit * W;
  base64_DecodeString : string -> GoError + string;
  Decrypt : string -> GoError + (string * bool);
  Unmarshal : string -> string -> GoError + Config;
  DefaultConfig : string;
  GOOS : string;
  GOARCH : string;
  Version : string;
  FetchRawMultiConfig :
    Logger -> list string -> RawMultiConfig -> bool -> W -> RawMultiConfig * W;
  config_Unmarshal : option string -> string -> option MultiConfig;
  rand_Float64 : W -> Float64.float64 * W;
  select_refresh : Context -> W -> bool * W;
  IncClient : W -> unit * W;
  WriteSummary : Reporter -> StatsTracker -> W -> unit * W;
  ReportStatistics : Z -> string -> W -> option GoError * W
}.

Context {E : Collaborators}.

(* ===================================================================== *)
(** * utils.go: utility and combinator jobs                               *)
(* ===================================================================== *)

Definition render (logger : Logger) (input : string) (ctx : Context) : M string :=
  called (c_ParseAndExecute input ctx) (ParseAndExecute logger input ctx).

Definition lookup (type : string) : M (option Job) :=
  called (c_Get type) (Get type).

Definition parse_error (err : GoError) : Value * option GoError :=
  (VNil, Some (Errorf_w "error parsing job config: %w" err)).

Definition unknown_job (type : string) : Value * option GoError :=
  (VNil, Some (Errorf_q "unknown job %q" type)).

(** "set-value" in config *)
Definition setVarJob : Job :=
  fun ctx args globalConfig a logger =>
    r <- called c_mapstructure_Decode (Decode_setVar args) ;;
    match r with
    | inl err => ret (parse_error err)
    | inr jobConfig =>
        if String.eqb (sv_Type jobConfig) "int" then
          s <- render logger (sv_Value jobConfig) ctx ;;
          let '(n, e) := Strconv.Atoi (Float64.intSize platform) s in
          ret (VInt n, num_error "Atoi" s e)
        else if String.eqb (sv_Type jobConfig) "uint" then
          s <- render logger (sv_Value jobConfig) ctx ;;
          let '(val, e) := Strconv.ParseUint (Float64.intSize platform) s 32 in
          ret (VUint (val mod 2 ^ Float64.intSize platform), num_error "ParseUint" s e)
        else if String.eqb (sv_Type jobConfig) "int64" then
          s <- render logger (sv_Value jobConfig) ctx ;;
          let '(n, e) := Strconv.ParseInt (Float64.intSize platform) s 64 in
          ret (VInt64 n, num_error "ParseInt" s e)
        else if String.eqb (sv_Type jobConfig) "uint64" then
          s <- render logger (sv_Value jobConfig) ctx ;;
          let '(n, e) := Strconv.ParseUint (Float64.intSize platform) s 64 in
          ret (VUint64 n, num_error "ParseUint" s e)
        else
          s <- render logger (sv_Value jobConfig) ctx ;;
          ret (VString s, None)
    end.

(** "sleep" in config *)
Definition sleepJob : Job :=
  fun ctx args globalConfig a logger =>
    r <- called c_utils_Decode (Decode_sleep args) ;;
    match r with
    | inl err => ret (parse_error err)
    | inr value =>
        Sleep value ;;;
        ret (VNil, None)
    end.

(** "discard-error" in config *)
Definition discardErrorJob : Job :=
  fun ctx args globalConfig a logger =>
    r <- called c_ParseConfig (ParseConfig_discardError args globalConfig) ;;
    match r with
    | inl err => ret (parse_error err)
    | inr jobConfig =>
        job <- lookup (Type_ (de_Job jobConfig)) ;;
        match job with
        | None =>
            log logger DebugLevel "unknown job, discarding"
                [FString "job" (Type_ (de_Job jobConfig))] ;;;
            ret (VNil, None)
        | Some job =>
            res <- run (Type_ (de_Job jobConfig)) job
                     ctx (Args_ (de_Job jobConfig)) globalConfig a logger ;;
            match snd res with
            | Some err => log logger DebugLevel "discarded error" [FError err]
            | None => ret tt
            end ;;;
            ret (fst res, None)
        end
    end.

(** "timeout" in config *)
Definition timeoutJob : Job :=
  fun ctx args globalConfig a logger =>
    r <- called c_ParseConfig (ParseConfig_timeout args globalConfig) ;;
    match r with
    | inl err => ret (parse_error err)
    | inr jobConfig =>
        cc <- context_WithTimeout ctx (to_Timeout jobConfig) ;;
        defer (cancel (snd cc))
          (job <- lookup (Type_ (to_Job jobConfig)) ;;
           match job with
           | None => ret (unknown_job (Type_ (to_Job jobConfig)))
           | Some job =>
               run (Type_ (to_Job jobConfig)) job
                 (fst cc) (Args_ (to_Job jobConfig)) globalConfig a logger
           end)
    end.

(** The [for jobConfig.Next(ctx) { ... }] of [loopJob]; [fuel] bounds the
    number of condition evaluations the model follows. *)
Fixpoint loopJob_for (fuel : nat) (basic : BasicJobConfig) (nested : Config)
         (ctx : Context) (globalConfig : GlobalConfig)
         (a : option Accumulator) (logger : Logger)
  : M (Value * option GoError) :=
  match fuel with
  | O => halt Running
  | S fuel' =>
      nx <- calling (fun r => c_Next ctx
                       match r with Ret x => Ret (fst x) | Halted h => Halted h end)
                    (Next basic ctx) ;;
      if fst nx then
        job <- lookup (Type_ nested) ;;
        match job with
        | None => ret (unknown_job (Type_ nested))
        | Some job =>
            res <- run (Type_ nested) job ctx (Args_ nested) globalConfig a logger ;;
            match snd res with
            | Some err => ret (VNil, Some (Errorf_w "error running job: %w" err))
            | None =>
                loopJob_for fuel' (snd nx) nested
                  (WithValue ctx (ContextKey ("data." ++ Name nested)%string)
                             (CtxData (fst res)))
                  globalConfig a logger
            end
        end
      else ret (VNil, None)
  end.

(** "loop" in config *)
Definition loopJob (fuel : nat) : Job :=
  fun ctx args globalConfig a logger =>
    cc <- context_WithCancel ctx ;;
    defer (cancel (snd cc))
      (r <- called c_ParseConfig (ParseConfig_loop args globalConfig) ;;
       match r with
       | inl err => ret (parse_error err)
       | inr jobConfig =>
           loopJob_for fuel (lp_Basic jobConfig) (lp_Job jobConfig)
             (fst cc) globalConfig a logger
       end).

Definition lockJob : Job :=
  fun ctx args globalConfig a logger =>
    cc <- context_WithCancel ctx ;;
    defer (cancel (snd cc))
      (r <- called c_ParseConfig (ParseConfig_lock args globalConfig) ;;
       match r with
       | inl err => ret (parse_error err)
       | inr jobConfig =>
           key <- render logger (lk_Key jobConfig) (fst cc) ;;
           outside (fun _ => c_Lock key) (Lock key) ;;;
           defer (outside (fun _ => c_unlock key) (Unlock key))
             (job <- lookup (Type_ (lk_Job jobConfig)) ;;
              match job with
              | None => ret (unknown_job (Type_ (lk_Job jobConfig)))
              | Some job =>
                  run (Type_ (lk_Job jobConfig)) job
                    (fst cc) (Args_ (lk_Job jobConfig)) globalConfig a logger
              end)
       end).

(** "encrypted" in config *)
Definition encryptedJob : Job :=
  fun ctx args globalConfig a logger =>
    if SkipEncrypted globalConfig then
      ret (VNil, Some (ErrorString "app is configured to skip encrypted jobs"))
    else
      cc <- context_WithCancel ctx ;;
      defer (cancel (snd cc))
        (r <- called c_ParseConfig (ParseConfig_encrypted args globalConfig) ;;
         match r with
         | inl err => ret (parse_error err)
         | inr jobConfig =>
             dec <- called (c_base64_DecodeString (en_Data jobConfig))
                      (base64_DecodeString (en_Data jobConfig)) ;;
             match dec with
             | inl err => ret (VNil, Some err)
             | inr decoded =>
                 dcr <- called c_Decrypt (Decrypt decoded) ;;
                 match dcr with
                 | inl err => ret (VNil, Some err)
                 | inr (decrypted, protected) =>
                     um <- called c_Unmarshal
                             (Unmarshal decrypted (en_Format jobConfig)) ;;
                     match um with
                     | inl err => ret (VNil, Some err)
                     | inr jobCfg =>
                         job <- lookup (Type_ jobCfg) ;;
                         match job with
                         | None => ret (unknown_job (Type_ jobCfg))
                         | Some job =>
                             if protected then
                               run (Type_ jobCfg) job
                                 (fst cc) (Args_ jobCfg) globalConfig None NopLogger
                             else
                               run (Type_ jobCfg) job
                                 (fst cc) (Args_ jobCfg) globalConfig a logger
                         end
                     end
                 end
             end
         end).

(* ===================================================================== *)
(** * The runner                                                          *)
(* ===================================================================== *)

(** Runner executes jobs according to the (fetched from remote)
    configuration *)
Record Runner := {
  cfgOptions : ConfigOptions;
  globalJobsCfg : GlobalConfig;
  reporter : option Reporter
}.

Definition nonEmptyStringOrDefault (s defaultString : string) : string :=
  if negb (String.eqb s "") then s else defaultString.

Definition nonNilConfigOrDefault (c defaultConfig : RawMultiConfig)
  : RawMultiConfig :=
  match Body c with
  | Some _ => c
  | None => defaultConfig
  end.

(** The bytes of a slice; a nil slice has none. *)
Definition slice_bytes (b : option string) : string :=
  match b with Some x => x | None => EmptyString end.

(** [bytes.Equal(a, b)]: same length and same bytes; a nil argument is
    equivalent to an empty slice. *)
Definition bytes_Equal (a b : option string) : bool :=
  String.eqb (slice_bytes a) (slice_bytes b).

(** Modelled from the spec: [utils.Max], declared outside the given
    sources; "max(requestedCount, 1)". *)
Definition utils_Max (a b : Z) : Z := Z.max a b.

Definition computeCount (count : Z) (scaleFactor : Float64.float64) : M Z :=
  let scaledCount :=
    Float64.mul scaleFactor (Float64.of_int (utils_Max count 1)) in
  if Float64.ltb Float64.one scaledCount then
    ret (Float64.to_int platform scaledCount)
  else
    (* if we have less than 1 goroutine per job we just filter them
       randomly so that only jobs*scaledCount pass *)
    draw <- outside c_rand_Float64 rand_Float64 ;;
    if Float64.ltb draw scaledCount then ret 1 else ret 0.

(** [for j := 0; j < cfg.Jobs[i].Count; j++ { ...; go func(i int) {...}(i);
    jobInstancesCount++ }], with [n] iterations left. *)
Fixpoint runJobs_go (n : nat) (inst : Instance) (jobInstancesCount : Z)
  : M Z :=
  match n with
  | O => ret jobInstancesCount
  | S n' =>
      (if negb (String.eqb (Name (inst_entry inst)) "") then
         log (inst_logger inst) InfoLevel "Attacking"
             [FString "target" (Name (inst_entry inst))]
       else ret tt) ;;;
      emit (Called (c_go inst) []) ;;;
      runJobs_go n' inst (jobInstancesCount + 1)
  end.

(** One turn of [for i := range cfg.Jobs]. *)
Definition runJobs_entry (r : Runner) (ctx : Context) (metric : option Metrics)
           (logger : Logger) (entry : Config) (jobInstancesCount : Z) : M Z :=
  skip <- (if negb (Nat.eqb (String.length (Filter entry)) 0) then
             rendered <- render logger (Filter entry) ctx ;;
             ret (negb (String.eqb (Strings.TrimSpace rendered) "true"))
           else ret false) ;;
  if skip then
    log logger InfoLevel
        "There is a filter defined for a job but this client doesn't pass it - skip the job"
        [] ;;;
    ret jobInstancesCount
  else
    job <- lookup (Type_ entry) ;;
    match job with
    | None =>
        log logger WarnLevel "unknown job" [FString "type" (Type_ entry)] ;;;
        ret jobInstancesCount
    | Some _ =>
        count <- (if Float64.ltb Float64.zero (ScaleFactor (globalJobsCfg r)) then
                    computeCount (Count entry) (ScaleFactor (globalJobsCfg r))
                  else ret (Count entry)) ;;
        let entry' :=
          {| Name := Name entry; Type_ := Type_ entry; Count := count;
             Filter := Filter entry; Args_ := Args_ entry |} in
        dec <- called c_utils_Decode (Decode_cfgMap entry') ;;
        match dec with
        | inl _ => log_Fatal logger "failed to encode cfg map"
        | inr cfgMap =>
            let ctx' :=
              WithValue
                (WithValue ctx (ContextKey "config") (CtxConfig cfgMap))
                (ContextKey "metrics") (CtxMetrics metric) in
            runJobs_go (Z.to_nat count)
              {| inst_ctx := ctx'; inst_entry := entry';
                 inst_metric := metric; inst_logger := logger |}
              jobInstancesCount
        end
    end.

Fixpoint runJobs_for (r : Runner) (ctx : Context) (metric : option Metrics)
         (logger : Logger) (jobs : list Config) (jobInstancesCount : Z)
  : M Z :=
  match jobs with
  | [] => ret jobInstancesCount
  | entry :: rest =>
      n <- runJobs_entry r ctx metric logger entry jobInstancesCount ;;
      runJobs_for r ctx metric logger rest n
  end.

(** [(r *Runner) runJobs(ctx, cfg, metric, logger)]; the result is the
    [CancelFunc] of the generation. *)
Definition runJobs (r : Runner) (ctx : Context) (cfg : MultiConfig)
           (metric : option Metrics) (logger : Logger) : M nat :=
  calling (fun _ => c_runJobs cfg metric logger)
    (cc <- context_WithCancel ctx ;;
     let ctx := WithValue (fst cc) (ContextKey "goos") (CtxString GOOS) in
     let ctx := WithValue ctx (ContextKey "goarch") (CtxString GOARCH) in
     let ctx := WithValue ctx (ContextKey "version") (CtxString Version) in
     n <- runJobs_for r ctx metric logger (Jobs cfg) 0 ;;
     log logger InfoLevel "job instances (re)started" [FInt "count" n] ;;;
     ret (snd cc)).

Definition reportMetrics (reporter : option Reporter)
           (tracker : option StatsTracker) (clientID : string)
           (logger : Logger) : M unit :=
  match reporter, tracker with
  | Some rep, Some tr =>
      outside (fun _ => c_WriteSummary tr) (WriteSummary rep tr) ;;;
      (* TODO: get rid of this *)
      err <- outside (fun _ => c_ReportStatistics) (ReportStatistics 0 clientID) ;;
      match err with
      | Some e => log logger DebugLevel "error reporting statistics" [FError e]
      | None => ret tt
      end
  | _, _ => ret tt
  end.

(** The variables of [Run] that live across iterations. *)
Record RunLocals := {
  lastKnownConfig : RawMultiConfig;
  cancelFunc : option nat;
  tracker : option StatsTracker
}.

(** The first half of the body of [for { ... }] in [Run]: fetch, decode,
    compare, and restart the jobs if the configuration is new. *)
Definition Run_apply (r : Runner) (ctx : Context) (logger : Logger)
           (l : RunLocals) : M RunLocals :=
  let fallback :=
    nonNilConfigOrDefault (lastKnownConfig l)
      {| Body := Some (nonEmptyStringOrDefault
                         (BackupConfig (cfgOptions r)) DefaultConfig);
         Protected := false |} in
  rawConfig <- outside (c_FetchRawMultiConfig fallback)
                 (FetchRawMultiConfig logger
                    (Strings.Split_comma (PathsCSV (cfgOptions r)))
                    fallback (SkipEncrypted (globalJobsCfg r))) ;;
  cfg <- called c_config_Unmarshal
           (config_Unmarshal (Body rawConfig) (Format (cfgOptions r))) ;;
  match negb (bytes_Equal (Body (lastKnownConfig l)) (Body rawConfig)), cfg with
  | true, Some cfg =>
      (* Only restart jobs if the new config differs from the current one *)
      log logger InfoLevel "new config received, applying" [] ;;;
      match cancelFunc l with
      | Some c => cancel c
      | None => ret tt
      end ;;;
      (* clear info about previous targets and avoid old jobs from dumping
         old info to new metrics *)
      addr <- alloc ;;
      let metric := {| metrics_addr := addr |} in
      c <- (if Protected rawConfig then
              log logger InfoLevel "config is protected, disabling logs" [] ;;;
              runJobs r ctx cfg None NopLogger
            else runJobs r ctx cfg (Some metric) logger) ;;
      ret {| lastKnownConfig := rawConfig;
             cancelFunc := Some c;
             tracker := Some (NewStatsTracker metric) |}
  | _, _ =>
      log logger InfoLevel
          "the config has not changed. Keep calm and carry on!" [] ;;;
      ret l
  end.

(** The body of [for { ... }] in [Run]; [None] when [Run] returns. *)
Definition Run_cycle (r : Runner) (ctx : Context) (logger : Logger)
           (l : RunLocals) : M (option RunLocals) :=
  l' <- Run_apply r ctx logger l ;;
  (* Wait for refresh timer or stop signal *)
  tick <- outside c_select (select_refresh ctx) ;;
  if tick then
    reportMetrics (reporter r) (tracker l') (ClientID (globalJobsCfg r)) logger ;;;
    ret (Some l')
  else
    match cancelFunc l' with
    | Some c => cancel c
    | None => ret tt
    end ;;;
    ret None.

Fixpoint Run_for (fuel : nat) (r : Runner) (ctx : Context) (logger : Logger)
         (l : RunLocals) : M unit :=
  match fuel with
  | O => halt Running
  | S fuel' =>
      next <- Run_cycle r ctx logger l ;;
      match next with
      | Some l' => Run_for fuel' r ctx logger l'
      | None => ret tt
      end
  end.

(** Run the runner and block until Stop() is called.  [time.NewTicker]
    panics on a non-positive interval. *)
Definition Run (fuel : nat) (r : Runner) (ctx : Context) (logger : Logger)
  : M unit :=
  let ctx := WithValue ctx (ContextKey "global") (CtxGlobal (globalJobsCfg r)) in
  if RefreshTimeout (cfgOptions r) <=? 0 then halt Panicked
  else
    outside (fun _ => c_IncClient) IncClient ;;;
    Run_for fuel r ctx logger
      {| lastKnownConfig := {| Body := None; Protected := false |};
         cancelFunc := None;
         tracker := None |}.

End Engine.

(* ===================================================================== *)
(** * Reading results and traces                                          *)
(* ===================================================================== *)

Section Observations.

Context {W Args BasicJobConfig CfgMap Accumulator Reporter : Type}.

Definition Outcome (A : Type) : Type :=
  (Res A * @State W * list (@Event Args CfgMap Accumulator))%type.

Definition result_of {A} (o : Outcome A) : Res A := fst (fst o).
Definition state_of {A} (o : Outcome A) : State := snd (fst o).
Definition trace_of {A} (o : Outcome A) : list Event := snd o.

(** A [CancelFunc] was called. *)
Definition is_cancel (e : @Event Args CfgMap Accumulator) : bool :=
  match e with Called (c_cancel _) _ => true | _ => false end.

(** [runJobs] was called: a generation was launched. *)
Definition is_runJobs (e : @Event Args CfgMap Accumulator) : bool :=
  match e with Called (c_runJobs _ _ _) _ => true | _ => false end.

(** A goroutine was started. *)
Definition is_go (e : @Event Args CfgMap Accumulator) : bool :=
  match e with Called (c_go _) _ => true | _ => false end.

(** The registry was consulted. *)
Definition is_lookup (e : @Event Args CfgMap Accumulator) : bool :=
  match e with Called (c_Get _) _ => true | _ => false end.

(** The continuation condition was evaluated. *)
Definition is_eval (e : @Event Args CfgMap Accumulator) : bool :=
  match e with Called (c_Next _ _) _ => true | _ => false end.

(** The continuation condition was evaluated and held. *)
Definition is_holds (e : @Event Args CfgMap Accumulator) : bool :=
  match e with Called (c_Next _ (Ret true)) _ => true | _ => false end.

(** A handler was run. *)
Definition is_run (e : @Event Args CfgMap Accumulator) : bool :=
  match e with Called (c_job _ _ _ _ _) _ => true | _ => false end.

(** A call of the condition or of a handler that did not return. *)
Definition is_unfinished (e : @Event Args CfgMap Accumulator) : bool :=
  match e with
  | Called (c_Next _ (Halted _)) _ => true
  | Called (c_job _ _ _ _ (Halted _)) _ => true
  | _ => false
  end.

Definition count (p : @Event Args CfgMap Accumulator -> bool)
           (tr : list (@Event Args CfgMap Accumulator)) : nat :=
  List.length (filter p tr).





End Observations.

(* ===================================================================== *)
(** * Conditions the statements refer to                                  *)
(* ===================================================================== *)

Section Conditions.

Context {W Args BasicJobConfig CfgMap Accumulator Reporter : Type}.
Context {E : @Collaborators W Args BasicJobConfig CfgMap Accumulator Reporter}.

(** The filter of an entry, rendered by [logger] against [ctx]. *)
Definition rendered_filter (logger : Logger) (ctx : Context)
           (entry : @Config Args)
  : string :=
  ParseAndExecute logger (Filter entry) ctx.

(** What [Run] passes to [config.FetchRawMultiConfig] as the fallback. *)
Definition fallback_config (r : @Runner Reporter) (l : RunLocals)
  : RawMultiConfig :=
  nonNilConfigOrDefault (lastKnownConfig l)
    {| Body := Some (nonEmptyStringOrDefault
                       (BackupConfig (cfgOptions r)) DefaultConfig);
       Protected := false |}.

(** The raw configuration a refresh cycle fetches when it starts in [s]. *)
Definition fetched (r : @Runner Reporter) (logger : Logger) (l : RunLocals)
           (s : @State W)
  : RawMultiConfig :=
  fst (FetchRawMultiConfig logger
         (Strings.Split_comma (PathsCSV (cfgOptions r)))
         (fallback_config r l) (SkipEncrypted (globalJobsCfg r)) (world s)).

(** The state in which a combinator that opens a scope of its own first
    looks at its configuration. *)
Definition scoped (s : @State W) : @State W :=
  {| world := world s; now := now s;
     fresh := S (fresh s); cancelled := cancelled s |}.

(** [float64(scaleFactor * max(count, 1))], the product [computeCount]
    compares with 1. *)
Definition scaled (count : Z) (scaleFactor : Float64.float64)
  : Float64.float64 :=
  Float64.mul scaleFactor (Float64.of_int (utils_Max count 1)).

End Conditions.

(* ===================================================================== *)
(** * A small installation, for running the definitions                   *)
(* ===================================================================== *)

Module Demo.

(** Job arguments, already in the shape the decoders look for. *)
Inductive Args :=
| SetVarArgs (value type : string)
| SleepArgs (value : Duration)
| NestedArgs (count : nat) (timeout : Duration) (key : string)
             (name type : string) (args : Args)
| EncryptedArgs (format data : string).

Definition bad_args {A} : GoError + A := inl (ErrorString "cannot decode").

Definition nested (name type : string) (args : Args) : @Config Args :=
  {| Name := name; Type_ := type; Count := 0; Filter := ""; Args_ := args |}.

(** A continuation condition: stop once the scope is cancelled, else count
    the iterations down. *)
Definition countdown (left : nat) (ctx : @Context unit)
  : @M unit Args unit unit (bool * nat) :=
  fun s =>
    if ctx_done s ctx then (Ret (false, left), s, [])
    else match left with
         | O => (Ret (false, O), s, [])
         | S k => (Ret (true, k), s, [])
         end.

(** Everything but the registry.  Templates without actions render to
    themselves; the one encrypted payload known here is protected. *)
Definition collaborators (registry : string -> option (@Job unit Args unit unit))
  : @Collaborators unit Args nat unit unit unit :=
  {| platform := Float64.amd64;
     Decode_setVar := fun a =>
       match a with
       | SetVarArgs v t => inr {| sv_Value := v; sv_Type := t |}
       | _ => bad_args
       end;
     Decode_sleep := fun a =>
       match a with SleepArgs d => inr d | _ => bad_args end;
     Decode_cfgMap := fun _ => inr tt;
     ParseConfig_discardError := fun a _ =>
       match a with
       | NestedArgs n _ _ name ty args =>
           inr {| de_Basic := n; de_Job := nested name ty args |}
       | _ => bad_args
       end;
     ParseConfig_timeout := fun a _ =>
       match a with
       | NestedArgs n d _ name ty args =>
           inr {| to_Basic := n; to_Timeout := d; to_Job := nested name ty args |}
       | _ => bad_args
       end;
     ParseConfig_loop := fun a _ =>
       match a with
       | NestedArgs n _ _ name ty args =>
           inr {| lp_Basic := n; lp_Job := nested name ty args |}
       | _ => bad_args
       end;
     ParseConfig_lock := fun a _ =>
       match a with
       | NestedArgs n _ k name ty args =>
           inr {| lk_Basic := n; lk_Key := k; lk_Job := nested name ty args |}
       | _ => bad_args
       end;
     ParseConfig_encrypted := fun a _ =>
       match a with
       | EncryptedArgs f d => inr {| en_Basic := O; en_Format := f; en_Data := d |}
       | _ => bad_args
       end;
     ParseAndExecute := fun _ input _ => input;
     Get := registry;
     Next := countdown;
     Lock := fun _ w => (tt, w);
     Unlock := fun _ w => (tt, w);
     base64_DecodeString := fun s =>
       if String.eqb s "c2VjcmV0" then inr "secret"
       else inl (ErrorString "illegal base64 data");
     Decrypt := fun s =>
       if String.eqb s "secret" then inr ("sleep 1s", true)
       else inr (s, false);
     Unmarshal := fun s _ =>
       if String.eqb s "sleep 1s"
       then inr (nested "" "sleep" (SleepArgs 1000000000))
       else inl (ErrorString "cannot unmarshal");
     DefaultConfig := "";
     GOOS := "linux";
     GOARCH := "amd64";
     Version := "v0";
     FetchRawMultiConfig := fun _ _ fallback _ w => (fallback, w);
     config_Unmarshal := fun body _ =>
       match body with
       | Some b =>
           if String.eqb b "one" then
             Some {| Jobs := [ {| Name := "a"; Type_ := "sleep"; Count := 1;
                                  Filter := ""; Args_ := SleepArgs 1 |} ] |}
           else None
       | None => None
       end;
     rand_Float64 := fun w => (Float64.zero, w);
     select_refresh := fun _ w => (true, w);
     IncClient := fun w => (tt, w);
     WriteSummary := fun _ _ w => (tt, w);
     ReportStatistics := fun _ _ w => (None, w) |}.

(** The terminal jobs, which do not consult the registry. *)
Definition E0 : Collaborators := collaborators (fun _ => None).

(** The registry: the names are those of the comments in utils.go. *)
Definition registry (type : string) : option Job :=
  if String.eqb type "set-value" then Some (setVarJob (E := E0))
  else if String.eqb type "sleep" then Some (sleepJob (E := E0))
  else None.

Definition E : Collaborators := collaborators registry.

Definition st0 : @State unit :=
  {| world := tt; now := 0; fresh := 1; cancelled := [] |}.

(** The same, after scope 0 has been cancelled. *)
Definition st_cancelled : @State unit :=
  {| world := tt; now := 0; fresh := 1; cancelled := [O] |}.

Definition ctx0 : @Context unit := WithCancel Background 0.

Definition globals (skip : bool) : GlobalConfig :=
  {| ClientID := "id"; SkipEncrypted := skip; ScaleFactor := Float64.zero |}.

Definition logger0 : Logger := ZapLogger 0.

(** A loop over "set-value" that holds three times. *)
Definition loop_args : Args :=
  NestedArgs 3 0 "k" "x" "set-value" (SetVarArgs "12" "int").

(** A discard-error job around a "set-value" that fails with data. *)
Definition discard_args : Args :=
  NestedArgs 0 0 "k" "x" "set-value" (SetVarArgs "99999999999" "uint").

(** A combinator around a job type nobody registered. *)
Definition unknown_args : Args :=
  NestedArgs 3 1000000000 "k" "x" "no-such-job" (SleepArgs 1).

(** An entry whose filter renders to " true". *)
Definition padded_entry : @Config Args :=
  {| Name := "a"; Type_ := "sleep"; Count := 1; Filter := " true";
     Args_ := SleepArgs 1 |}.

Definition unknown_entry : @Config Args :=
  {| Name := "a"; Type_ := "no-such-job"; Count := 1; Filter := "";
     Args_ := SleepArgs 1 |}.

Definition locals0 : RunLocals :=
  {| lastKnownConfig := {| Body := None; Protected := false |};
     cancelFunc := None;
     tracker := None |}.


Definition runner0 : @Runner unit :=
  {| cfgOptions := {| PathsCSV := ""; BackupConfig := "one"; Format := "yaml";
                      RefreshTimeout := 60000000000 |};
     globalJobsCfg := globals false;
     reporter := None |}.

End Demo.

(* ===================================================================== *)
(** * The rest of utils.go and of the runner                              *)
(* ===================================================================== *)

Section MoreEngine.

Context {W Args BasicJobConfig CfgMap Accumulator Reporter : Type}.
Context {E : @Collaborators W Args BasicJobConfig CfgMap Accumulator Reporter}.

(** What the "log" and "check" jobs and the goroutines of the launch pass
    take from elsewhere:
    - [Decode_log], [Decode_check]: [mapstructure.Decode(args, &jobConfig)]
      into [struct { Text string }] and [struct { Value string }];
    - [uuid_NewString]: [uuid.NewString()];
    - [NewAccumulator]: [metric.NewAccumulator(id)], on a [metric] that may
      be nil;
    - [PanicHandler]: the deferred [utils.PanicHandler(logger)], told
      whether a panic is in flight, telling whether it recovered it. *)
Class Helpers := {
  Decode_log : Args -> GoError + string;
  Decode_check : Args -> GoError + string;
  uuid_NewString : W -> string * W;
  NewAccumulator : option Metrics -> string -> option Accumulator;
  PanicHandler : Logger -> bool -> @M W Args CfgMap Accumulator bool
}.

Context {H : Helpers}.

Notation "x <- m ;; k" := (bind m (fun x => k))
  (at level 61, m at next level, right associativity).
Notation "m ;;; k" := (bind m (fun _ => k))
  (at level 61, right associativity).

(** "log" in config *)
Definition logJob : Job :=
  fun ctx args globalConfig a logger =>
    r <- called c_mapstructure_Decode (Decode_log args) ;;
    match r with
    | inl err => ret (parse_error err)
    | inr text =>
        msg <- render logger text ctx ;;
        log logger InfoLevel msg [] ;;;
        ret (VNil, None)
    end.

(** "check" in config *)
Definition checkJob : Job :=
  fun ctx args globalConfig a logger =>
    r <- called c_mapstructure_Decode (Decode_check args) ;;
    match r with
    | inl err => ret (parse_error err)
    | inr value =>
        rendered <- render logger value ctx ;;
        if negb (String.eqb rendered "true") then
          ret (VNil, Some (Errorf_q "validation failed %v" value))
        else ret (VNil, None)
    end.

(** NewRunner according to the config *)
Definition NewRunner (cfgOptions : ConfigOptions) (globalJobsCfg : GlobalConfig)
           (reporter : option Reporter) : @Runner Reporter :=
  {| cfgOptions := cfgOptions;
     globalJobsCfg := globalJobsCfg;
     reporter := reporter |}.

(** A deferred function that may [recover()]: it runs when [body] returns
    and when it panics; a panic it recovers ends the goroutine normally. *)
Definition defer_recover (f : bool -> @M W Args CfgMap Accumulator bool)
           (body : @M W Args CfgMap Accumulator unit)
  : @M W Args CfgMap Accumulator unit :=
  fun s =>
    match body s with
    | (Ret _, s1, t1) =>
        match f false s1 with
        | (Ret _, s2, t2) => (Ret tt, s2, t1 ++ t2)
        | (Halted h, s2, t2) => (Halted h, s2, t1 ++ t2)
        end
    | (Halted Panicked, s1, t1) =>
        match f true s1 with
        | (Ret true, s2, t2) => (Ret tt, s2, t1 ++ t2)
        | (Ret false, s2, t2) => (Halted Panicked, s2, t1 ++ t2)
        | (Halted h, s2, t2) => (Halted h, s2, t1 ++ t2)
        end
    | (Halted h, s1, t1) => (Halted h, s1, t1)
    end.

(** The goroutine [runJobs] starts for an instance, [job] being the
    handler found for the entry:

    go func(i int) {
      defer utils.PanicHandler(logger)
      if _, err := job(ctx, cfg.Jobs[i].Args, r.globalJobsCfg,
                       metric.NewAccumulator(uuid.NewString()), logger);
         err != nil {
        logger.Error("error running job", zap.String("name", ...),
                     zap.String("type", ...), zap.Error(err)) } }(i) *)
Definition runJobs_goroutine (r : @Runner Reporter)
           (job : @Job W Args CfgMap Accumulator) (i : @Instance Args CfgMap)
  : @M W Args CfgMap Accumulator unit :=
  defer_recover (PanicHandler (inst_logger i))
    (id <- (fun s => let '(id, w) := uuid_NewString (world s) in
                     (Ret id, set_world s w, [])) ;;
     res <- run (Type_ (inst_entry i)) job
              (inst_ctx i) (Args_ (inst_entry i)) (globalJobsCfg r)
              (NewAccumulator (inst_metric i) id) (inst_logger i) ;;
     match snd res with
     | Some err =>
         log (inst_logger i) ErrorLevel "error running job"
             [FString "name" (Name (inst_entry i));
              FString "type" (Type_ (inst_entry i));
              FError err]
     | None => ret tt
     end).

End MoreEngine.

(* ===================================================================== *)
(** * More ways to read traces and contexts                               *)
(* ===================================================================== *)

Section MoreObservations.

Context {W Args BasicJobConfig CfgMap Accumulator Reporter : Type}.

(** A log line. *)
Definition is_log (e : @Event Args CfgMap Accumulator) : bool :=
  match e with Log _ _ _ => true | _ => false end.

(** [locker.Lock] and the [unlock] it returns, for a key. *)
Definition is_lock (key : string) (e : @Event Args CfgMap Accumulator) : bool :=
  match e with Called (c_Lock k) _ => String.eqb k key | _ => false end.

Definition is_unlock (key : string) (e : @Event Args CfgMap Accumulator) : bool :=
  match e with Called (c_unlock k) _ => String.eqb k key | _ => false end.

(** [time.Sleep], [rand.Float64], [reporter.WriteSummary]. *)
Definition is_sleep (e : @Event Args CfgMap Accumulator) : bool :=
  match e with Called (c_Sleep _) _ => true | _ => false end.

Definition is_draw (e : @Event Args CfgMap Accumulator) : bool :=
  match e with Called (c_rand_Float64 _) _ => true | _ => false end.

Definition is_summary (e : @Event Args CfgMap Accumulator) : bool :=
  match e with Called (c_WriteSummary _) _ => true | _ => false end.

(** The [select] of [Run] took the refresh timer. *)
Definition is_refresh (e : @Event Args CfgMap Accumulator) : bool :=
  match e with Called (c_select true) _ => true | _ => false end.

(** A fetch that was handed a fallback without a body. *)
Definition nil_fallback (e : @Event Args CfgMap Accumulator) : bool :=
  match e with
  | Called (c_FetchRawMultiConfig fallback _) _ =>
      match Body fallback with None => true | Some _ => false end
  | _ => false
  end.

(** A template was rendered. *)
Definition is_render (e : @Event Args CfgMap Accumulator) : bool :=
  match e with Called (c_ParseAndExecute _ _) _ => true | _ => false end.

(** The goroutines a trace starts, in order. *)
Fixpoint launched (tr : list (@Event Args CfgMap Accumulator))
  : list (@Instance Args CfgMap) :=
  match tr with
  | [] => []
  | Called (c_go i) _ :: rest => i :: launched rest
  | _ :: rest => launched rest
  end.

(** What the launch pass did: the events inside its call. *)
Fixpoint inside_runJobs (tr : list (@Event Args CfgMap Accumulator))
  : list (@Event Args CfgMap Accumulator) :=
  match tr with
  | [] => []
  | Called (c_runJobs _ _ _) inner :: rest => inner ++ inside_runJobs rest
  | _ :: rest => inside_runJobs rest
  end.

(** The context was derived, by any number of steps, from a context that
    opened [scope]. *)
Fixpoint under_scope (scope : nat) (ctx : @Context CfgMap) : bool :=
  match ctx with
  | Background => false
  | WithValue parent _ _ => under_scope scope parent
  | WithCancel parent sc | WithDeadline parent sc _ =>
      Nat.eqb sc scope || under_scope scope parent
  end.

(** The state once the [CancelFunc] of [scope] has been called in [s]. *)
Definition after_cancel (scope : nat) (s : @State W) : @State W :=
  {| world := world s; now := now s; fresh := fresh s;
     cancelled := scope :: cancelled s |}.

(** The last event of a trace. *)
Definition last_event (tr : list (@Event Args CfgMap Accumulator))
  : option (@Event Args CfgMap Accumulator) :=
  match rev tr with
  | [] => None
  | e :: _ => Some e
  end.

(** The Go type of a job's data, as "set-value" names the types. *)
Definition value_type (v : Value) : string :=
  match v with
  | VNil => "nil"
  | VInt _ => "int"
  | VUint _ => "uint"
  | VInt64 _ => "int64"
  | VUint64 _ => "uint64"
  | VString _ => "string"
  | VOther _ => "other"
  end.

(** The value of a signed decimal numeral: an optional sign, then digits. *)
Definition signed_digits (s : string) : string :=
  match s with
  | String c rest =>
      if Ascii.eqb c "+" || Ascii.eqb c "-" then rest else s
  | EmptyString => s
  end.

Definition is_signed_decimal (s : string) : bool :=
  Strconv.is_decimal (signed_digits s).

Definition signed_value (s : string) : Z :=
  match s with
  | String c rest =>
      if Ascii.eqb c "-" then - Strconv.decimal_value rest
      else Strconv.decimal_value (signed_digits s)
  | EmptyString => 0
  end.

(** What [ParseInt] and [Atoi] make of a value at [bits] bits: the value
    when it fits, else the nearest bound with the range error. *)
Definition saturate (bits v : Z) : Z * option Strconv.NumErrKind :=
  if (- 2 ^ (bits - 1) <=? v) && (v <=? 2 ^ (bits - 1) - 1) then (v, None)
  else if v <? 0 then (- 2 ^ (bits - 1), Some Strconv.ErrRange)
  else (2 ^ (bits - 1) - 1, Some Strconv.ErrRange).

End MoreObservations.

(* ===================================================================== *)
(** * What the launch pass makes of an entry                              *)
(* ===================================================================== *)

Section MoreConditions.

Context {W Args BasicJobConfig CfgMap Accumulator Reporter : Type}.
Context {E : @Collaborators W Args BasicJobConfig CfgMap Accumulator Reporter}.

(** [i] is an instance of [entry] as the launch pass starts them under
    [ctx]: it carries the sink and the logger of the pass and the entry
    with its count as launched (the scaled one when the scale factor is
    positive), which is positive; the entry's type is registered; and its
    context is [ctx] extended by the entry as a map under "config" and the
    sink under "metrics". *)
Definition instance_of (r : @Runner Reporter) (lg : Logger)
           (ctx : @Context CfgMap) (metric : option Metrics)
           (entry : @Config Args) (i : @Instance Args CfgMap) : Prop :=
  inst_metric i = metric
  /\ inst_logger i = lg
  /\ Name (inst_entry i) = Name entry
  /\ Type_ (inst_entry i) = Type_ entry
  /\ Filter (inst_entry i) = Filter entry
  /\ Args_ (inst_entry i) = Args_ entry
  /\ Get (Type_ entry) <> None
  /\ 0 < Count (inst_entry i)
  /\ (Float64.ltb Float64.zero (ScaleFactor (globalJobsCfg r)) = false ->
      Count (inst_entry i) = Count entry)
  /\ exists m,
       Decode_cfgMap (inst_entry i) = inr m
       /\ inst_ctx i
          = WithValue (WithValue ctx (ContextKey "config") (CtxConfig m))
                      (ContextKey "metrics") (CtxMetrics metric).

End MoreConditions.

Module Demo2.

(** The text of a "log" job and the value of a "check" job are taken from
    the value of [SetVarArgs]; the panic handler recovers every panic. *)
Definition H : @Helpers unit Demo.Args unit unit :=
  {| Decode_log := fun a =>
       match a with Demo.SetVarArgs v _ => inr v | _ => Demo.bad_args end;
     Decode_check := fun a =>
       match a with Demo.SetVarArgs v _ => inr v | _ => Demo.bad_args end;
     uuid_NewString := fun w => ("00000000-0000-4000-8000-000000000000", w);
     NewAccumulator := fun m _ =>
       match m with Some _ => Some tt | None => None end;
     PanicHandler := fun _ panicking s => (Ret panicking, s, []) |}.

(** A handler that panics. *)
Definition panicking_job : @Job unit Demo.Args unit unit :=
  fun _ _ _ _ _ s => (Halted Panicked, s, []).

(** A handler that fails with data. *)
Definition failing_job : @Job unit Demo.Args unit unit :=
  fun _ _ _ _ _ s => (Ret (VNil, Some (ErrorString "boom")), s, []).

(** A registry with more in it. *)
Definition registry (type : string) : option Job :=
  if String.eqb type "panic" then Some panicking_job
  else if String.eqb type "fail" then Some failing_job
  else Demo.registry type.

Definition E : Collaborators := Demo.collaborators registry.

Definition instance0 : @Instance Demo.Args unit :=
  {| inst_ctx := Demo.ctx0;
     inst_entry := {| Name := "a"; Type_ := "fail"; Count := 1; Filter := "";
                      Args_ := Demo.SleepArgs 1 |};
     inst_metric := None;
     inst_logger := Demo.logger0 |}.

(** A configuration of three entries: one filtered out, one of a type
    nobody registered, one launched twice. *)
Definition three_jobs : list (@Config Demo.Args) :=
  [ {| Name := "f"; Type_ := "sleep"; Count := 5; Filter := "false";
       Args_ := Demo.SleepArgs 1 |};
    {| Name := "u"; Type_ := "no-such-job"; Count := 5; Filter := "";
       Args_ := Demo.SleepArgs 1 |};
    {| Name := "s"; Type_ := "sleep"; Count := 2; Filter := "true";
       Args_ := Demo.SleepArgs 1 |} ].

(** The same installation with the stop signal pending: the [select] of
    [Run] takes [ctx.Done()]. *)
Definition stopping : @Collaborators unit Demo.Args nat unit unit unit :=
  {| platform := @platform _ _ _ _ _ _ E;
     Decode_setVar := @Decode_setVar _ _ _ _ _ _ E;
     Decode_sleep := @Decode_sleep _ _ _ _ _ _ E;
     Decode_cfgMap := @Decode_cfgMap _ _ _ _ _ _ E;
     ParseConfig_discardError := @ParseConfig_discardError _ _ _ _ _ _ E;
     ParseConfig_timeout := @ParseConfig_timeout _ _ _ _ _ _ E;
     ParseConfig_loop := @ParseConfig_loop _ _ _ _ _ _ E;
     ParseConfig_lock := @ParseConfig_lock _ _ _ _ _ _ E;
     ParseConfig_encrypted := @ParseConfig_encrypted _ _ _ _ _ _ E;
     ParseAndExecute := @ParseAndExecute _ _ _ _ _ _ E;
     Get := @Get _ _ _ _ _ _ E;
     Next := @Next _ _ _ _ _ _ E;
     Lock := @Lock _ _ _ _ _ _ E;
     Unlock := @Unlock _ _ _ _ _ _ E;
     base64_DecodeString := @base64_DecodeString _ _ _ _ _ _ E;
     Decrypt := @Decrypt _ _ _ _ _ _ E;
     Unmarshal := @Unmarshal _ _ _ _ _ _ E;
     DefaultConfig := @DefaultConfig _ _ _ _ _ _ E;
     GOOS := @GOOS _ _ _ _ _ _ E;
     GOARCH := @GOARCH _ _ _ _ _ _ E;
     Version := @Version _ _ _ _ _ _ E;
     FetchRawMultiConfig := @FetchRawMultiConfig _ _ _ _ _ _ E;
     config_Unmarshal := @config_Unmarshal _ _ _ _ _ _ E;
     rand_Float64 := @rand_Float64 _ _ _ _ _ _ E;
     select_refresh := fun _ w => (false, w);
     IncClient := @IncClient _ _ _ _ _ _ E;
     WriteSummary := @WriteSummary _ _ _ _ _ _ E;
     ReportStatistics := @ReportStatistics _ _ _ _ _ _ E |}.

(** A configuration of the three entries. *)
Definition cfg3 : @MultiConfig Demo.Args := {| Jobs := three_jobs |}.

(** An entry of count zero. *)
Definition idle_entry : @Config Demo.Args :=
  {| Name := "z"; Type_ := "sleep"; Count := 0; Filter := "";
     Args_ := Demo.SleepArgs 1 |}.

(** Arguments of a combinator around a one-nanosecond "sleep". *)
Definition sleep_args : Demo.Args :=
  Demo.NestedArgs 1 5 "k" "x" "sleep" (Demo.SleepArgs 1).

End Demo2.

(* ===================================================================== *)
(** * Facts about the library functions                                   *)
(* ===================================================================== *)

Module LibraryExamples.

Example ParseUint_32_max :
  Strconv.ParseUint 64 "4294967295" 32 = (4294967295, None).
Proof. reflexivity. Qed.

Example ParseUint_32_over :
  Strconv.ParseUint 64 "4294967296" 32 = (4294967295, Some Strconv.ErrRange).
Proof. reflexivity. Qed.

Example ParseUint_64_max :
  Strconv.ParseUint 64 "18446744073709551615" 64 = (18446744073709551615, None).
Proof. reflexivity. Qed.

Example ParseUint_64_over :
  Strconv.ParseUint 64 "18446744073709551616" 64 =
  (18446744073709551615, Some Strconv.ErrRange).
Proof. reflexivity. Qed.

Example ParseUint_syntax :
  Strconv.ParseUint 64 "" 32 = (0, Some Strconv.ErrSyntax)
  /\ Strconv.ParseUint 64 "12a" 32 = (0, Some Strconv.ErrSyntax)
  /\ Strconv.ParseUint 64 "-1" 32 = (0, Some Strconv.ErrSyntax).
Proof. repeat split. Qed.

Example Atoi_examples :
  Strconv.Atoi 64 "-12" = (-12, None)
  /\ Strconv.Atoi 64 "+7" = (7, None)
  /\ Strconv.Atoi 64 "abc" = (0, Some Strconv.ErrSyntax)
  /\ Strconv.Atoi 64 "+" = (0, Some Strconv.ErrSyntax)
  /\ Strconv.Atoi 64 "9223372036854775808" =
     (9223372036854775807, Some Strconv.ErrRange)
  /\ Strconv.Atoi 32 "2147483648" = (2147483647, Some Strconv.ErrRange).
Proof. repeat split. Qed.

Example ParseInt_examples :
  Strconv.ParseInt 64 "-9223372036854775808" 64 = (-9223372036854775808, None)
  /\ Strconv.ParseInt 64 "-9223372036854775809" 64 =
     (-9223372036854775808, Some Strconv.ErrRange)
  /\ Strconv.ParseInt 64 "1x" 64 = (0, Some Strconv.ErrSyntax).
Proof. repeat split. Qed.

Example TrimSpace_examples :
  Strings.TrimSpace " true" = "true"
  /\ Strings.TrimSpace (String (ascii_of_nat 9) "true" ++ String (ascii_of_nat 10) "")
     = "true"
  /\ Strings.TrimSpace
       (String (ascii_of_nat 194) (String (ascii_of_nat 160) "true")) = "true"
  /\ Strings.TrimSpace "tr ue" = "tr ue"
  /\ Strings.TrimSpace "  " = "".
Proof. repeat split. Qed.

Example Split_examples :
  Strings.Split_comma "a,b,,c" = ["a"; "b"; ""; "c"]
  /\ Strings.Split_comma "" = [""].
Proof. repeat split. Qed.

Example to_int_examples :
  Float64.to_int Float64.amd64 (Float64.of_int 7) = 7
  /\ Float64.to_int Float64.amd64
       (Float64.mul Float64.half (Float64.of_int 5)) = 2
  /\ Float64.to_int Float64.amd64 Float64.ten_to_19 = - 2 ^ 63
  /\ Float64.to_int Float64.arm64 Float64.ten_to_19 = 2 ^ 63 - 1
  /\ Float64.to_int Float64.amd64 S754_nan = - 2 ^ 63
  /\ Float64.to_int Float64.arm64 S754_nan = 0.
Proof. repeat split. Qed.

End LibraryExamples.

Module StrconvFacts.
Import Strconv.

Lemma decimal_value_rev_app (l : list ascii) (c : ascii) :
  decimal_value_rev (l ++ [c]) =
  decimal_value_rev l + (byte_val c - 48) * 10 ^ Z.of_nat (List.length l).
Proof.
  induction l as [|d l IH].
  - cbn. lia.
  - cbn [app decimal_value_rev]. rewrite IH. cbn [List.length].
    rewrite Nat2Z.inj_succ, Z.pow_succ_r by lia. ring.
Qed.

Lemma decimal_value_cons (c : ascii) (rest : string) :
  decimal_value (String c rest) =
  (byte_val c - 48) * 10 ^ Z.of_nat (String.length rest) + decimal_value rest.
Proof.
  unfold decimal_value. cbn [list_ascii_of_string rev].
  rewrite decimal_value_rev_app, length_rev.
  replace (List.length (list_ascii_of_string rest)) with (String.length rest).
  - lia.
  - induction rest; simpl; congruence.
Qed.

Lemma decimal_value_nonneg (s : string) :
  all_digits s = true -> 0 <= decimal_value s.
Proof.
  induction s as [|c rest IH]; intros H.
  - unfold decimal_value; simpl; lia.
  - simpl in H. apply andb_prop in H as [Hc Hr].
    rewrite decimal_value_cons. unfold is_digit in Hc.
    apply andb_prop in Hc as [H1 H2].
    apply Z.leb_le in H1, H2. specialize (IH Hr).
    assert (0 < 10 ^ Z.of_nat (String.length rest)) by (apply Z.pow_pos_nonneg; lia).
    nia.
Qed.

(** The digit loop returns the decimal value when it fits, and the range
    error otherwise. *)
Lemma parseUint_loop_spec (maxVal : Z) (cs : string) :
  0 <= maxVal <= maxUint64 ->
  all_digits cs = true ->
  forall n, 0 <= n <= maxVal ->
  parseUint_loop maxVal cs n =
  let v := n * 10 ^ Z.of_nat (String.length cs) + decimal_value cs in
  if v <=? maxVal then (v, None) else (maxVal, Some ErrRange).
Proof.
  intros Hmax. induction cs as [|c rest IH]; intros Hd n Hn.
  - cbn -[Z.pow]. unfold decimal_value; simpl.
    replace (n * 1 + 0) with n by lia.
    destruct (Z.leb_spec n maxVal); [reflexivity | lia].
  - simpl in Hd. apply andb_prop in Hd as [Hc Hr].
    pose proof (decimal_value_nonneg rest Hr) as Hv.
    assert (Hpow : 0 < 10 ^ Z.of_nat (String.length rest))
      by (apply Z.pow_pos_nonneg; lia).
    cbn [parseUint_loop]. unfold is_digit in Hc. rewrite Hc.
    apply andb_prop in Hc as [H1 H2]. apply Z.leb_le in H1, H2.
    rewrite decimal_value_cons.
    cbn [String.length]. rewrite Nat2Z.inj_succ, Z.pow_succ_r by lia.
    set (k := 10 ^ Z.of_nat (String.length rest)) in *.
    set (d := byte_val c - 48) in *.
    set (v := decimal_value rest) in *.
    unfold maxUint64, uint64_mod in *.
    change (2 ^ 64) with 18446744073709551616 in *.
    change ((18446744073709551616 - 1) / 10 + 1) with 1844674407370955162.
    cbv zeta.
    destruct (Z.leb_spec 1844674407370955162 n) as [Hcut|Hcut].
    + destruct (Z.leb_spec (n * (10 * k) + (d * k + v)) maxVal); [nia | reflexivity].
    + rewrite (Z.mod_small (n * 10)) by lia.
      destruct (Z_lt_le_dec (n * 10 + d) 18446744073709551616) as [Hs|Hs].
      * rewrite (Z.mod_small (n * 10 + d)) by lia.
        destruct (Z.ltb_spec (n * 10 + d) (n * 10)); [lia|].
        destruct (Z.ltb_spec maxVal (n * 10 + d)) as [Hm|Hm]; cbn [orb].
        -- destruct (Z.leb_spec (n * (10 * k) + (d * k + v)) maxVal); [nia | reflexivity].
        -- rewrite IH by (auto; lia). cbv zeta.
           replace ((n * 10 + d) * k + v) with (n * (10 * k) + (d * k + v)) by lia.
           reflexivity.
      * replace ((n * 10 + d) mod 18446744073709551616)
          with (n * 10 + d - 18446744073709551616).
        2:{ symmetry. rewrite <- (Z.mod_small (n * 10 + d - 18446744073709551616) 18446744073709551616) by lia.
            replace (n * 10 + d - 18446744073709551616) with (n * 10 + d + (-1) * 18446744073709551616) by lia.
            rewrite Z.mod_add by lia. reflexivity. }
        destruct (Z.ltb_spec (n * 10 + d - 18446744073709551616) (n * 10)); [|lia].
        cbn [orb].
        destruct (Z.leb_spec (n * (10 * k) + (d * k + v)) maxVal); [nia | reflexivity].
Qed.

(** [ParseUint] on a decimal input. *)
Lemma ParseUint_decimal (intSize : Z) (s : string) (bitSize : Z) :
  0 < bitSize <= 64 ->
  is_decimal s = true ->
  ParseUint intSize s bitSize =
  if decimal_value s <=? 2 ^ bitSize - 1 then (decimal_value s, None)
  else (2 ^ bitSize - 1, Some ErrRange).
Proof.
  intros Hb Hs. destruct s as [|c rest]; [discriminate|].
  unfold ParseUint. destruct (Z.eqb_spec bitSize 0); [lia|].
  unfold is_decimal in Hs.
  assert (Hp : 0 < 2 ^ bitSize <= 2 ^ 64).
  { split; [apply Z.pow_pos_nonneg; lia | apply Z.pow_le_mono_r; lia]. }
  rewrite parseUint_loop_spec; auto; unfold maxUint64; try lia.
Qed.

End StrconvFacts.

Module Float64Facts.
Import Float64.

(** For a positive finite float, discarding the fraction is taking the
    floor. *)
Lemma trunc_floor_positive (m : positive) (e : Z) :
  trunc (S754_finite false m e) = floor (S754_finite false m e).
Proof.
  unfold trunc, floor, value, option_map. f_equal.
  destruct e as [|p|p].
  - change (0 <=? 0) with true. cbv iota. rewrite Qfloor_Z.
    change (2 ^ 0) with 1. lia.
  - destruct (Z.leb_spec 0 (Z.pos p)); [|lia]. now rewrite Qfloor_Z.
  - destruct (Z.leb_spec 0 (Z.neg p)); [lia|].
    unfold Qfloor. change (- Z.neg p) with (Z.pos p).
    rewrite <- Pos2Z.inj_pow.
    apply Z.quot_div_nonneg; lia.
Qed.

Lemma trunc_nonneg_positive (m : positive) (e : Z) (t : Z) :
  trunc (S754_finite false m e) = Some t -> 0 <= t.
Proof.
  unfold trunc. intros H.
  set (a := if 0 <=? e then Z.pos m * 2 ^ e else Z.pos m ÷ 2 ^ (- e)) in H.
  assert (Ha : 0 <= a).
  { subst a. destruct (Z.leb_spec 0 e).
    - apply Z.mul_nonneg_nonneg; [lia | apply Z.pow_nonneg; lia].
    - apply Z.quot_pos; [lia | apply Z.pow_pos_nonneg; lia]. }
  congruence.
Qed.

(** A float above [one] is positive. *)
Lemma ltb_one_positive (f : float64) :
  ltb one f = true ->
  f = S754_infinity false \/ exists m e, f = S754_finite false m e.
Proof.
  unfold ltb, SFltb, one. 
  change (of_int 1) with (S754_finite false 4503599627370496 (-52)).
  destruct f as [s|s| |s m e]; cbn; try discriminate.
  - destruct s; [discriminate | auto].
  - destruct s; [discriminate | eauto].
Qed.
(** The literals denote what their names say. *)
Lemma literal_values :
  (exists q, value half = Some q /\ Qeq q (1 # 2))
  /\ (exists q, value two = Some q /\ Qeq q (inject_Z 2))
  /\ (exists q, value ten_to_19 = Some q /\ Qeq q (inject_Z (10 ^ 19)))
  /\ (exists q, value one = Some q /\ Qeq q (inject_Z 1)).
Proof.
  repeat split; eexists; (split; [reflexivity | vm_compute; reflexivity]).
Qed.

(** The product [computeCount] takes the floor of is the rounded one: the
    float64 nearest to 0.7, times 10, is 7.0, although that float is
    below 7/10. *)
Lemma product_is_rounded :
  mul (S754_finite false 6305039478318694 (-53)) (of_int 10) = of_int 7
  /\ (exists q, value (S754_finite false 6305039478318694 (-53)) = Some q
                /\ Qlt (q * inject_Z 10) (inject_Z 7)).
Proof.
  split; [reflexivity|].
  eexists. split; [reflexivity | vm_compute; reflexivity].
Qed.

End Float64Facts.

(* ===================================================================== *)
(** * Properties of the engine                                            *)
(* ===================================================================== *)

Section Properties.

Context {W Args BasicJobConfig CfgMap Accumulator Reporter : Type}.
Context {E : @Collaborators W Args BasicJobConfig CfgMap Accumulator Reporter}.

(** Unfolding the plumbing of [M]. *)
Ltac unfold_M :=
  cbv beta iota zeta delta
    [bind ret called emit halt lookup render run calling outside log
     log_Fatal context_WithCancel context_WithTimeout alloc cancel Sleep
     defer result_of state_of trace_of] in *;
  cbn [fst snd app] in *.

(** C7. When [GlobalConfig.SkipEncrypted] is set, the encrypted job returns
    its error at once: no argument parsing, no base64 decoding, no
    decryption, no registry lookup and no nested run are in its trace, and
    the state is the one it was called in. *)
Theorem encryptedJob_skip_is_immediate
  (ctx : Context) (args : Args) (g : GlobalConfig)
  (a : option Accumulator) (lg : Logger) (s : State) :
  SkipEncrypted g = true ->
  encryptedJob ctx args g a lg s =
  (Ret (VNil, Some (ErrorString "app is configured to skip encrypted jobs")),
   s, []).
Proof.
  intros Hskip. unfold encryptedJob. rewrite Hskip. reflexivity.
Qed.

(** C9, as amended.  The sleep job never looks at its context: whatever the
    cancellation status of the surrounding scope, it returns success with
    the clock advanced by the whole configured duration, and its outcome is
    the same under any other context. *)
Theorem sleepJob_ignores_cancellation
  (ctx : Context) (args : Args) (g : GlobalConfig)
  (a : option Accumulator) (lg : Logger) (s : State) (d : Duration) :
  Decode_sleep args = inr d ->
  sleepJob ctx args g a lg s =
  (Ret (VNil, None), set_now s (now s + Z.max 0 d),
   [Called c_utils_Decode []; Called (c_Sleep d) []])
  /\ (ctx_done s ctx = true ->
      now (state_of (sleepJob ctx args g a lg s)) - now s = Z.max 0 d)
  /\ forall ctx', sleepJob ctx' args g a lg s = sleepJob ctx args g a lg s.
Proof.
  intros Hd. unfold sleepJob. unfold_M. rewrite Hd. cbn.
  repeat split. intros _. lia.
Qed.

(** C10. With declared type "uint" the rendered value is parsed against a
    32-bit bound: a decimal input of value at least 2^32 gives a range
    error (and one below 2^32 its value); with declared type "uint64" every
    decimal input up to 2^64 - 1 is returned without error (and a larger
    one gives a range error). *)
Theorem setVarJob_uint_is_32_bit
  (ctx : Context) (args : Args) (g : GlobalConfig)
  (a : option Accumulator) (lg : Logger) (s : State) (jobConfig : SetVarConfig) :
  Decode_setVar args = inr jobConfig ->
  let input := ParseAndExecute lg (sv_Value jobConfig) ctx in
  let res := result_of (setVarJob ctx args g a lg s) in
  Strconv.is_decimal input = true ->
  (sv_Type jobConfig = "uint" ->
     (2 ^ 32 <= Strconv.decimal_value input ->
        res = Ret (VUint ((2 ^ 32 - 1) mod 2 ^ Float64.intSize platform),
                   Some (NumError "ParseUint" input Strconv.ErrRange)))
     /\ (Strconv.decimal_value input < 2 ^ 32 ->
           res = Ret (VUint (Strconv.decimal_value input
                             mod 2 ^ Float64.intSize platform), None)))
  /\ (sv_Type jobConfig = "uint64" ->
        (Strconv.decimal_value input <= 2 ^ 64 - 1 ->
           res = Ret (VUint64 (Strconv.decimal_value input), None))
        /\ (2 ^ 64 <= Strconv.decimal_value input ->
              res = Ret (VUint64 (2 ^ 64 - 1),
                         Some (NumError "ParseUint" input Strconv.ErrRange)))).
Proof.
  intros Hdec input res Hin. subst res.
  unfold setVarJob. unfold_M. rewrite Hdec. fold input.
  split; intros Hty; rewrite Hty; cbn [String.eqb Ascii.eqb Bool.eqb];
    cbv iota.
  - rewrite (StrconvFacts.ParseUint_decimal _ input 32) by (auto; lia).
    split; intros Hv; cbn [fst snd].
    + destruct (Z.leb_spec (Strconv.decimal_value input) (2 ^ 32 - 1)); [lia|].
      reflexivity.
    + destruct (Z.leb_spec (Strconv.decimal_value input) (2 ^ 32 - 1)); [|lia].
      reflexivity.
  - rewrite (StrconvFacts.ParseUint_decimal _ input 64) by (auto; lia).
    split; intros Hv; cbn [fst snd].
    + destruct (Z.leb_spec (Strconv.decimal_value input) (2 ^ 64 - 1)); [|lia].
      reflexivity.
    + destruct (Z.leb_spec (Strconv.decimal_value input) (2 ^ 64 - 1)); [lia|].
      reflexivity.
Qed.


Lemma count_app (p : @Event Args CfgMap Accumulator -> bool) (t1 t2 : list Event) :
  count p (t1 ++ t2) = (count p t1 + count p t2)%nat.
Proof.
  unfold count. rewrite filter_app, length_app. reflexivity.
Qed.

Lemma count_cons (p : @Event Args CfgMap Accumulator -> bool) (e : Event)
  (t : list Event) :
  count p (e :: t) = ((if p e then 1 else 0) + count p t)%nat.
Proof.
  unfold count. cbn [filter]. destruct (p e); reflexivity.
Qed.

Lemma count_nil (p : @Event Args CfgMap Accumulator -> bool) : count p [] = 0%nat.
Proof. reflexivity. Qed.

(** Counting events in a trace given as conses and appends. *)
Ltac count_events :=
  repeat (rewrite count_cons || rewrite count_app || rewrite count_nil);
  cbn [is_lookup is_go is_cancel is_runJobs is_eval is_holds is_run
       is_unfinished];
  try lia.

(** C4, as amended.  Once its own arguments are decoded, the discard-error
    job returns success in every case: with no result when the nested type
    is not registered, and otherwise with the data the nested job
    returned, whether or not that job also returned an error (so with no
    result when the failing nested job returned none).  It never returns
    an error of the nested job. *)
Theorem discardErrorJob_discards_error_only
  (ctx : Context) (args : Args) (g : GlobalConfig)
  (a : option Accumulator) (lg : Logger) (s : State)
  (jobConfig : DiscardErrorConfig) :
  ParseConfig_discardError args g = inr jobConfig ->
  let nested := de_Job jobConfig in
  let res := result_of (discardErrorJob ctx args g a lg s) in
  (Get (Type_ nested) = None -> res = Ret (VNil, None))
  /\ (forall job data err s' tr,
        Get (Type_ nested) = Some job ->
        job ctx (Args_ nested) g a lg s = (Ret (data, err), s', tr) ->
        res = Ret (data, None))
  /\ (forall data err, res = Ret (data, err) -> err = None).
Proof.
  intros Hparse nested res. subst res nested.
  unfold discardErrorJob. unfold_M. rewrite Hparse.
  repeat split.
  - intros Hget. rewrite Hget. destruct lg; reflexivity.
  - intros job data err s' tr Hget Hjob. rewrite Hget, Hjob.
    destruct err, lg; reflexivity.
  - intros data err.
    destruct (Get (Type_ (de_Job jobConfig))) as [job|].
    + destruct (job ctx (Args_ (de_Job jobConfig)) g a lg s) as [[[[d e]|h] s'] tr].
      * destruct e, lg; cbn; congruence.
      * cbn. discriminate.
    + destruct lg; cbn; congruence.
Qed.

(** The goroutine loop of the launch pass starts [n] goroutines, consults
    nothing and leaves the state alone. *)
Lemma runJobs_go_spec (n : nat) (inst : @Instance Args CfgMap) (k : Z)
  (s : @State W) :
  let out := @runJobs_go W Args CfgMap Accumulator n inst k s in
  result_of out = Ret (k + Z.of_nat n)
  /\ state_of out = s
  /\ count is_lookup (trace_of out) = 0%nat
  /\ count is_go (trace_of out) = n.
Proof.
  revert k s. induction n as [|n IH]; intros k s.
  - cbn. repeat split. f_equal. lia.
  - cbn [runJobs_go]. specialize (IH (k + 1) s). unfold_M.
    destruct (negb (Name (inst_entry inst) =? "")%string), (inst_logger inst);
      cbn [fst snd app];
      destruct (@runJobs_go W Args CfgMap Accumulator n inst (k + 1) s)
        as [[r s'] tr];
      cbn [fst snd] in *; destruct IH as (Hr & Hs & Hl & Hg); subst r s';
      unfold count in *;
      (repeat split; [f_equal; lia | cbn; lia | cbn; lia]).
Qed.

(** The instance scaler returns, and consults no registry. *)
Lemma computeCount_returns (c : Z) (f : Float64.float64) (s : State) :
  exists n s' tr,
    computeCount c f s = (Ret n, s', tr)
    /\ count is_lookup tr = 0%nat /\ count is_go tr = 0%nat.
Proof.
  unfold computeCount. unfold_M.
  destruct (Float64.ltb Float64.one _).
  - eauto 10.
  - destruct (rand_Float64 (world s)) as [draw w].
    destruct (Float64.ltb draw _); eauto 10.
Qed.

(** The number of registry lookups of one turn of the launch pass: none
    when the filter turns the entry away, one otherwise. *)
Lemma runJobs_entry_lookups
  (r : @Runner Reporter) (ctx : Context) (metric : option Metrics)
  (lg : Logger) (entry : Config) (n : Z) (s : State) :
  count is_lookup (trace_of (runJobs_entry r ctx metric lg entry n s)) =
  if negb (String.length (Filter entry) =? 0)%nat
     && negb (Strings.TrimSpace (ParseAndExecute lg (Filter entry) ctx) =? "true")%string
  then 0%nat else 1%nat.
Proof.
  unfold runJobs_entry. unfold_M.
  destruct (negb (String.length (Filter entry) =? 0)%nat);
    [destruct (Strings.TrimSpace _ =? "true")%string|]; cbn [negb andb fst snd app].
  2:{ destruct lg; reflexivity. }
  all: destruct (Get (Type_ entry)) as [job|]; [|destruct lg; reflexivity].
  all: destruct (Float64.ltb Float64.zero _);
    [ destruct (computeCount_returns (Count entry)
                  (ScaleFactor (globalJobsCfg r)) s) as (c & s' & tr & Hc & Hl & _);
      rewrite Hc
    | ].
  all: cbn [fst snd app].
  all: destruct (Decode_cfgMap _) as [err|cfgMap];
    [ destruct lg; cbn [fst snd app]; count_events |].
  all: match goal with
       | |- context [runJobs_go ?k ?i ?m ?st] =>
           pose proof (runJobs_go_spec k i m st) as Hgo;
           destruct (runJobs_go k i m st) as [[r0 s0] t0]
       end.
  all: unfold_M; destruct Hgo as (_ & _ & Hgo & _).
  all: count_events.
Qed.

(** C6, as amended.  An entry with a non-empty filter is skipped (the
    instance count is returned as it was, the state is untouched, no
    handler is looked up and no goroutine started) when the rendered
    filter, with leading and trailing white space removed, is not "true";
    when the trimmed value is "true" the entry goes on to the registry
    lookup; an entry with an empty filter always does. *)
Theorem runJobs_filter_skips_entry
  (r : @Runner Reporter) (ctx : Context) (metric : option Metrics)
  (lg : Logger) (entry : Config) (n : Z) (s : State) :
  let out := runJobs_entry r ctx metric lg entry n s in
  let trimmed := Strings.TrimSpace (rendered_filter lg ctx entry) in
  (Filter entry <> "" ->
     (trimmed <> "true" ->
        result_of out = Ret n /\ state_of out = s
        /\ count is_lookup (trace_of out) = 0%nat
        /\ count is_go (trace_of out) = 0%nat)
     /\ (trimmed = "true" -> count is_lookup (trace_of out) = 1%nat))
  /\ (Filter entry = "" -> count is_lookup (trace_of out) = 1%nat).
Proof.
  intros out trimmed. subst out trimmed. unfold rendered_filter.
  pose proof (runJobs_entry_lookups r ctx metric lg entry n s) as Hl.
  assert (Hlen : Filter entry <> "" ->
                 negb (String.length (Filter entry) =? 0)%nat = true).
  { destruct (Filter entry); [congruence | reflexivity]. }
  split.
  - intros Hne. rewrite (Hlen Hne) in Hl. split.
    + intros Htrim. apply String.eqb_neq in Htrim.
      unfold runJobs_entry. rewrite (Hlen Hne). unfold_M.
      rewrite Htrim. cbn [negb].
      destruct lg; cbn; repeat split.
    + intros Htrim. apply String.eqb_eq in Htrim. rewrite Htrim in Hl.
      exact Hl.
  - intros He. rewrite He in Hl. exact Hl.
Qed.

(** C5, as amended.  With arguments that decode and a nested type that is
    not registered, the timeout and lock combinators return the "unknown
    job" error; the loop combinator returns it when its continuation
    condition holds at the first evaluation, and returns success with no
    result, the registry not consulted, when the condition fails there.
    The launch pass, on an entry whose type is not registered, returns the
    instance count as it was, in the same state, with no goroutine started,
    and (unless the filter turned the entry away first) with the warning
    written to a logger that writes. *)
Theorem unknown_nested_job_type
  (ctx : Context) (args : Args) (g : GlobalConfig)
  (a : option Accumulator) (lg : Logger) (s : State) :
  (forall c, ParseConfig_timeout args g = inr c ->
             Get (Type_ (to_Job c)) = None ->
             result_of (timeoutJob ctx args g a lg s) =
             Ret (unknown_job (Type_ (to_Job c))))
  /\ (forall c, ParseConfig_lock args g = inr c ->
                Get (Type_ (lk_Job c)) = None ->
                result_of (lockJob ctx args g a lg s) =
                Ret (unknown_job (Type_ (lk_Job c))))
  /\ (forall c fuel holds basic' s1 t1,
        ParseConfig_loop args g = inr c ->
        Get (Type_ (lp_Job c)) = None ->
        Next (lp_Basic c) (WithCancel ctx (fresh s)) (scoped s) =
        (Ret (holds, basic'), s1, t1) ->
        let out := loopJob (S fuel) ctx args g a lg s in
        result_of out =
        Ret (if holds then unknown_job (Type_ (lp_Job c)) else (VNil, None))
        /\ (holds = false -> count is_lookup (trace_of out) = 0%nat))
  /\ (forall (r : @Runner Reporter) metric entry n,
        Get (Type_ entry) = None ->
        let out := runJobs_entry r ctx metric lg entry n s in
        result_of out = Ret n
        /\ state_of out = s
        /\ count is_go (trace_of out) = 0%nat
        /\ forall id,
             lg = ZapLogger id ->
             Filter entry = ""
             \/ Strings.TrimSpace (rendered_filter lg ctx entry) = "true" ->
             In (Log WarnLevel "unknown job" [FString "type" (Type_ entry)])
                (trace_of out)).
Proof.
  repeat split.
  - intros c Hparse Hget. unfold timeoutJob. unfold_M.
    rewrite Hparse, Hget. reflexivity.
  - intros c Hparse Hget. unfold lockJob. unfold_M.
    rewrite Hparse, Hget.
    match goal with
    | |- context [Lock ?k ?w] => destruct (Lock k w) as [u w1]
    end.
    cbn [fst snd world].
    match goal with
    | |- context [Unlock ?k ?w] => destruct (Unlock k w) as [u' w2]
    end.
    reflexivity.
  - unfold loopJob. cbn [loopJob_for]. unfold_M. rewrite H.
    unfold scoped in H1. rewrite H1. destruct holds.
    + rewrite H0. reflexivity.
    + reflexivity.
  - intros Hh. subst holds. unfold loopJob. cbn [loopJob_for]. unfold_M.
    rewrite H. unfold scoped in H1. rewrite H1. cbn [fst snd app].
    count_events.
  - unfold runJobs_entry. unfold_M. rewrite H.
    destruct (negb _); [destruct (negb _)|]; destruct lg; reflexivity.
  - unfold runJobs_entry. unfold_M. rewrite H.
    destruct (negb _); [destruct (negb _)|]; destruct lg; reflexivity.
  - unfold runJobs_entry. unfold_M. rewrite H.
    destruct (negb _); [destruct (negb _)|]; destruct lg; reflexivity.
  - intros id Hlg Hpass. subst lg. unfold rendered_filter in Hpass.
    unfold runJobs_entry. unfold_M. rewrite H.
    destruct Hpass as [He|Ht].
    + rewrite He. cbn. auto.
    + apply String.eqb_eq in Ht. rewrite Ht.
      destruct (negb (String.length (Filter entry) =? 0)%nat); cbn; auto.
Qed.

(** A launch pass is one event, whatever happens inside. *)
Lemma runJobs_trace
  (r : @Runner Reporter) (ctx : Context) (cfg : MultiConfig)
  (metric : option Metrics) (lg : Logger) (s : State) :
  exists inner,
    trace_of (runJobs r ctx cfg metric lg s) =
    [Called (c_runJobs cfg metric lg) inner].
Proof.
  unfold runJobs, calling, trace_of.
  destruct (bind _ _ s) as [[r0 s0] t0].
  cbn. eauto.
Qed.

(** What one application step of [Run] does: either nothing but logging,
    leaving the variables of the loop alone, or a switch of generation. *)
Lemma Run_apply_cases
  (r : @Runner Reporter) (ctx : Context) (lg : Logger) (l : RunLocals)
  (s : State) :
  let raw := fetched r lg l s in
  let cfg := config_Unmarshal (Body raw) (Format (cfgOptions r)) in
  let out := Run_apply r ctx lg l s in
  (bytes_Equal (Body (lastKnownConfig l)) (Body raw) = true \/ cfg = None ->
     result_of out = Ret l
     /\ count is_cancel (trace_of out) = 0%nat
     /\ count is_runJobs (trace_of out) = 0%nat)
  /\ (forall c,
        bytes_Equal (Body (lastKnownConfig l)) (Body raw) = false ->
        cfg = Some c ->
        exists pre inner,
          trace_of out =
          pre ++ [Called (c_runJobs c
                            (if Protected raw then None
                             else Some {| metrics_addr := fresh s |})
                            (if Protected raw then NopLogger else lg))
                         inner]
          /\ count is_runJobs pre = 0%nat
          /\ count is_cancel pre =
             match cancelFunc l with Some _ => 1%nat | None => 0%nat end).
Proof.
  intros raw cfg out. subst raw cfg out. unfold fetched, fallback_config.
  unfold Run_apply. unfold_M.
  destruct (FetchRawMultiConfig _ _ _ _ _) as [raw w]. cbn [fst snd].
  split.
  - intros [Heq|Hnone].
    + rewrite Heq. cbn [negb].
      destruct lg; cbn; auto.
    + rewrite Hnone.
      destruct (negb _); destruct lg; cbn; auto.
  - intros c Hne Hcfg. rewrite Hne, Hcfg. cbn [negb].
    unfold set_world. cbn [world now fresh cancelled].
    destruct (Protected raw), (cancelFunc l), lg; cbn [fst snd app world now fresh cancelled].
    all: match goal with
         | |- context [runJobs ?a ?b ?c0 ?d ?e ?st] =>
             destruct (runJobs_trace a b c0 d e st) as [inner Hin];
             destruct (runJobs a b c0 d e st) as [[[n0|h] s0] t0]
         end; unfold trace_of in Hin; cbn [fst snd app] in *; subst t0.
    all: rewrite ?app_nil_r.
    all: match goal with
         | |- exists pre inner0, ?L = _ /\ _ => exists (removelast L), inner
         end.
    all: cbn [removelast app].
    all: repeat split.
Qed.




Lemma count_zero_In (p : @Event Args CfgMap Accumulator -> bool)
  (t : list Event) (e : Event) :
  count p t = 0%nat -> In e t -> p e = false.
Proof.
  induction t as [|x t IH]; intros Hc Hin; [contradiction|].
  rewrite count_cons in Hc. destruct Hin as [->|Hin].
  - destruct (p e); [discriminate | reflexivity].
  - apply IH; [lia | assumption].
Qed.

(** C8.  When the fetched raw configuration is protected, the one launch
    pass of the switch is called with the no-op logger and without a
    metrics sink, and otherwise with the runner's logger and the fresh
    sink.  In the encrypted job, the one run of the nested job gets no
    accumulator and the no-op logger when decryption reports the payload
    as protected, and the caller's accumulator and logger when it does
    not. *)
Theorem protected_runs_without_logs :
  (forall (r : @Runner Reporter) ctx lg l s c,
     let raw := fetched r lg l s in
     slice_bytes (Body (lastKnownConfig l)) <> slice_bytes (Body raw) ->
     config_Unmarshal (Body raw) (Format (cfgOptions r)) = Some c ->
     let tr := trace_of (Run_apply r ctx lg l s) in
     count is_runJobs tr = 1%nat
     /\ forall c' m lg' inner,
          In (Called (c_runJobs c' m lg') inner) tr ->
          c' = c
          /\ lg' = (if Protected raw then NopLogger else lg)
          /\ m = (if Protected raw then None
                  else Some {| metrics_addr := fresh s |}))
  /\ (forall ctx args g a lg s jobConfig decoded decrypted protected jobCfg job,
        SkipEncrypted g = false ->
        ParseConfig_encrypted args g = inr jobConfig ->
        base64_DecodeString (en_Data jobConfig) = inr decoded ->
        Decrypt decoded = inr (decrypted, protected) ->
        Unmarshal decrypted (en_Format jobConfig) = inr jobCfg ->
        Get (Type_ jobCfg) = Some job ->
        let tr := trace_of (encryptedJob ctx args g a lg s) in
        let a' := if protected then None else a in
        let lg' := if protected then NopLogger else lg in
        let nested :=
          job (WithCancel ctx (fresh s)) (Args_ jobCfg) g a' lg' (scoped s) in
        count is_run tr = 1%nat
        /\ In (Called (c_job (Type_ jobCfg) (WithCancel ctx (fresh s)) a' lg'
                         (result_of nested)) (trace_of nested)) tr
        /\ forall ty cx a1 lg1 res inner,
             In (Called (c_job ty cx a1 lg1 res) inner) tr ->
             a1 = a' /\ lg1 = lg').
Proof.
  split.
  - intros r ctx lg l s c raw Hne Hcfg tr.
    destruct (Run_apply_cases r ctx lg l s) as [_ Hswitch].
    cbv zeta in Hswitch. fold raw in Hswitch.
    assert (Hb : bytes_Equal (Body (lastKnownConfig l)) (Body raw) = false).
    { unfold bytes_Equal. apply String.eqb_neq. exact Hne. }
    destruct (Hswitch c Hb Hcfg) as (pre & inner & Htr & Hpre & _).
    subst tr. rewrite Htr. split.
    + count_events.
    + intros c' m lg' inner' Hin. apply in_app_or in Hin as [Hin|Hin].
      * apply (count_zero_In _ _ _ Hpre) in Hin. discriminate.
      * destruct Hin as [Heq|[]]. injection Heq as <- <- <- _. auto.
  - intros ctx args g a lg s jobConfig decoded decrypted protected jobCfg job
      Hskip Hparse Hb64 Hdec Hum Hget tr a' lg' nested.
    subst tr nested a' lg'. unfold encryptedJob. rewrite Hskip.
    unfold_M. rewrite Hparse, Hb64, Hdec, Hum, Hget. unfold scoped.
    destruct protected;
      match goal with
      | |- context [job ?c ?x ?y ?z ?u ?st] =>
          destruct (job c x y z u st) as [[[res|[]] s1] t1]
      end; cbn [fst snd app];
      (split; [count_events|]);
      (split; [cbn; tauto|]);
      intros ty cx a1 lg1 res1 inner Hin; cbn in Hin;
      repeat (destruct Hin as [Hin|Hin]; [try discriminate|]);
      try contradiction;
      try (injection Hin as _ _ <- <- _ _; auto).
Qed.

(** C2, as amended.  Let [product] be the float64 product
    [scaleFactor * float64(max(count, 1))].  When it is greater than 1 and
    its floor is representable in [int], [computeCount] returns that floor
    without drawing, and the result is not negative.  When it is not
    greater than 1, the result is 1 if the draw is below the product and 0
    otherwise.  Whatever the draw, [computeCount(10, 0.5)] is 5 and
    [computeCount(1, 2.0)] is 2 (on a target whose [int] has at least 32
    bits).  In both of these ranges the result is never negative. *)
Theorem computeCount_scales
  (count : Z) (scaleFactor : Float64.float64) (s : State) :
  let product := scaled count scaleFactor in
  let out := computeCount count scaleFactor s in
  (Float64.ltb Float64.one product = true ->
   forall n, Float64.floor product = Some n ->
             n <= Float64.maxInt platform ->
             out = (Ret n, s, []) /\ 0 <= n)
  /\ (Float64.ltb Float64.one product = false ->
      result_of out =
      Ret (if Float64.ltb (fst (rand_Float64 (world s))) product
           then 1 else 0)
      /\ forall n, result_of out = Ret n -> 0 <= n)
  /\ (32 <= Float64.intSize platform ->
      forall s', result_of (computeCount 10 Float64.half s') = Ret 5
                 /\ result_of (computeCount 1 Float64.two s') = Ret 2).
Proof.
  intros product out. subst product out. unfold scaled, computeCount.
  split; [|split].
  - intros Hgt n Hfloor Hmax. rewrite Hgt. unfold ret.
    destruct (Float64Facts.ltb_one_positive _ Hgt) as [Hinf|(m & e & Hfin)].
    + rewrite Hinf in Hfloor. discriminate.
    + rewrite Hfin in *. rewrite <- Float64Facts.trunc_floor_positive in Hfloor.
      pose proof (Float64Facts.trunc_nonneg_positive _ _ _ Hfloor) as Hn.
      unfold Float64.to_int. rewrite Hfloor.
      assert (Hmin : Float64.minInt platform <= 0).
      { unfold Float64.minInt.
        assert (0 <= 2 ^ (Float64.intSize platform - 1)) by (apply Z.pow_nonneg; lia).
        lia. }
      rewrite (proj2 (Z.leb_le (Float64.minInt platform) n)) by lia.
      rewrite (proj2 (Z.leb_le n (Float64.maxInt platform))) by lia.
      cbn [andb]. split; [reflexivity | exact Hn].
  - intros Hle. rewrite Hle. unfold_M.
    destruct (rand_Float64 (world s)) as [draw w]. cbn [fst snd].
    destruct (Float64.ltb draw _); cbn [fst snd]; split; try reflexivity;
      intros n Hn; injection Hn as <-; lia.
  - intros Hsize s'.
    assert (Hmax : 2 ^ 31 - 1 <= Float64.maxInt platform).
    { unfold Float64.maxInt.
      assert (2 ^ 31 <= 2 ^ (Float64.intSize platform - 1))
        by (apply Z.pow_le_mono_r; lia).
      lia. }
    assert (Hmin : Float64.minInt platform <= 0).
    { unfold Float64.minInt.
      assert (0 <= 2 ^ (Float64.intSize platform - 1)) by (apply Z.pow_nonneg; lia).
      lia. }
    change (2 ^ 31 - 1) with 2147483647 in Hmax.
    split.
    + change (Float64.mul Float64.half (Float64.of_int (utils_Max 10 1)))
        with (S754_finite false 5629499534213120 (-50)).
      change (Float64.ltb Float64.one (S754_finite false 5629499534213120 (-50)))
        with true.
      cbv iota. unfold ret, result_of, Float64.to_int. cbn [fst].
      change (Float64.trunc (S754_finite false 5629499534213120 (-50)))
        with (Some 5).
      cbv beta iota.
      rewrite (proj2 (Z.leb_le (Float64.minInt platform) 5)) by lia.
      rewrite (proj2 (Z.leb_le 5 (Float64.maxInt platform))) by lia.
      reflexivity.
    + change (Float64.mul Float64.two (Float64.of_int (utils_Max 1 1)))
        with (S754_finite false 4503599627370496 (-51)).
      change (Float64.ltb Float64.one (S754_finite false 4503599627370496 (-51)))
        with true.
      cbv iota. unfold ret, result_of, Float64.to_int. cbn [fst].
      change (Float64.trunc (S754_finite false 4503599627370496 (-51)))
        with (Some 2).
      cbv beta iota.
      rewrite (proj2 (Z.leb_le (Float64.minInt platform) 2)) by lia.
      rewrite (proj2 (Z.leb_le 2 (Float64.maxInt platform))) by lia.
      reflexivity.
Qed.

(** On no target can [computeCount(1, 1e19)] be the floor of the product:
    the floor is 10^19, and whatever a target's conversion yields for it
    is an [int] of at most 64 bits. *)
Lemma computeCount_floor_beyond_int (s : State) (n : Z) :
  Float64.intSize platform <= 64 ->
  (forall f, Float64.minInt platform <= Float64.unrepresentable platform f
             <= Float64.maxInt platform) ->
  Float64.floor (scaled 1 Float64.ten_to_19) = Some (10 ^ 19)
  /\ (result_of (computeCount 1 Float64.ten_to_19 s) = Ret n -> n <> 10 ^ 19).
Proof.
  intros Hsize Hunrep. split; [reflexivity|].
  unfold computeCount.
  change (Float64.mul Float64.ten_to_19 (Float64.of_int (utils_Max 1 1)))
    with (S754_finite false 4882812500000000 11).
  change (Float64.ltb Float64.one (S754_finite false 4882812500000000 11))
    with true.
  cbv iota. unfold ret, result_of, Float64.to_int. cbn [fst].
  change (Float64.trunc (S754_finite false 4882812500000000 11))
    with (Some 10000000000000000000).
  cbv beta iota.
  assert (Hmax : Float64.maxInt platform < 10000000000000000000).
  { unfold Float64.maxInt.
    assert (2 ^ (Float64.intSize platform - 1) <= 2 ^ 63).
    { destruct (Z_le_gt_dec 0 (Float64.intSize platform - 1)).
      - apply Z.pow_le_mono_r; lia.
      - rewrite Z.pow_neg_r by lia. lia. }
    change (2 ^ 63) with 9223372036854775808 in *. lia. }
  rewrite (proj2 (Z.leb_gt _ _) Hmax), Bool.andb_false_r.
  intros H. injection H as <-.
  specialize (Hunrep (S754_finite false 4882812500000000 11)).
  change (10 ^ 19) with 10000000000000000000. lia.
Qed.




End Properties.

(* ===================================================================== *)
(** * The statements at work on the small installation                    *)
(* ===================================================================== *)

(** C7 at work: the skip flag set, an encrypted job that would otherwise
    decode and run. *)
Lemma encryptedJob_skip_is_immediate_witness :
  SkipEncrypted (Demo.globals true) = true
  /\ encryptedJob (E := Demo.E) Demo.ctx0 (Demo.EncryptedArgs "yaml" "c2VjcmV0")
       (Demo.globals true) None Demo.logger0 Demo.st0 =
     (Ret (VNil, Some (ErrorString "app is configured to skip encrypted jobs")),
      Demo.st0, []).
Proof.
  split.
  - reflexivity.
  - apply (encryptedJob_skip_is_immediate (E := Demo.E)). reflexivity.
Defined.

(** C9, the claim as stated fails: the scope is already cancelled when a
    sleep of ten seconds starts, and the job still returns success ten
    seconds later. *)
Lemma sleepJob_sleeps_through_cancellation :
  ctx_done Demo.st_cancelled Demo.ctx0 = true
  /\ result_of (sleepJob (E := Demo.E) Demo.ctx0 (Demo.SleepArgs 10000000000)
                  (Demo.globals false) None Demo.logger0 Demo.st_cancelled) =
     Ret (VNil, None)
  /\ now (state_of (sleepJob (E := Demo.E) Demo.ctx0 (Demo.SleepArgs 10000000000)
                      (Demo.globals false) None Demo.logger0 Demo.st_cancelled))
     - now Demo.st_cancelled = 10000000000.
Proof. repeat split. Qed.

(** C9 as amended, at work. *)
Lemma sleepJob_ignores_cancellation_witness :
  Decode_sleep (Collaborators := Demo.E) (Demo.SleepArgs 10000000000) = inr 10000000000
  /\ ctx_done Demo.st_cancelled Demo.ctx0 = true
  /\ now (state_of (sleepJob (E := Demo.E) Demo.ctx0 (Demo.SleepArgs 10000000000)
                      (Demo.globals false) None Demo.logger0 Demo.st_cancelled))
     - now Demo.st_cancelled = Z.max 0 10000000000.
Proof.
  split; [reflexivity|]. split; [reflexivity|].
  apply (sleepJob_ignores_cancellation (E := Demo.E) Demo.ctx0
           (Demo.SleepArgs 10000000000) (Demo.globals false) None Demo.logger0
           Demo.st_cancelled 10000000000); reflexivity.
Defined.

(** C10 at work: 4294967296 is refused as "uint" and accepted as "uint64". *)
Lemma setVarJob_uint_is_32_bit_witness :
  result_of (setVarJob (E := Demo.E) Demo.ctx0 (Demo.SetVarArgs "4294967296" "uint")
               (Demo.globals false) None Demo.logger0 Demo.st0) =
  Ret (VUint 4294967295,
       Some (NumError "ParseUint" "4294967296" Strconv.ErrRange))
  /\ result_of (setVarJob (E := Demo.E) Demo.ctx0
                  (Demo.SetVarArgs "18446744073709551615" "uint64")
                  (Demo.globals false) None Demo.logger0 Demo.st0) =
     Ret (VUint64 18446744073709551615, None).
Proof.
  split.
  - apply (setVarJob_uint_is_32_bit (E := Demo.E) Demo.ctx0
             (Demo.SetVarArgs "4294967296" "uint") (Demo.globals false) None
             Demo.logger0 Demo.st0 {| sv_Value := "4294967296"; sv_Type := "uint" |});
      [reflexivity | reflexivity | reflexivity | vm_compute; discriminate].
  - apply (setVarJob_uint_is_32_bit (E := Demo.E) Demo.ctx0
             (Demo.SetVarArgs "18446744073709551615" "uint64")
             (Demo.globals false) None
             Demo.logger0 Demo.st0
             {| sv_Value := "18446744073709551615"; sv_Type := "uint64" |});
      [reflexivity | reflexivity | reflexivity | vm_compute; discriminate].
Defined.


(** C2, the claim as stated fails: with a scale factor of 1e19 the product
    is greater than 1 and its floor is 10^19, which no [int] holds; on
    amd64 the conversion yields the smallest int64, a negative count. *)
Lemma computeCount_overflow_is_negative :
  Float64.ltb Float64.one (scaled 1 Float64.ten_to_19) = true
  /\ Float64.floor (scaled 1 Float64.ten_to_19) = Some (10 ^ 19)
  /\ result_of (computeCount (E := Demo.E) 1 Float64.ten_to_19 Demo.st0) =
     Ret (- 2 ^ 63)
  /\ - 2 ^ 63 <> 10 ^ 19
  /\ - 2 ^ 63 < 0.
Proof.
  repeat split; try (vm_compute; congruence).
Qed.

(** C2 as amended, at work. *)
Lemma computeCount_scales_witness :
  Float64.ltb Float64.one (scaled 10 Float64.half) = true
  /\ Float64.floor (scaled 10 Float64.half) = Some 5
  /\ 5 <= Float64.maxInt (platform (Collaborators := Demo.E))
  /\ computeCount (E := Demo.E) 10 Float64.half Demo.st0 = (Ret 5, Demo.st0, [])
  /\ 32 <= Float64.intSize (platform (Collaborators := Demo.E))
  /\ result_of (computeCount (E := Demo.E) 1 Float64.two Demo.st0) = Ret 2.
Proof.
  split; [reflexivity|]. split; [reflexivity|].
  split; [vm_compute; discriminate|].
  split.
  - apply (computeCount_scales (E := Demo.E) 10 Float64.half Demo.st0);
      [reflexivity | reflexivity | vm_compute; discriminate].
  - split; [vm_compute; discriminate|].
    apply (computeCount_scales (E := Demo.E) 10 Float64.half Demo.st0).
    vm_compute; discriminate.
Defined.


(** C4, the claim as stated fails: the nested "set-value" job fails on
    99999999999 as "uint" and returns the saturated value with its error;
    the discard-error job returns that value, not an empty result. *)
Lemma discardErrorJob_returns_data_of_failed_job :
  result_of (setVarJob (E := Demo.E0)
               Demo.ctx0 (Demo.SetVarArgs "99999999999" "uint")
               (Demo.globals false) None Demo.logger0 Demo.st0) =
  Ret (VUint 4294967295,
       Some (NumError "ParseUint" "99999999999" Strconv.ErrRange))
  /\ result_of (discardErrorJob (E := Demo.E) Demo.ctx0 Demo.discard_args
                  (Demo.globals false) None Demo.logger0 Demo.st0) =
     Ret (VUint 4294967295, None)
  /\ VUint 4294967295 <> VNil.
Proof.
  repeat split. discriminate.
Qed.

(** C4 as amended, at work. *)
Lemma discardErrorJob_discards_error_only_witness :
  ParseConfig_discardError (Collaborators := Demo.E) Demo.discard_args
    (Demo.globals false) =
  inr {| de_Basic := 0%nat;
         de_Job := Demo.nested "x" "set-value"
                     (Demo.SetVarArgs "99999999999" "uint") |}
  /\ Get (Collaborators := Demo.E) "set-value" = Some (setVarJob (E := Demo.E0))
  /\ result_of (discardErrorJob (E := Demo.E) Demo.ctx0 Demo.discard_args
                  (Demo.globals false) None Demo.logger0 Demo.st0) =
     Ret (VUint 4294967295, None).
Proof.
  split; [reflexivity|]. split; [reflexivity|].
  refine (proj1 (proj2
            (discardErrorJob_discards_error_only (E := Demo.E) Demo.ctx0
               Demo.discard_args (Demo.globals false) None Demo.logger0 Demo.st0
               _ eq_refl))
            (setVarJob (E := Demo.E0)) _
            (Some (NumError "ParseUint" "99999999999" Strconv.ErrRange))
            _ _ eq_refl eq_refl).
Defined.

(** C5, the claim as stated fails: a loop job around a type nobody
    registered, started when its scope is already cancelled, finds its
    condition false at once and returns success. *)
Lemma loopJob_unknown_job_without_error :
  ParseConfig_loop (Collaborators := Demo.E) Demo.unknown_args (Demo.globals false) =
  inr {| lp_Basic := 3%nat;
         lp_Job := Demo.nested "x" "no-such-job" (Demo.SleepArgs 1) |}
  /\ Get (Collaborators := Demo.E) "no-such-job" = None
  /\ ctx_done Demo.st_cancelled Demo.ctx0 = true
  /\ result_of (loopJob (E := Demo.E) 10 Demo.ctx0 Demo.unknown_args
                  (Demo.globals false) None Demo.logger0 Demo.st_cancelled) =
     Ret (VNil, None).
Proof.
  repeat split.
Qed.

(** C5 as amended, at work: timeout, lock and (the condition holding) loop
    around an unregistered type, and an unregistered entry of the launch
    pass. *)
Lemma unknown_nested_job_type_witness :
  Get (Collaborators := Demo.E) "no-such-job" = None
  /\ result_of (timeoutJob (E := Demo.E) Demo.ctx0 Demo.unknown_args
                  (Demo.globals false) None Demo.logger0 Demo.st0) =
     Ret (unknown_job "no-such-job")
  /\ result_of (lockJob (E := Demo.E) Demo.ctx0 Demo.unknown_args
                  (Demo.globals false) None Demo.logger0 Demo.st0) =
     Ret (unknown_job "no-such-job")
  /\ result_of (loopJob (E := Demo.E) 10 Demo.ctx0 Demo.unknown_args
                  (Demo.globals false) None Demo.logger0 Demo.st0) =
     Ret (unknown_job "no-such-job")
  /\ result_of (runJobs_entry (E := Demo.E) Demo.runner0 Demo.ctx0 None
                  Demo.logger0 Demo.unknown_entry 0 Demo.st0) = Ret 0.
Proof.
  destruct (unknown_nested_job_type (E := Demo.E) Demo.ctx0 Demo.unknown_args
              (Demo.globals false) None Demo.logger0 Demo.st0)
    as (Htimeout & Hlock & Hloop & Hentry).
  split; [reflexivity|].
  split; [exact (Htimeout _ eq_refl eq_refl)|].
  split; [exact (Hlock _ eq_refl eq_refl)|].
  split.
  - exact (proj1 (Hloop _ 9%nat true _ _ _ eq_refl eq_refl eq_refl)).
  - exact (proj1 (Hentry Demo.runner0 None Demo.unknown_entry 0 eq_refl)).
Defined.

(** C6, the claim as stated fails: the filter renders to " true", which is
    not the literal string "true", and the entry is not skipped: its
    handler is looked up and a goroutine is started. *)
Lemma runJobs_padded_true_is_not_skipped :
  Filter Demo.padded_entry <> ""
  /\ rendered_filter (E := Demo.E) Demo.logger0 Demo.ctx0 Demo.padded_entry
     <> "true"
  /\ count is_lookup
       (trace_of (runJobs_entry (E := Demo.E) Demo.runner0 Demo.ctx0 None
                    Demo.logger0 Demo.padded_entry 0 Demo.st0)) = 1%nat
  /\ count is_go
       (trace_of (runJobs_entry (E := Demo.E) Demo.runner0 Demo.ctx0 None
                    Demo.logger0 Demo.padded_entry 0 Demo.st0)) = 1%nat
  /\ result_of (runJobs_entry (E := Demo.E) Demo.runner0 Demo.ctx0 None
                  Demo.logger0 Demo.padded_entry 0 Demo.st0) = Ret 1.
Proof.
  repeat split; vm_compute; discriminate.
Qed.

(** C6 as amended, at work: the same entry, its trimmed filter being
    "true". *)
Lemma runJobs_filter_skips_entry_witness :
  Filter Demo.padded_entry <> ""
  /\ Strings.TrimSpace
       (rendered_filter (E := Demo.E) Demo.logger0 Demo.ctx0 Demo.padded_entry)
     = "true"
  /\ count is_lookup
       (trace_of (runJobs_entry (E := Demo.E) Demo.runner0 Demo.ctx0 None
                    Demo.logger0 Demo.padded_entry 0 Demo.st0)) = 1%nat.
Proof.
  assert (Hne : Filter Demo.padded_entry <> "") by (vm_compute; discriminate).
  split; [exact Hne|]. split; [reflexivity|].
  exact (proj2 (proj1 (runJobs_filter_skips_entry (E := Demo.E) Demo.runner0
                         Demo.ctx0 None Demo.logger0 Demo.padded_entry 0
                         Demo.st0) Hne) eq_refl).
Defined.

(** C8 at work: a first, unprotected configuration in the runner, and a
    protected payload in the encrypted job. *)
Lemma protected_runs_without_logs_witness :
  slice_bytes (Body (lastKnownConfig Demo.locals0)) <>
  slice_bytes (Body (fetched (E := Demo.E) Demo.runner0 Demo.logger0
                       Demo.locals0 Demo.st0))
  /\ Protected (fetched (E := Demo.E) Demo.runner0 Demo.logger0
                  Demo.locals0 Demo.st0) = false
  /\ count is_runJobs
       (trace_of (Run_apply (E := Demo.E) Demo.runner0 Demo.ctx0 Demo.logger0
                    Demo.locals0 Demo.st0)) = 1%nat
  /\ SkipEncrypted (Demo.globals false) = false
  /\ Decrypt (Collaborators := Demo.E) "secret" = inr ("sleep 1s", true)
  /\ forall ty cx a1 lg1 res inner,
       In (Called (c_job ty cx a1 lg1 res) inner)
          (trace_of (encryptedJob (E := Demo.E) Demo.ctx0
                       (Demo.EncryptedArgs "yaml" "c2VjcmV0")
                       (Demo.globals false) (Some tt) Demo.logger0 Demo.st0)) ->
       a1 = None /\ lg1 = NopLogger.
Proof.
  assert (Hne : slice_bytes (Body (lastKnownConfig Demo.locals0)) <>
                slice_bytes (Body (fetched (E := Demo.E) Demo.runner0
                                     Demo.logger0 Demo.locals0 Demo.st0)))
    by (vm_compute; discriminate).
  split; [exact Hne|]. split; [reflexivity|].
  split.
  - exact (proj1 (proj1 (protected_runs_without_logs (E := Demo.E))
                    Demo.runner0 Demo.ctx0 Demo.logger0 Demo.locals0 Demo.st0
                    _ Hne eq_refl)).
  - split; [reflexivity|]. split; [reflexivity|].
    exact (proj2 (proj2
             (proj2 (protected_runs_without_logs (E := Demo.E))
                Demo.ctx0 (Demo.EncryptedArgs "yaml" "c2VjcmV0")
                (Demo.globals false) (Some tt) Demo.logger0 Demo.st0
                {| en_Basic := 0%nat; en_Format := "yaml"; en_Data := "c2VjcmV0" |}
                "secret" "sleep 1s" true
                (Demo.nested "" "sleep" (Demo.SleepArgs 1000000000))
                (sleepJob (E := Demo.E0))
                eq_refl eq_refl eq_refl eq_refl eq_refl eq_refl))).
Defined.

(* ===================================================================== *)
(** * Signed numerals                                                     *)
(* ===================================================================== *)

Module StrconvSigned.
Import Strconv.

Lemma decimal_value_bound (s : string) :
  all_digits s = true ->
  0 <= decimal_value s < 10 ^ Z.of_nat (String.length s).
Proof.
  induction s as [|c rest IH]; intros Hd.
  - unfold decimal_value. cbn. lia.
  - cbn [all_digits] in Hd. apply andb_prop in Hd as [Hc Hr].
    specialize (IH Hr). rewrite StrconvFacts.decimal_value_cons.
    unfold is_digit in Hc. apply andb_prop in Hc as [H1 H2].
    apply Z.leb_le in H1, H2.
    cbn [String.length]. rewrite Nat2Z.inj_succ, Z.pow_succ_r by lia.
    nia.
Qed.

(** The fast path of [Atoi] on digits. *)
Lemma atoi_fast_digits (s : string) :
  all_digits s = true ->
  forall n, atoi_fast s n =
            Some (n * 10 ^ Z.of_nat (String.length s) + decimal_value s).
Proof.
  induction s as [|c rest IH]; intros Hd n.
  - unfold decimal_value. cbn. f_equal. lia.
  - cbn [all_digits] in Hd. apply andb_prop in Hd as [Hc Hr].
    cbn [atoi_fast]. unfold is_digit in Hc. apply andb_prop in Hc as [H1 H2].
    apply Z.leb_le in H1, H2.
    rewrite (Z.mod_small (byte_val c - 48)) by lia.
    destruct (Z.ltb_spec 9 (byte_val c - 48)); [lia|].
    rewrite (IH Hr). rewrite StrconvFacts.decimal_value_cons.
    cbn [String.length]. rewrite Nat2Z.inj_succ, Z.pow_succ_r by lia.
    f_equal. ring.
Qed.

Lemma signed_cases (s : string) :
  is_signed_decimal s = true ->
  exists c rest neg, s = String c rest
    /\ Ascii.eqb c "-" = neg
    /\ is_decimal (if Ascii.eqb c "+" || neg then rest else s) = true
    /\ signed_value s
       = (if neg then - decimal_value (if Ascii.eqb c "+" || neg then rest else s)
          else decimal_value (if Ascii.eqb c "+" || neg then rest else s)).
Proof.
  unfold is_signed_decimal, signed_digits, signed_value.
  destruct s as [|c rest]; [discriminate|].
  intros Hs. exists c, rest, (Ascii.eqb c "-"). split; [reflexivity|].
  split; [reflexivity|]. split; [exact Hs|].
  unfold signed_digits.
  destruct (Ascii.eqb c "-") eqn:Em; [|reflexivity].
  rewrite Bool.orb_true_r. reflexivity.
Qed.

Ltac split_tests :=
  repeat match goal with
         | |- context [Z.leb ?a ?b] => destruct (Z.leb_spec a b)
         | |- context [Z.ltb ?a ?b] => destruct (Z.ltb_spec a b)
         end.

Lemma saturate_tail (neg : bool) (d p : Z) :
  0 <= d -> 1 < p ->
  (let '(un, err) := (if d <=? 2 * p - 1 then (d, None)
                      else (2 * p - 1, Some ErrRange)) in
   match err with
   | Some ErrSyntax => (0, Some ErrSyntax)
   | _ => if negb neg && (p <=? un) then (p - 1, Some ErrRange)
          else if neg && (p <? un) then (- p, Some ErrRange)
          else ((if neg then - un else un), None)
   end)
  = (let v := if neg then - d else d in
     if (- p <=? v) && (v <=? p - 1) then (v, None)
     else if v <? 0 then (- p, Some ErrRange)
     else (p - 1, Some ErrRange)).
Proof.
  intros Hd Hp. destruct neg; cbv zeta; cbn [negb andb];
    split_tests; cbn [negb andb]; split_tests; cbn [andb];
    try reflexivity; try lia.
Qed.

(** [ParseInt] on a signed decimal numeral. *)
Lemma ParseInt_signed (intSize : Z) (s : string) (bitSize : Z) :
  1 < bitSize <= 64 ->
  is_signed_decimal s = true ->
  ParseInt intSize s bitSize = saturate bitSize (signed_value s).
Proof.
  intros Hb Hs.
  destruct (signed_cases s Hs) as (c & rest & neg & -> & Hneg & Hd & Hv).
  assert (Hp : 1 < 2 ^ (bitSize - 1)) by (apply Z.pow_gt_1; lia).
  assert (Hp2 : 2 ^ bitSize = 2 * 2 ^ (bitSize - 1)).
  { replace bitSize with (Z.succ (bitSize - 1)) at 1 by lia.
    apply Z.pow_succ_r. lia. }
  unfold ParseInt, saturate. rewrite Hv, Hneg.
  destruct (Z.eqb_spec bitSize 0); [lia|].
  rewrite (StrconvFacts.ParseUint_decimal _ _ bitSize) by (auto; lia).
  rewrite Hp2.
  apply saturate_tail; [|exact Hp].
  clear Hv. apply StrconvFacts.decimal_value_nonneg.
  revert Hd. generalize (if Ascii.eqb c "+" || neg then rest else String c rest).
  intros [|? ?]; [discriminate | exact (fun H => H)].
Qed.

(** [Atoi] on a signed decimal numeral: it is [ParseInt] at the width
    of [int], fast path or not. *)
Lemma Atoi_signed (intSize : Z) (s : string) :
  intSize = 32 \/ intSize = 64 ->
  is_signed_decimal s = true ->
  Atoi intSize s = saturate intSize (signed_value s).
Proof.
  intros Hi Hs.
  assert (Hslow : ParseInt intSize s 0 = saturate intSize (signed_value s)).
  { rewrite <- (ParseInt_signed intSize s intSize) by (auto; lia).
    unfold ParseInt. destruct s as [|c0 rest]; [reflexivity|].
    destruct Hi as [-> | ->]; reflexivity. }
  unfold Atoi.
  match goal with |- (if ?c then _ else _) = _ => destruct c eqn:Hfast end;
    [|exact Hslow].
  destruct (signed_cases s Hs) as (c & rest & neg & -> & Hneg & Hd & Hv).
  rewrite Hv. rewrite (Bool.orb_comm (Ascii.eqb c "-")), Hneg.
  set (digits := if Ascii.eqb c "+" || neg then rest else String c rest) in *.
  assert (Hall : all_digits digits = true /\ (0 < String.length digits)%nat).
  { destruct digits; [discriminate|]. split; [exact Hd | cbn; lia]. }
  destruct Hall as [Hall Hlen].
  destruct (Nat.ltb_spec (String.length digits) 1); [lia|].
  rewrite Bool.andb_false_r.
  rewrite (atoi_fast_digits digits Hall 0).
  rewrite Z.mul_0_l, Z.add_0_l.
  pose proof (decimal_value_bound digits Hall) as Hbound.
  assert (Hlen' : (String.length digits <= String.length (String c rest))%nat).
  { unfold digits. destruct (Ascii.eqb c "+" || neg); cbn [String.length]; lia. }
  unfold saturate.
  assert (Hsmall : decimal_value digits < 2 ^ (intSize - 1)).
  { apply Bool.orb_true_iff in Hfast.
    destruct Hi as [-> | ->]; destruct Hfast as [Hf | Hf];
      repeat (apply andb_prop in Hf as [Hf ?]);
      try discriminate Hf;
      match goal with H : (_ <? _) = true |- _ => apply Z.ltb_lt in H end.
    - eapply Z.lt_le_trans; [apply Hbound|].
      transitivity (10 ^ 9); [apply Z.pow_le_mono_r; lia | vm_compute; discriminate].
    - eapply Z.lt_le_trans; [apply Hbound|].
      transitivity (10 ^ 18); [apply Z.pow_le_mono_r; lia | vm_compute; discriminate]. }
  destruct neg; split_tests; cbn [andb]; try reflexivity; lia.
Qed.
End StrconvSigned.

(* ===================================================================== *)
(** * More properties of the jobs and of the runner                       *)
(* ===================================================================== *)

Section MoreProperties.

Context {W Args BasicJobConfig CfgMap Accumulator Reporter : Type}.
Context {E : @Collaborators W Args BasicJobConfig CfgMap Accumulator Reporter}.
Context {Hl : @Helpers W Args CfgMap Accumulator}.

Ltac unfold_M :=
  cbv beta iota zeta delta
    [bind ret called emit halt lookup render run calling outside log
     log_Fatal context_WithCancel context_WithTimeout alloc cancel Sleep
     defer result_of state_of trace_of] in *;
  cbn [fst snd app] in *.

Ltac count_events :=
  repeat (rewrite count_cons || rewrite count_app || rewrite count_nil);
  cbn [is_lookup is_go is_cancel is_runJobs is_eval is_holds is_run
       is_unfinished is_log is_lock is_unlock is_sleep is_draw is_summary
       is_render is_refresh nil_fallback Body];
  try lia.

(** X1.  The jobs that nest nothing ("log", "set-value", "check",
    "sleep") answer arguments that do not decode with the decoder's
    error, wrapped as "error parsing job config", with no data; they have
    then rendered no template, written no log line and not slept: the
    decoding call is all they did, and the state is the one they were
    called in. *)
Theorem terminal_jobs_report_decode_failure
  (ctx : Context) (args : Args) (g : GlobalConfig) (a : option Accumulator)
  (lg : Logger) (s : State) (err : GoError) :
  (Decode_log args = inl err ->
   logJob ctx args g a lg s
   = (Ret (parse_error err), s, [Called c_mapstructure_Decode []]))
  /\ (Decode_setVar args = inl err ->
      setVarJob ctx args g a lg s
      = (Ret (parse_error err), s, [Called c_mapstructure_Decode []]))
  /\ (Decode_check args = inl err ->
      checkJob ctx args g a lg s
      = (Ret (parse_error err), s, [Called c_mapstructure_Decode []]))
  /\ (Decode_sleep args = inl err ->
      sleepJob ctx args g a lg s
      = (Ret (parse_error err), s, [Called c_utils_Decode []])).
Proof.
  unfold logJob, setVarJob, checkJob, sleepJob.
  repeat split; intros ->; reflexivity.
Qed.

(** X2.  The "check" job passes exactly when its value renders to the
    four characters "true": any other rendering, " true" or "True" among
    them, fails with "validation failed" on the value as it was written,
    not as it rendered.  It returns no data and leaves the state alone
    either way. *)
Theorem checkJob_passes_exactly_on_true
  (ctx : Context) (args : Args) (g : GlobalConfig) (a : option Accumulator)
  (lg : Logger) (s : State) (value : string) :
  Decode_check args = inr value ->
  let out := checkJob ctx args g a lg s in
  state_of out = s
  /\ (ParseAndExecute lg value ctx = "true" ->
      result_of out = Ret (VNil, None))
  /\ (ParseAndExecute lg value ctx <> "true" ->
      result_of out = Ret (VNil, Some (Errorf_q "validation failed %v" value))).
Proof.
  intros Hd. unfold checkJob. rewrite Hd. unfold_M.
  destruct (String.eqb_spec (ParseAndExecute lg value ctx) "true") as [Heq|Hne];
    cbn; repeat split; congruence.
Qed.

(** X3.  A value that passes the "check" job also passes the launch
    filter: an entry whose filter is that value, rendered by the same
    logger against the same context, is not skipped but goes on to the
    registry lookup.  (The filter trims white space first, the check does
    not, so the converse fails.) *)
Theorem check_pass_implies_filter_pass
  (r : @Runner Reporter) (ctx : Context) (args : Args) (g : GlobalConfig)
  (a : option Accumulator) (metric : option Metrics) (lg : Logger)
  (s s' : State) (entry : Config) (n : Z) :
  Decode_check args = inr (Filter entry) ->
  result_of (checkJob ctx args g a lg s) = Ret (VNil, None) ->
  count is_lookup (trace_of (runJobs_entry r ctx metric lg entry n s')) = 1%nat.
Proof.
  intros Hd Hpass. rewrite runJobs_entry_lookups.
  unfold checkJob in Hpass. rewrite Hd in Hpass. unfold_M.
  destruct (String.eqb_spec (ParseAndExecute lg (Filter entry) ctx) "true")
    as [Heq|Hne]; cbn in Hpass; [|discriminate].
  rewrite Heq. rewrite Bool.andb_false_r. reflexivity.
Qed.

(** X4.  The jobs that nest nothing and do not sleep ("log",
    "set-value", "check") always return, and return in the state they were
    called in; none of them looks a handler up, runs one, cancels a scope
    or sleeps, whatever the arguments. *)
Theorem terminal_jobs_leave_state_alone
  (ctx : Context) (args : Args) (g : GlobalConfig) (a : option Accumulator)
  (lg : Logger) (s : State) :
  forall job, job = logJob \/ job = setVarJob \/ job = checkJob ->
  let out := job ctx args g a lg s in
  (exists v, result_of out = Ret v)
  /\ state_of out = s
  /\ (forall e, In e (trace_of out) ->
      is_lookup e = false /\ is_run e = false
      /\ is_cancel e = false /\ is_sleep e = false).
Proof.
  intros job [-> | [-> | ->]].
  - unfold logJob. unfold_M. destruct (Decode_log args); cbn.
    + split; [eauto|]. split; [reflexivity|].
      intros e [<-|[]]. repeat split.
    + destruct lg; cbn; (split; [eauto|]); (split; [reflexivity|]).
      * intros e [<-|[<-|[]]]; repeat split.
      * intros e [<-|[<-|[<-|[]]]]; repeat split.
  - unfold setVarJob. unfold_M. destruct (Decode_setVar args) as [err|jc]; cbn.
    + split; [eauto|]. split; [reflexivity|].
      intros e [<-|[]]. repeat split.
    + destruct (sv_Type jc =? "int")%string;
        [|destruct (sv_Type jc =? "uint")%string;
          [|destruct (sv_Type jc =? "int64")%string;
            [|destruct (sv_Type jc =? "uint64")%string]]]; cbn [fst snd app].
      all: try match goal with
               | |- context [Strconv.Atoi ?x ?y] => destruct (Strconv.Atoi x y)
               | |- context [Strconv.ParseUint ?x ?y ?z] =>
                   destruct (Strconv.ParseUint x y z)
               | |- context [Strconv.ParseInt ?x ?y ?z] =>
                   destruct (Strconv.ParseInt x y z)
               end.
      all: cbn; (split; [eauto|]); (split; [reflexivity|]).
      all: intros e [<-|[<-|[]]]; repeat split.
  - unfold checkJob. unfold_M. destruct (Decode_check args) as [err|v]; cbn.
    + split; [eauto|]. split; [reflexivity|].
      intros e [<-|[]]. repeat split.
    + destruct (negb _); cbn; (split; [eauto|]); (split; [reflexivity|]).
      all: intros e [<-|[<-|[]]]; repeat split.
Qed.

(** X5.  The data "set-value" returns has the type its configuration
    names: an [int], [uint], [int64] or [uint64] for these four names,
    also when the conversion fails, and for every other name ("Int" and
    the empty name among them) the rendered value as a string.  Only the
    four numeric types can fail, and then with the [strconv] error on the
    rendered text. *)
Theorem setVarJob_result_follows_type
  (ctx : Context) (args : Args) (g : GlobalConfig) (a : option Accumulator)
  (lg : Logger) (s : State) (jc : SetVarConfig) :
  Decode_setVar args = inr jc ->
  let text := ParseAndExecute lg (sv_Value jc) ctx in
  exists v e,
    result_of (setVarJob ctx args g a lg s) = Ret (v, e)
    /\ (In (sv_Type jc) ["int"; "uint"; "int64"; "uint64"] ->
        value_type v = sv_Type jc)
    /\ (~ In (sv_Type jc) ["int"; "uint"; "int64"; "uint64"] ->
        v = VString text /\ e = None)
    /\ (forall err, e = Some err -> exists f k, err = NumError f text k).
Proof.
  intros Hd text. unfold setVarJob. unfold_M. rewrite Hd. cbn [fst snd].
  fold text.
  destruct (String.eqb_spec (sv_Type jc) "int") as [H1|H1];
    [|destruct (String.eqb_spec (sv_Type jc) "uint") as [H2|H2];
      [|destruct (String.eqb_spec (sv_Type jc) "int64") as [H3|H3];
        [|destruct (String.eqb_spec (sv_Type jc) "uint64") as [H4|H4]]]].
  - destruct (Strconv.Atoi _ text) as [n k]. do 2 eexists.
    split; [reflexivity|]. split; [intros _; cbn; congruence|].
    split; [intros Hn; exfalso; apply Hn; rewrite H1; cbn; tauto|].
    intros err He. destruct k; [|discriminate].
    injection He as <-. eauto.
  - destruct (Strconv.ParseUint _ text 32) as [n k]. do 2 eexists.
    split; [reflexivity|]. split; [intros _; cbn; congruence|].
    split; [intros Hn; exfalso; apply Hn; rewrite H2; cbn; tauto|].
    intros err He. destruct k; [|discriminate].
    injection He as <-. eauto.
  - destruct (Strconv.ParseInt _ text 64) as [n k]. do 2 eexists.
    split; [reflexivity|]. split; [intros _; cbn; congruence|].
    split; [intros Hn; exfalso; apply Hn; rewrite H3; cbn; tauto|].
    intros err He. destruct k; [|discriminate].
    injection He as <-. eauto.
  - destruct (Strconv.ParseUint _ text 64) as [n k]. do 2 eexists.
    split; [reflexivity|]. split; [intros _; cbn; congruence|].
    split; [intros Hn; exfalso; apply Hn; rewrite H4; cbn; tauto|].
    intros err He. destruct k; [|discriminate].
    injection He as <-. eauto.
  - do 2 eexists. split; [reflexivity|].
    split; [intros [H|[H|[H|[H|[]]]]]; congruence|].
    split; [intros _; split; reflexivity|].
    discriminate.
Qed.

(** X6.  "set-value" of type "int64" on a value that renders to a signed
    decimal numeral returns the number as a 64-bit integer when it lies in
    [-2^63, 2^63 - 1]; outside, it returns the nearest bound together with
    the range error of [ParseInt] on the rendered text. *)
Theorem setVarJob_int64_saturates
  (ctx : Context) (args : Args) (g : GlobalConfig) (a : option Accumulator)
  (lg : Logger) (s : State) (jc : SetVarConfig) :
  Decode_setVar args = inr jc ->
  sv_Type jc = "int64" ->
  let text := ParseAndExecute lg (sv_Value jc) ctx in
  is_signed_decimal text = true ->
  result_of (setVarJob ctx args g a lg s)
  = Ret (VInt64 (fst (saturate 64 (signed_value text))),
         num_error "ParseInt" text (snd (saturate 64 (signed_value text)))).
Proof.
  intros Hd Ht text Hs. unfold setVarJob. unfold_M. rewrite Hd, Ht.
  cbn [String.eqb Ascii.eqb Bool.eqb]. cbn [fst snd]. fold text.
  rewrite (StrconvSigned.ParseInt_signed _ text 64) by (auto; lia).
  destruct (saturate 64 (signed_value text)). reflexivity.
Qed.

(** X7.  "set-value" of type "int" depends on the build target: on a
    value that renders to a signed decimal numeral it returns the number
    when it fits an [int] of the platform (32 or 64 bits), and otherwise
    the nearest bound of that width with the range error of [Atoi]. *)
Theorem setVarJob_int_saturates_at_platform_width
  (ctx : Context) (args : Args) (g : GlobalConfig) (a : option Accumulator)
  (lg : Logger) (s : State) (jc : SetVarConfig) :
  Float64.intSize platform = 32 \/ Float64.intSize platform = 64 ->
  Decode_setVar args = inr jc ->
  sv_Type jc = "int" ->
  let text := ParseAndExecute lg (sv_Value jc) ctx in
  is_signed_decimal text = true ->
  result_of (setVarJob ctx args g a lg s)
  = Ret (VInt (fst (saturate (Float64.intSize platform) (signed_value text))),
         num_error "Atoi" text
           (snd (saturate (Float64.intSize platform) (signed_value text)))).
Proof.
  intros Hp Hd Ht text Hs. unfold setVarJob. unfold_M. rewrite Hd, Ht.
  cbn [String.eqb Ascii.eqb Bool.eqb]. cbn [fst snd]. fold text.
  rewrite (StrconvSigned.Atoi_signed _ text Hp Hs).
  destruct (saturate _ (signed_value text)). reflexivity.
Qed.

(** ** The combinators *)

(** A deferred [cancel()] runs when the body returns or panics, and
    changes neither the result nor anything but the set of cancelled
    scopes. *)
Lemma defer_cancel_spec {A : Type} (sc : nat)
  (body : @M W Args CfgMap Accumulator A) (s : State) :
  let inner := body s in
  let out := defer (cancel sc) body s in
  result_of out = result_of inner
  /\ (result_of inner <> Halted Exited -> result_of inner <> Halted Running ->
      state_of out = after_cancel sc (state_of inner)
      /\ trace_of out = trace_of inner ++ [Called (c_cancel sc) []])
  /\ (result_of inner = Halted Exited \/ result_of inner = Halted Running ->
      state_of out = state_of inner /\ trace_of out = trace_of inner).
Proof.
  unfold defer, cancel, after_cancel, result_of, state_of, trace_of.
  destruct (body s) as [[[v|[| |]] s1] t1]; cbn [fst snd].
  - split; [reflexivity|]. split; [auto|]. intros [H|H]; discriminate.
  - split; [reflexivity|]. split; [congruence|]. auto.
  - split; [reflexivity|]. split; [auto|]. intros [H|H]; discriminate.
  - split; [reflexivity|]. split; [congruence|]. auto.
Qed.

(** Opening a scope and deferring its [cancel()]. *)
Lemma scope_then_defer {A : Type} (ctx : Context)
  (body : Context * nat -> @M W Args CfgMap Accumulator A) (s : State) :
  bind (context_WithCancel ctx) (fun cc => defer (cancel (snd cc)) (body cc)) s
  = defer (cancel (fresh s)) (body (WithCancel ctx (fresh s), fresh s)) (scoped s).
Proof.
  cbv beta iota zeta delta [bind context_WithCancel alloc ret scoped].
  cbn [fst snd app].
  destruct (defer _ _ _) as [[r0 s0] t0]. reflexivity.
Qed.

(** A context under a cancelled scope is done. *)
Lemma under_scope_done (s : @State W) (sc : nat) (ctx : @Context CfgMap) :
  In sc (cancelled s) -> under_scope sc ctx = true -> ctx_done s ctx = true.
Proof.
  intros Hin. induction ctx as [|p IH k v|p IH sc'|p IH sc' d]; cbn; intros Hu.
  - discriminate.
  - auto.
  - apply Bool.orb_true_iff in Hu as [Hu|Hu].
    + apply Nat.eqb_eq in Hu. subst sc'.
      assert (Hc : existsb (Nat.eqb sc) (cancelled s) = true).
      { apply existsb_exists. exists sc. split; [assumption|apply Nat.eqb_refl]. }
      rewrite Hc. reflexivity.
    + rewrite (IH Hu). apply Bool.orb_true_r.
  - apply Bool.orb_true_iff in Hu as [Hu|Hu].
    + apply Nat.eqb_eq in Hu. subst sc'.
      assert (Hc : existsb (Nat.eqb sc) (cancelled s) = true).
      { apply existsb_exists. exists sc. split; [assumption|apply Nat.eqb_refl]. }
      rewrite Hc. reflexivity.
    + rewrite (IH Hu). apply Bool.orb_true_r.
Qed.

Lemma last_event_app (t : list (@Event Args CfgMap Accumulator)) (e : Event) :
  last_event (t ++ [e]) = Some e.
Proof.
  unfold last_event. rewrite rev_app_distr. reflexivity.
Qed.

(** X8.  "discard-error" and "timeout" answer arguments that do not
    decode with the decoder's error, wrapped as "error parsing job config",
    and no data.  The decoding call is all they did: no handler was looked
    up or run, "timeout" has opened no deadline, and the state is the one
    they were called in. *)
Theorem discard_and_timeout_report_decode_failure
  (ctx : Context) (args : Args) (g : GlobalConfig)
  (a : option Accumulator) (lg : Logger) (s : State) (err : GoError) :
  (ParseConfig_discardError args g = inl err ->
   discardErrorJob ctx args g a lg s
   = (Ret (parse_error err), s, [Called c_ParseConfig []]))
  /\ (ParseConfig_timeout args g = inl err ->
      timeoutJob ctx args g a lg s
      = (Ret (parse_error err), s, [Called c_ParseConfig []])).
Proof.
  unfold discardErrorJob, timeoutJob.
  split; intros ->; reflexivity.
Qed.

(** X9.  "loop", "lock" and "encrypted" (when encrypted jobs are not
    skipped) open their scope before they decode their arguments.  When
    the arguments do not decode they return the decoder's error, wrapped
    as "error parsing job config", with no data, and cancel the scope
    again on the way out; they have looked up, run, rendered and locked
    nothing. *)
Theorem scoped_combinators_report_decode_failure
  (fuel : nat) (ctx : Context) (args : Args) (g : GlobalConfig)
  (a : option Accumulator) (lg : Logger) (s : State) (err : GoError) :
  let closed := after_cancel (fresh s) (scoped s) in
  let opened_and_closed :=
    [Called c_ParseConfig []; Called (c_cancel (fresh s)) []] in
  (ParseConfig_loop args g = inl err ->
   loopJob fuel ctx args g a lg s
   = (Ret (parse_error err), closed, opened_and_closed))
  /\ (ParseConfig_lock args g = inl err ->
      lockJob ctx args g a lg s
      = (Ret (parse_error err), closed, opened_and_closed))
  /\ (SkipEncrypted g = false -> ParseConfig_encrypted args g = inl err ->
      encryptedJob ctx args g a lg s
      = (Ret (parse_error err), closed, opened_and_closed)).
Proof.
  cbv zeta. unfold loopJob, lockJob, encryptedJob.
  repeat split.
  - intros ->. reflexivity.
  - intros ->. reflexivity.
  - intros -> ->. reflexivity.
Qed.

(** X10.  Once its arguments are decoded and the nested type is found,
    "discard-error" runs the nested job exactly once, with the context,
    accumulator and logger it was itself given.  It discards errors
    only: when the nested job panics, exits or never returns, so does
    "discard-error".  It writes one debug line when the nested job
    returned an error and none otherwise, and leaves the state as the
    nested job left it. *)
Theorem discardErrorJob_runs_nested_job_once
  (ctx : Context) (args : Args) (g : GlobalConfig) (a : option Accumulator)
  (lg : Logger) (s : State) (jc : DiscardErrorConfig) (job : Job) :
  ParseConfig_discardError args g = inr jc ->
  Get (Type_ (de_Job jc)) = Some job ->
  let inner := job ctx (Args_ (de_Job jc)) g a lg s in
  let out := discardErrorJob ctx args g a lg s in
  count is_run (trace_of out) = 1%nat
  /\ In (Called (c_job (Type_ (de_Job jc)) ctx a lg (result_of inner))
                (trace_of inner))
        (trace_of out)
  /\ state_of out = state_of inner
  /\ (forall h, result_of inner = Halted h -> result_of out = Halted h)
  /\ count is_log (trace_of out)
     = match result_of inner, lg with
       | Ret (_, Some _), ZapLogger _ => 1%nat
       | _, _ => 0%nat
       end.
Proof.
  intros Hd Hg. unfold discardErrorJob. unfold_M. rewrite Hd. cbn [fst snd].
  rewrite Hg.
  destruct (job ctx (Args_ (de_Job jc)) g a lg s) as [[[[d [e|]]|h] s1] t1];
    destruct lg; cbn [fst snd app].
  all: split; [count_events|].
  all: split; [cbn; auto|].
  all: split; [reflexivity|].
  all: split; [intros h0 Hh; congruence|].
  all: count_events.
Qed.

(** X11.  "timeout" runs the nested job under a deadline: the context it
    passes on expires [Timeout] after the moment "timeout" was called
    (at once when [Timeout] is not positive), whatever else happens to
    it.  The result of the nested job is returned as it is, data and
    error, and the deadline's scope is cancelled once the nested job has
    returned or panicked. *)
Theorem timeoutJob_runs_nested_job_under_deadline
  (ctx : Context) (args : Args) (g : GlobalConfig) (a : option Accumulator)
  (lg : Logger) (s : State) (jc : TimeoutConfig) (job : Job) :
  ParseConfig_timeout args g = inr jc ->
  Get (Type_ (to_Job jc)) = Some job ->
  let ctx' := WithDeadline ctx (fresh s) (now s + to_Timeout jc) in
  let inner := job ctx' (Args_ (to_Job jc)) g a lg (scoped s) in
  let out := timeoutJob ctx args g a lg s in
  result_of out = result_of inner
  /\ In (Called (c_job (Type_ (to_Job jc)) ctx' a lg (result_of inner))
                (trace_of inner))
        (trace_of out)
  /\ (forall s1 : @State W, now s + to_Timeout jc <= now s1 ->
      ctx_done s1 ctx' = true)
  /\ (result_of inner <> Halted Exited -> result_of inner <> Halted Running ->
      state_of out = after_cancel (fresh s) (state_of inner)
      /\ last_event (trace_of out) = Some (Called (c_cancel (fresh s)) [])).
Proof.
  intros Hd Hg. unfold timeoutJob. unfold_M. rewrite Hd. cbn [fst snd].
  rewrite Hg. unfold scoped.
  destruct (job _ (Args_ (to_Job jc)) g a lg _) as [[[v|[| |]] s1] t1];
    cbn [fst snd app].
  all: split; [reflexivity|].
  all: split; [cbn; auto|].
  all: split;
    [intros s' Hs'; cbn [ctx_done];
     rewrite (proj2 (Z.leb_le _ _) Hs'); rewrite Bool.orb_true_r; reflexivity|].
  all: intros H1 H2; try congruence.
  all: split; [reflexivity|reflexivity].
Qed.

Ltac cnt :=
  count_events;
  repeat match goal with H : (?k =? ?k)%string = true |- _ => rewrite H end;
  try reflexivity; try lia.

(** X12.  "lock" holds the lock while the nested job runs: with its
    arguments decoded it takes the lock of the rendered key exactly once,
    before it looks the nested type up; the nested job, if the type is
    known, runs after that in the scope "lock" opened, and its result is
    returned as it is; the lock is released exactly once when the nested
    job has returned or panicked or its type is unknown, and not at all
    when the process exits or the job never returns. *)
Theorem lockJob_holds_lock_around_nested_job
  (ctx : Context) (args : Args) (g : GlobalConfig) (a : option Accumulator)
  (lg : Logger) (s : State) (jc : LockConfig) :
  ParseConfig_lock args g = inr jc ->
  let ctx' := WithCancel ctx (fresh s) in
  let key := ParseAndExecute lg (lk_Key jc) ctx' in
  let locked := set_world (scoped s) (snd (Lock key (world s))) in
  let out := lockJob ctx args g a lg s in
  count (is_lock key) (trace_of out) = 1%nat
  /\ count (is_unlock key) (trace_of out)
     = match result_of out with
       | Halted Exited | Halted Running => 0%nat
       | _ => 1%nat
       end
  /\ (Get (Type_ (lk_Job jc)) = None ->
      result_of out = Ret (unknown_job (Type_ (lk_Job jc)))
      /\ count is_run (trace_of out) = 0%nat)
  /\ (forall job, Get (Type_ (lk_Job jc)) = Some job ->
      let inner := job ctx' (Args_ (lk_Job jc)) g a lg locked in
      result_of out = result_of inner
      /\ exists pre post,
           trace_of out
           = pre ++ Called (c_job (Type_ (lk_Job jc)) ctx' a lg (result_of inner))
                           (trace_of inner) :: post
           /\ count (is_lock key) pre = 1%nat
           /\ count (is_unlock key) pre = 0%nat
           /\ count is_run post = 0%nat).
Proof.
  intros Hd ctx' key locked out. subst out locked. unfold lockJob.
  unfold_M. rewrite Hd. cbn [fst snd app]. fold ctx'. fold key.
  unfold scoped, set_world. cbn [world now fresh cancelled].
  assert (Hkey : (key =? key)%string = true) by apply String.eqb_refl.
  destruct (Lock key (world s)) as [u w]. cbn [fst snd app].
  destruct (Get (Type_ (lk_Job jc))) as [job|]; cbn [fst snd app].
  - destruct (job ctx' (Args_ (lk_Job jc)) g a lg _)
      as [[[v|[| |]] s3] t3] eqn:Hjob; cbn [fst snd app];
      try (destruct (Unlock key (world s3)) as [u' w']; cbn [fst snd app]).
    all: split; [cnt|].
    all: split; [cnt|].
    all: split; [discriminate|].
    all: intros job0 Hj; injection Hj as <-; rewrite Hjob; cbn [fst snd].
    all: split; [reflexivity|].
    all: eexists [_; _; _; _], _; split; [cbn [app]; reflexivity|].
    all: split; [cnt|].
    all: split; count_events.
  - cbn [world now fresh cancelled].
    destruct (Unlock key w) as [u' w']. cbn [fst snd app].
    split; [cnt|].
    split; [cnt|].
    split; [|discriminate].
    intros _. split; [reflexivity|]. count_events.
Qed.

(** X13.  With encrypted jobs not skipped and its arguments decoded,
    "encrypted" returns the error of the first step that fails (base64
    decoding, decryption, decoding of the decrypted entry) as it is,
    unwrapped and with no data, and has then looked no handler up and run
    nothing; a decrypted entry of a type nobody registered gives the
    "unknown job" error, and nothing is run either. *)
Theorem encryptedJob_returns_first_failure_unwrapped
  (ctx : Context) (args : Args) (g : GlobalConfig) (a : option Accumulator)
  (lg : Logger) (s : State) (jc : EncryptedConfig) :
  SkipEncrypted g = false ->
  ParseConfig_encrypted args g = inr jc ->
  let out := encryptedJob ctx args g a lg s in
  (forall err,
     base64_DecodeString (en_Data jc) = inl err ->
     result_of out = Ret (VNil, Some err)
     /\ count is_lookup (trace_of out) = 0%nat
     /\ count is_run (trace_of out) = 0%nat)
  /\ (forall decoded err,
        base64_DecodeString (en_Data jc) = inr decoded ->
        Decrypt decoded = inl err ->
        result_of out = Ret (VNil, Some err)
        /\ count is_lookup (trace_of out) = 0%nat
        /\ count is_run (trace_of out) = 0%nat)
  /\ (forall decoded decrypted protected err,
        base64_DecodeString (en_Data jc) = inr decoded ->
        Decrypt decoded = inr (decrypted, protected) ->
        Unmarshal decrypted (en_Format jc) = inl err ->
        result_of out = Ret (VNil, Some err)
        /\ count is_lookup (trace_of out) = 0%nat
        /\ count is_run (trace_of out) = 0%nat)
  /\ (forall decoded decrypted protected jobCfg,
        base64_DecodeString (en_Data jc) = inr decoded ->
        Decrypt decoded = inr (decrypted, protected) ->
        Unmarshal decrypted (en_Format jc) = inr jobCfg ->
        Get (Type_ jobCfg) = None ->
        result_of out = Ret (unknown_job (Type_ jobCfg))
        /\ count is_lookup (trace_of out) = 1%nat
        /\ count is_run (trace_of out) = 0%nat).
Proof.
  intros Hskip Hd out. subst out. unfold encryptedJob. rewrite Hskip.
  unfold_M. rewrite Hd. cbn [fst snd app].
  split; [|split; [|split]].
  - intros err ->. cbn [fst snd app]. repeat split.
  - intros decoded err -> ->. cbn [fst snd app]. repeat split.
  - intros decoded decrypted protected err -> -> ->. cbn [fst snd app].
    repeat split.
  - intros decoded decrypted protected jobCfg -> -> -> ->. cbn [fst snd app].
    repeat split.
Qed.

(** The loop proper returns no data. *)
Lemma loopJob_for_no_data
  (nested : Config) (g : GlobalConfig) (a : option Accumulator) (lg : Logger)
  (fuel : nat) :
  forall (basic : BasicJobConfig) (ctx : Context) (s : State) d e,
    result_of (loopJob_for fuel basic nested ctx g a lg s) = Ret (d, e) ->
    d = VNil.
Proof.
  induction fuel as [|fuel IH]; intros basic ctx s d e.
  - cbn. discriminate.
  - cbn [loopJob_for]. unfold_M.
    destruct (Next basic ctx s) as [[[[holds basic']|h] s1] t1];
      cbn [fst snd]; [|discriminate].
    destruct holds; [|cbn; congruence].
    destruct (Get (Type_ nested)) as [job|]; cbn [fst snd app];
      [|unfold unknown_job; cbn; congruence].
    destruct (job ctx (Args_ nested) g a lg s1) as [[[[data [err|]]|h] s2] t2];
      cbn [fst snd app]; try (cbn; congruence).
    specialize (IH basic'
                  (WithValue ctx (ContextKey ("data." ++ Name nested))
                     (CtxData data)) s2 d e).
    destruct (loopJob_for fuel basic' nested _ g a lg s2) as [[r3 s3] t3].
    unfold result_of in *. cbn [fst snd] in *. exact IH.
Qed.

(** X14.  "loop" never returns data: whenever it returns, with or
    without an error, after any number of runs of the nested job, its
    data is nil.  What the nested job returned is only passed on to the
    next iteration through the context. *)
Theorem loopJob_returns_no_data
  (fuel : nat) (ctx : Context) (args : Args) (g : GlobalConfig)
  (a : option Accumulator) (lg : Logger) (s : State)
  (d : Value) (e : option GoError) :
  result_of (loopJob fuel ctx args g a lg s) = Ret (d, e) -> d = VNil.
Proof.
  unfold loopJob. rewrite scope_then_defer. cbn [fst snd].
  match goal with
  | |- context [defer (cancel ?sc) ?b ?st] =>
      destruct (defer_cancel_spec sc b st) as (-> & _)
  end.
  cbv beta iota zeta delta [bind called emit ret]. cbn [fst snd app].
  destruct (ParseConfig_loop args g) as [err|jc]; cbn [fst snd app].
  - unfold result_of, parse_error. cbn. congruence.
  - pose proof (loopJob_for_no_data (lp_Job jc) g a lg fuel (lp_Basic jc)
                  (WithCancel ctx (fresh s)) (scoped s) d e) as Hl0.
    destruct (loopJob_for fuel _ _ _ g a lg _) as [[r3 s3] t3].
    unfold result_of in *. cbn [fst snd] in *. exact Hl0.
Qed.

(** What runs under a deferred [cancel()], after some events of its
    own. *)
Lemma deferred_cancel_is_last {A : Type} (sc : nat)
  (body : @M W Args CfgMap Accumulator A) (st : State)
  (pre : list Event) :
  let out := (let '(r, s2, t2) := defer (cancel sc) body st in
              (r, s2, pre ++ t2)) in
  result_of out <> Halted Exited -> result_of out <> Halted Running ->
  last_event (trace_of out) = Some (Called (c_cancel sc) [])
  /\ In sc (cancelled (state_of out)).
Proof.
  cbv zeta.
  destruct (defer_cancel_spec sc body st) as (Hres & Hret & _).
  destruct (defer (cancel sc) body st) as [[r s2] t2].
  unfold result_of, state_of, trace_of in *. cbn [fst snd] in *.
  intros H1 H2. rewrite Hres in H1, H2.
  destruct (Hret H1 H2) as [-> ->].
  rewrite app_assoc, last_event_app. split; [reflexivity|].
  unfold after_cancel. cbn. auto.
Qed.

(** X15.  The combinators that open a scope of their own ("loop",
    "lock", "encrypted" when it does not skip, and "timeout" once its
    arguments are decoded) close it behind them: whenever they return or
    panic, calling the [CancelFunc] of that scope is the last thing they
    did, and every context derived from the one they passed to the nested
    job is done. *)
Theorem combinators_cancel_the_scope_they_open
  (fuel : nat) (ctx : Context) (args : Args) (g : GlobalConfig)
  (a : option Accumulator) (lg : Logger) (s : State) (job : Job) :
  job = loopJob fuel \/ job = lockJob
  \/ (job = encryptedJob /\ SkipEncrypted g = false)
  \/ (job = timeoutJob /\ exists jc, ParseConfig_timeout args g = inr jc) ->
  let out := job ctx args g a lg s in
  result_of out <> Halted Exited -> result_of out <> Halted Running ->
  last_event (trace_of out) = Some (Called (c_cancel (fresh s)) [])
  /\ (forall c : @Context CfgMap,
        under_scope (fresh s) c = true -> ctx_done (state_of out) c = true).
Proof.
  intros Hjob out H1 H2.
  enough (Hgoal : last_event (trace_of out)
                  = Some (Called (c_cancel (fresh s)) [])
                  /\ In (fresh s) (cancelled (state_of out))).
  { destruct Hgoal as [Hlast Hin]. split; [exact Hlast|].
    intros c Hc. apply (under_scope_done _ (fresh s)); assumption. }
  revert H1 H2. subst out.
  destruct Hjob as [-> | [-> | [[-> Hskip] | [-> [jc Hd]]]]].
  - unfold loopJob. rewrite scope_then_defer. cbn [fst snd].
    match goal with
    | |- context [defer (cancel ?sc) ?b ?st] =>
        pose proof (deferred_cancel_is_last sc b st []) as Hc
    end.
    cbv zeta in Hc. cbn [app] in Hc.
    destruct (defer _ _ _) as [[r0 s0] t0]. exact Hc.
  - unfold lockJob. rewrite scope_then_defer. cbn [fst snd].
    match goal with
    | |- context [defer (cancel ?sc) ?b ?st] =>
        pose proof (deferred_cancel_is_last sc b st []) as Hc
    end.
    cbv zeta in Hc. cbn [app] in Hc.
    destruct (defer _ _ _) as [[r0 s0] t0]. exact Hc.
  - unfold encryptedJob. rewrite Hskip. rewrite scope_then_defer.
    cbn [fst snd].
    match goal with
    | |- context [defer (cancel ?sc) ?b ?st] =>
        pose proof (deferred_cancel_is_last sc b st []) as Hc
    end.
    cbv zeta in Hc. cbn [app] in Hc.
    destruct (defer _ _ _) as [[r0 s0] t0]. exact Hc.
  - unfold timeoutJob.
    cbv beta iota zeta delta [bind called emit ret context_WithTimeout alloc].
    cbn [fst snd app]. rewrite Hd. cbn [fst snd app].
    match goal with
    | |- context [defer (cancel ?sc) ?b ?st] =>
        pose proof (deferred_cancel_is_last sc b st [Called c_ParseConfig []])
          as Hc
    end.
    cbv zeta in Hc. cbn [app] in Hc.
    destruct (defer _ _ _) as [[r0 s0] t0]. exact Hc.
Qed.

(** ** The launch pass *)

Lemma launched_app (t1 t2 : list (@Event Args CfgMap Accumulator)) :
  launched (t1 ++ t2) = launched t1 ++ launched t2.
Proof.
  induction t1 as [|e t1 IH]; [reflexivity|].
  cbn [app launched]. destruct e as [lvl msg fs|c inner]; [exact IH|].
  destruct c; try exact IH. cbn [app]. rewrite IH. reflexivity.
Qed.

Lemma launched_count (t : list (@Event Args CfgMap Accumulator)) :
  List.length (launched t) = count is_go t.
Proof.
  induction t as [|e t IH]; [reflexivity|].
  rewrite count_cons. cbn [launched].
  destruct e as [lvl msg fs|c inner]; [exact IH|].
  destruct c; try exact IH. cbn [List.length is_go]. rewrite IH. reflexivity.
Qed.

(** The inner loop of the launch pass starts [n] goroutines, all of the
    same instance, writes at most log lines besides, and returns. *)
Lemma runJobs_go_launched (n : nat) (inst : @Instance Args CfgMap) (k : Z)
  (s : @State W) :
  exists tr,
    @runJobs_go W Args CfgMap Accumulator n inst k s
    = (Ret (k + Z.of_nat n), s, tr)
    /\ launched tr = repeat inst n.
Proof.
  revert k. induction n as [|n IH]; intros k.
  - cbn. exists []. split; [|reflexivity]. unfold ret.
    replace (k + 0) with k by lia. reflexivity.
  - cbn [runJobs_go]. destruct (IH (k + 1)) as (tr & Heq & Hlt).
    unfold_M.
    destruct (negb (Name (inst_entry inst) =? "")%string), (inst_logger inst);
      cbn [fst snd app]; rewrite Heq; cbn [fst snd app];
      replace (k + Z.of_nat (S n)) with (k + 1 + Z.of_nat n) by lia;
      eexists; (split; [reflexivity|]);
      cbn [launched repeat]; rewrite Hlt; reflexivity.
Qed.

(** The instance scaler returns, starts nothing and writes nothing. *)
Lemma computeCount_quiet (c : Z) (f : Float64.float64) (s : State) :
  exists n s' tr,
    computeCount c f s = (Ret n, s', tr)
    /\ launched tr = [] /\ count is_log tr = 0%nat.
Proof.
  unfold computeCount. unfold_M.
  destruct (Float64.ltb Float64.one _).
  - eauto 10.
  - destruct (rand_Float64 (world s)) as [draw w].
    destruct (Float64.ltb draw _); eauto 10.
Qed.

(** One turn of the launch pass: what it starts, and what it returns. *)
Lemma runJobs_entry_launched
  (r : @Runner Reporter) (ctx : Context) (metric : option Metrics)
  (lg : Logger) (entry : Config) (n : Z) (s : State) :
  let out := runJobs_entry r ctx metric lg entry n s in
  (forall i, In i (launched (trace_of out)) ->
     instance_of r lg ctx metric entry i)
  /\ (forall m, result_of out = Ret m ->
        m = n + Z.of_nat (List.length (launched (trace_of out))))
  /\ ((forall e', exists m, Decode_cfgMap e' = inr m) ->
      exists m, result_of out = Ret m).
Proof.
  cbv zeta. unfold runJobs_entry. unfold_M.
  destruct (negb (String.length (Filter entry) =? 0)%nat);
    [destruct (negb (Strings.TrimSpace _ =? "true")%string)|];
    cbn [fst snd app].
  1:{ destruct lg; cbn; (split; [intros i0 []|]);
        (split; [intros m Hm; injection Hm as <-; lia | eauto]). }
  all: destruct (Get (Type_ entry)) as [job|] eqn:Hget; cbn [fst snd app];
    [|destruct lg; cbn; (split; [intros i0 []|]);
      (split; [intros m Hm; injection Hm as <-; lia | eauto])].
  all: destruct (Float64.ltb Float64.zero _) eqn:Hscale;
    [ destruct (computeCount_quiet (Count entry)
                  (ScaleFactor (globalJobsCfg r)) s)
        as (c & s' & tr & Hc & Hl0 & _);
      rewrite Hc
    | ].
  all: cbn [fst snd app].
  all: match goal with
       | |- context [Decode_cfgMap ?e] =>
           destruct (Decode_cfgMap e) as [err|cfgMap] eqn:Hdec
       end;
    [ destruct lg; cbn; rewrite ?launched_app, ?Hl0; cbn;
      (split; [intros i0 []|]); (split; [discriminate|]);
      intros Hall;
      match type of Hdec with
      | Decode_cfgMap ?e = _ => destruct (Hall e) as [m Hm]; congruence
      end
    | ].
  all: match goal with
       | |- context [runJobs_go ?k ?i ?m ?st] =>
           destruct (runJobs_go_launched k i m st) as (t0 & Heq & Hl1);
           rewrite Heq
       end.
  all: cbn [fst snd app launched]; rewrite ?launched_app, ?Hl0;
    cbn [launched app]; rewrite Hl1.
  all: split; [|split; [intros m Hm; injection Hm as <-;
                         rewrite repeat_length; lia
                       | intros _; eauto]].
  all: intros i Hi.
  all: match type of Hi with
       | In _ (repeat _ (Z.to_nat ?c)) =>
           assert (Hpos : 0 < c)
             by (destruct (Z.to_nat c) eqn:Hn; [contradiction Hi | lia])
       end.
  all: apply repeat_spec in Hi; subst i.
  all: unfold instance_of;
    cbn [inst_metric inst_logger inst_entry inst_ctx
         Name Type_ Filter Args_ Count].
  all: repeat (split; [reflexivity|]).
  all: split; [congruence|].
  all: split; [exact Hpos|].
  all: split; [rewrite Hscale; intros; try reflexivity; discriminate|].
  all: exists cfgMap; split; [exact Hdec | reflexivity].
Qed.

(** The turns of the launch pass, one after the other. *)
Lemma runJobs_for_launched
  (r : @Runner Reporter) (ctx : Context) (metric : option Metrics)
  (lg : Logger) (jobs : list Config) :
  forall (n : Z) (s : State),
  let out := runJobs_for r ctx metric lg jobs n s in
  (forall i, In i (launched (trace_of out)) ->
     exists entry, In entry jobs /\ instance_of r lg ctx metric entry i)
  /\ (forall m, result_of out = Ret m ->
        m = n + Z.of_nat (List.length (launched (trace_of out))))
  /\ ((forall e', exists m, Decode_cfgMap e' = inr m) ->
      exists m, result_of out = Ret m).
Proof.
  induction jobs as [|entry rest IH]; intros n s.
  - cbn. split; [intros i []|]. split; [|eauto].
    intros m Hm. injection Hm as <-. lia.
  - cbn [runJobs_for]. cbv zeta.
    pose proof (runJobs_entry_launched r ctx metric lg entry n s) as He.
    cbv zeta in He. destruct He as (Hi1 & Hn1 & Hr1).
    unfold bind.
    destruct (runJobs_entry r ctx metric lg entry n s) as [[[m1|h] s1] t1].
    + specialize (IH m1 s1). cbv zeta in IH. destruct IH as (Hi2 & Hn2 & Hr2).
      destruct (runJobs_for r ctx metric lg rest m1 s1) as [[r2 s2] t2].
      unfold result_of, trace_of in *. cbn [fst snd] in *.
      rewrite launched_app. split; [|split].
      * intros i Hi. apply in_app_or in Hi as [Hi|Hi].
        -- exists entry. split; [left; reflexivity|auto].
        -- destruct (Hi2 i Hi) as (e0 & Hin & Hinst).
           exists e0. split; [right; exact Hin|exact Hinst].
      * intros m Hm. rewrite length_app.
        rewrite (Hn2 m Hm), (Hn1 m1 eq_refl). lia.
      * exact Hr2.
    + unfold result_of, trace_of in *. cbn [fst snd] in *.
      split; [|split].
      * intros i Hi. exists entry. split; [left; reflexivity|auto].
      * discriminate.
      * exact Hr1.
Qed.

(** What is inside the one call of a launch pass. *)
Lemma runJobs_inside
  (r : @Runner Reporter) (ctx : Context) (cfg : MultiConfig)
  (metric : option Metrics) (lg : Logger) (s : State) :
  let gctx :=
    WithValue
      (WithValue
         (WithValue (WithCancel ctx (fresh s)) (ContextKey "goos")
                    (CtxString GOOS))
         (ContextKey "goarch") (CtxString GOARCH))
      (ContextKey "version") (CtxString Version) in
  let pass := runJobs_for r gctx metric lg (Jobs cfg) 0 (scoped s) in
  let out := runJobs r ctx cfg metric lg s in
  result_of out
  = match result_of pass with
    | Ret _ => Ret (fresh s)
    | Halted h => Halted h
    end
  /\ trace_of out
     = [Called (c_runJobs cfg metric lg)
          (trace_of pass
           ++ match result_of pass, lg with
              | Ret n, ZapLogger _ =>
                  [Log InfoLevel "job instances (re)started" [FInt "count" n]]
              | _, _ => []
              end)].
Proof.
  cbv zeta. unfold runJobs. unfold_M. unfold scoped.
  destruct (runJobs_for r _ metric lg (Jobs cfg) 0 _) as [[[n|h] s1] t1];
    cbn [fst snd app].
  - destruct lg; cbn [fst snd app]; rewrite ?app_nil_r; split; reflexivity.
  - destruct lg; rewrite ?app_nil_r; split; reflexivity.
Qed.

(** X16.  A launch pass starts instances of the entries of its
    configuration only: every goroutine it starts is for an entry of the
    configuration whose type is registered, carries that entry's name,
    type, filter and arguments with a positive count (the entry's own
    unless a positive scale factor rescaled it), the metrics sink and the
    logger the pass was given, and runs in the context of the generation
    extended by the entry as a map under "config" and the sink under
    "metrics". *)
Theorem runJobs_starts_instances_of_its_configuration
  (r : @Runner Reporter) (ctx : Context) (cfg : MultiConfig)
  (metric : option Metrics) (lg : Logger) (s : State) :
  let generation :=
    WithValue
      (WithValue
         (WithValue (WithCancel ctx (fresh s)) (ContextKey "goos")
                    (CtxString GOOS))
         (ContextKey "goarch") (CtxString GOARCH))
      (ContextKey "version") (CtxString Version) in
  forall i,
    In i (launched (inside_runJobs (trace_of (runJobs r ctx cfg metric lg s)))) ->
    exists entry,
      In entry (Jobs cfg) /\ instance_of r lg generation metric entry i.
Proof.
  intros generation i Hi.
  destruct (runJobs_inside r ctx cfg metric lg s) as [_ Htr].
  rewrite Htr in Hi. cbn [inside_runJobs] in Hi. rewrite app_nil_r in Hi.
  rewrite launched_app in Hi. apply in_app_or in Hi as [Hi|Hi].
  - exact (proj1 (runJobs_for_launched r generation metric lg (Jobs cfg)
                    0 (scoped s)) i Hi).
  - destruct (result_of _) as [n|h], lg; cbn in Hi; contradiction.
Qed.

(** X17.  What an instance of a generation can read and when it is told
    to stop: its context holds the platform under "goos" and "goarch",
    the version under "version", the sink of the pass under "metrics" and
    its own entry as a map under "config"; every other key reads as in the
    context the pass was given; and its context is done exactly when the
    [CancelFunc] the pass returns has been called or the context the pass
    was given is done. *)
Theorem launched_instance_environment
  (r : @Runner Reporter) (ctx : Context) (cfg : MultiConfig)
  (metric : option Metrics) (lg : Logger) (s : State) :
  forall i,
    In i (launched (inside_runJobs (trace_of (runJobs r ctx cfg metric lg s)))) ->
    ctx_Value (inst_ctx i) (ContextKey "goos") = Some (CtxString GOOS)
    /\ ctx_Value (inst_ctx i) (ContextKey "goarch") = Some (CtxString GOARCH)
    /\ ctx_Value (inst_ctx i) (ContextKey "version") = Some (CtxString Version)
    /\ ctx_Value (inst_ctx i) (ContextKey "metrics") = Some (CtxMetrics metric)
    /\ (exists m, Decode_cfgMap (inst_entry i) = inr m
                  /\ ctx_Value (inst_ctx i) (ContextKey "config")
                     = Some (CtxConfig m))
    /\ (forall key,
          ~ In key ["goos"; "goarch"; "version"; "metrics"; "config"] ->
          ctx_Value (inst_ctx i) key = ctx_Value ctx key)
    /\ (forall s1 : @State W,
          ctx_done s1 (inst_ctx i)
          = existsb (Nat.eqb (fresh s)) (cancelled s1) || ctx_done s1 ctx).
Proof.
  intros i Hi.
  destruct (runJobs_inside r ctx cfg metric lg s) as [_ Htr].
  rewrite Htr in Hi. cbn [inside_runJobs] in Hi. rewrite app_nil_r in Hi.
  rewrite launched_app in Hi. apply in_app_or in Hi as [Hi|Hi].
  2:{ destruct (result_of _) as [n|h], lg; cbn in Hi; contradiction. }
  match type of Hi with
  | In _ (launched (trace_of (runJobs_for _ ?g _ _ _ _ _))) =>
      destruct (proj1 (runJobs_for_launched r g metric lg (Jobs cfg)
                         0 (scoped s)) i Hi) as (entry & _ & Hinst)
  end.
  destruct Hinst as (_ & _ & _ & _ & _ & _ & _ & _ & _ & m & Hm & ->).
  unfold ContextKey.
  repeat (split; [reflexivity|]).
  split; [exists m; split; [exact Hm|reflexivity]|].
  split.
  - intros key Hk. cbn [ctx_Value].
    repeat match goal with
           | |- context [String.eqb ?k key] =>
               destruct (String.eqb_spec k key) as [Heq|_];
               [exfalso; apply Hk; rewrite <- Heq; cbn; tauto|]
           end.
    reflexivity.
  - intros s1. reflexivity.
Qed.

(** X18.  A launch pass returns unless an entry it is about to start
    cannot be encoded as a map: then it returns the [CancelFunc] of the
    scope it opened, having started as many goroutines as it says in its
    last log line, "job instances (re)started". *)
Theorem runJobs_reports_the_goroutines_it_started
  (r : @Runner Reporter) (ctx : Context) (cfg : MultiConfig)
  (metric : option Metrics) (id : nat) (s : State) :
  (forall e', exists m, Decode_cfgMap e' = inr m) ->
  let out := runJobs r ctx cfg metric (ZapLogger id) s in
  let inner := inside_runJobs (trace_of out) in
  result_of out = Ret (fresh s)
  /\ last_event inner
     = Some (Log InfoLevel "job instances (re)started"
               [FInt "count" (Z.of_nat (count is_go inner))]).
Proof.
  intros Hdec out inner. subst inner out.
  destruct (runJobs_inside r ctx cfg metric (ZapLogger id) s) as [Hres Htr].
  rewrite Hres, Htr. cbn [inside_runJobs]. rewrite app_nil_r.
  match goal with
  | |- context [runJobs_for _ ?g _ _ _ _ _] =>
      destruct (runJobs_for_launched r g metric (ZapLogger id) (Jobs cfg)
                  0 (scoped s)) as (_ & Hn & Hr)
  end.
  destruct (Hr Hdec) as [m Hm]. rewrite Hm.
  split; [reflexivity|]. rewrite last_event_app.
  rewrite (Hn m Hm). rewrite count_app, launched_count.
  cbn. repeat f_equal. lia.
Qed.

(** X19.  An entry's count below one: without a positive scale factor
    an entry whose count is zero or negative starts no goroutine; with a
    positive scale factor it is treated exactly as an entry of count
    one, so it may well start some. *)
Theorem runJobs_entry_count_below_one
  (r : @Runner Reporter) (ctx : Context) (metric : option Metrics)
  (lg : Logger) (entry : Config) (n : Z) (s : State) :
  Count entry <= 0 ->
  let out := runJobs_entry r ctx metric lg entry n s in
  (Float64.ltb Float64.zero (ScaleFactor (globalJobsCfg r)) = false ->
   count is_go (trace_of out) = 0%nat)
  /\ (Float64.ltb Float64.zero (ScaleFactor (globalJobsCfg r)) = true ->
      out = runJobs_entry r ctx metric lg
              {| Name := Name entry; Type_ := Type_ entry; Count := 1;
                 Filter := Filter entry; Args_ := Args_ entry |} n s).
Proof.
  intros Hc out. split.
  - intros Hscale. rewrite <- launched_count.
    destruct (launched (trace_of out)) as [|i l] eqn:Hl0; [reflexivity|].
    exfalso.
    destruct (proj1 (runJobs_entry_launched r ctx metric lg entry n s) i)
      as (_ & _ & _ & _ & _ & _ & _ & Hpos & Hcnt & _).
    { fold out. rewrite Hl0. left. reflexivity. }
    rewrite (Hcnt Hscale) in Hpos. lia.
  - intros Hscale. subst out. unfold runJobs_entry.
    cbn [Name Type_ Count Filter Args_]. rewrite Hscale.
    unfold computeCount, utils_Max.
    replace (Z.max (Count entry) 1) with (Z.max 1 1) by lia.
    reflexivity.
Qed.

(** ** The runner *)

(** Reporting the metrics returns; it writes the summary once when there
    is a reporter and a tracker and not at all otherwise. *)
Lemma reportMetrics_spec
  (rep : option Reporter) (t : option StatsTracker) (id : string)
  (lg : Logger) (s : State) :
  exists s' tr,
    reportMetrics rep t id lg s = (Ret tt, s', tr)
    /\ count is_cancel tr = 0%nat /\ count is_runJobs tr = 0%nat
    /\ count is_refresh tr = 0%nat /\ count nil_fallback tr = 0%nat
    /\ inside_runJobs tr = []
    /\ count is_summary tr
       = match rep, t with Some _, Some _ => 1%nat | _, _ => 0%nat end.
Proof.
  unfold reportMetrics. destruct rep as [rep|], t as [t|]; unfold_M;
    try (do 2 eexists; split; [reflexivity|]; repeat split; reflexivity).
  destruct (WriteSummary _ _ _) as [u w]. cbn [fst snd].
  unfold set_world. cbn [world].
  destruct (ReportStatistics _ _ _) as [[e|] w']; destruct lg; cbn [fst snd app];
    do 2 eexists; (split; [reflexivity|]); repeat split; reflexivity.
Qed.

(** What the application step of [Run] leaves behind: either the
    variables of the loop as they were and nothing launched, or one
    launch, after the [CancelFunc] of the generation before it, if there
    was one. *)
Lemma Run_apply_spec
  (r : @Runner Reporter) (ctx : Context) (lg : Logger) (l : RunLocals)
  (s : State) :
  let out := Run_apply r ctx lg l s in
  let k := match cancelFunc l with Some _ => 1%nat | None => 0%nat end in
  count is_summary (trace_of out) = 0%nat
  /\ count is_refresh (trace_of out) = 0%nat
  /\ count nil_fallback (trace_of out) = 0%nat
  /\ ((result_of out = Ret l
       /\ count is_cancel (trace_of out) = 0%nat
       /\ count is_runJobs (trace_of out) = 0%nat
       /\ inside_runJobs (trace_of out) = [])
      \/ (count is_cancel (trace_of out) = k
          /\ count is_runJobs (trace_of out) = 1%nat
          /\ (forall l', result_of out = Ret l' -> cancelFunc l' <> None)
          /\ exists cfg metric lg' s',
               inside_runJobs (trace_of out)
               = inside_runJobs (trace_of (runJobs r ctx cfg metric lg' s'))
               /\ ((metric = None /\ lg' = NopLogger)
                   \/ (metric <> None /\ lg' = lg)))).
Proof.
  cbv zeta. unfold Run_apply.
  set (fb := nonNilConfigOrDefault _ _).
  assert (Hfb : Body fb <> None).
  { subst fb. unfold nonNilConfigOrDefault.
    destruct (Body (lastKnownConfig l)) eqn:Hb; [congruence|cbn; discriminate]. }
  clearbody fb. destruct fb as [[b|] prot]; [clear Hfb|cbn in Hfb; congruence].
  unfold_M.
  destruct (FetchRawMultiConfig _ _ _ _ _) as [raw w]. cbn [fst snd].
  destruct (negb (bytes_Equal _ _)).
  2:{ destruct lg; cbn [fst snd app];
        (split; [count_events|]); (split; [count_events|]);
        (split; [count_events|]);
        left; repeat split. }
  destruct (config_Unmarshal _ _) as [cfg|].
  2:{ destruct lg; cbn [fst snd app];
        (split; [count_events|]); (split; [count_events|]);
        (split; [count_events|]);
        left; repeat split. }
  unfold set_world. cbn [world now fresh cancelled].
  destruct (Protected raw), (cancelFunc l), lg eqn:Hlg;
    cbn [fst snd app world now fresh cancelled].
  all: match goal with
       | |- context [runJobs ?a ?b ?c0 ?d ?e ?st] =>
           destruct (runJobs_trace a b c0 d e st) as [inner Hin];
           assert (Hex : exists cfg metric lg' s',
                     inside_runJobs [Called (c_runJobs c0 d e) inner]
                     = inside_runJobs
                         (trace_of (runJobs r ctx cfg metric lg' s'))
                     /\ ((metric = None /\ lg' = NopLogger)
                         \/ (metric <> None /\ lg' = lg)))
             by (exists c0, d, e, st; rewrite Hin; split;
                 [reflexivity
                 |first [left; split; reflexivity
                        |right; split; [discriminate|symmetry; exact Hlg]]]);
           destruct (runJobs a b c0 d e st) as [[[n0|h] s0] t0]
       end; unfold trace_of in Hin; cbn [fst snd app] in *; subst t0.
  all: split; [count_events|].
  all: split; [count_events|].
  all: split; [count_events|].
  all: right.
  all: split; [count_events|].
  all: split; [count_events|].
  all: split; [intros l' Hl'; try discriminate; injection Hl' as <-;
               cbn; discriminate|].
  all: rewrite Hlg in Hex; unfold trace_of in Hex; rewrite ?app_nil_r;
    exact Hex.
Qed.

Lemma inside_runJobs_app (t1 t2 : list (@Event Args CfgMap Accumulator)) :
  inside_runJobs (t1 ++ t2) = inside_runJobs t1 ++ inside_runJobs t2.
Proof.
  induction t1 as [|e t1 IH]; [reflexivity|].
  cbn [app inside_runJobs]. destruct e as [lvl msg fs|c inner]; [exact IH|].
  destruct c; try exact IH. rewrite IH. apply app_assoc.
Qed.

(** What an instance of a launch pass carries and reads. *)
Lemma runJobs_instance
  (r : @Runner Reporter) (ctx : Context) (cfg : MultiConfig)
  (metric : option Metrics) (lg : Logger) (s : State) :
  forall i,
    In i (launched (inside_runJobs (trace_of (runJobs r ctx cfg metric lg s)))) ->
    inst_metric i = metric /\ inst_logger i = lg
    /\ (forall key,
          ~ In key ["goos"; "goarch"; "version"; "metrics"; "config"] ->
          ctx_Value (inst_ctx i) key = ctx_Value ctx key).
Proof.
  intros i Hi.
  destruct (runJobs_inside r ctx cfg metric lg s) as [_ Htr].
  rewrite Htr in Hi. cbn [inside_runJobs] in Hi. rewrite app_nil_r in Hi.
  rewrite launched_app in Hi. apply in_app_or in Hi as [Hi|Hi].
  2:{ destruct (result_of _) as [n|h], lg; cbn in Hi; contradiction. }
  match type of Hi with
  | In _ (launched (trace_of (runJobs_for _ ?g _ _ _ _ _))) =>
      destruct (proj1 (runJobs_for_launched r g metric lg (Jobs cfg)
                         0 (scoped s)) i Hi) as (entry & _ & Hinst)
  end.
  destruct Hinst as (Hm & Hlg & _ & _ & _ & _ & _ & _ & _ & m & _ & ->).
  split; [exact Hm|]. split; [exact Hlg|].
  intros key Hk. unfold ContextKey. cbn [ctx_Value].
  repeat match goal with
         | |- context [String.eqb ?k key] =>
             destruct (String.eqb_spec k key) as [Heq|_];
             [exfalso; apply Hk; rewrite <- Heq; cbn; tauto|]
         end.
  reflexivity.
Qed.

Ltac norm_inside H :=
  repeat first [rewrite inside_runJobs_app in H
               |progress cbn [inside_runJobs app] in H].

Ltac by_generations l :=
  let cf := fresh "cf" in
  let H := fresh "Hcf" in
  remember (cancelFunc l) as cf eqn:H in *; clear H; destruct cf; lia.

(** The refresh loop, from any values of its variables: [k] is the number
    of generations alive when it starts. *)
Lemma Run_for_spec
  (r : @Runner Reporter) (ctx : Context) (lg : Logger) (fuel : nat) :
  forall (l : RunLocals) (s : State),
  let out := Run_for fuel r ctx lg l s in
  let tr := trace_of out in
  let k := match cancelFunc l with Some _ => 1%nat | None => 0%nat end in
  (count is_cancel tr <= count is_runJobs tr + k)%nat
  /\ (count is_runJobs tr + k <= count is_cancel tr + 1)%nat
  /\ (result_of out = Ret tt ->
      count is_cancel tr = (count is_runJobs tr + k)%nat)
  /\ count nil_fallback tr = 0%nat
  /\ (count is_summary tr <= count is_refresh tr)%nat
  /\ (reporter r = None -> count is_summary tr = 0%nat)
  /\ (tracker l = None -> count is_runJobs tr = 0%nat ->
      count is_summary tr = 0%nat)
  /\ (forall i, In i (launched (inside_runJobs tr)) ->
      ((inst_metric i = None /\ inst_logger i = NopLogger)
       \/ (inst_metric i <> None /\ inst_logger i = lg))
      /\ (forall key,
            ~ In key ["goos"; "goarch"; "version"; "metrics"; "config"] ->
            ctx_Value (inst_ctx i) key = ctx_Value ctx key)).
Proof.
  induction fuel as [|fuel IH]; intros l s.
  - cbn. repeat split; try lia; try discriminate; try contradiction.
    by_generations l.
  - cbn [Run_for]. cbv zeta.
    pose proof (Run_apply_spec r ctx lg l s) as Ha. cbv zeta in Ha.
    destruct Ha as (Ha_sum & Ha_ref & Ha_nf & Ha).
    cbv beta iota zeta delta [bind Run_cycle outside ret cancel].
    destruct (Run_apply r ctx lg l s) as [[[l'|h] s1] t1];
      unfold result_of, trace_of in Ha_sum, Ha_ref, Ha_nf, Ha |- *;
      cbn [fst snd] in Ha_sum, Ha_ref, Ha_nf, Ha |- *.
    2:{ split; [destruct Ha as [(? & ? & ? & ?)|(? & ? & ? & ?)];
                try discriminate; by_generations l|].
        split; [destruct Ha as [(? & ? & ? & ?)|(? & ? & ? & ?)];
                try discriminate; by_generations l|].
        split; [discriminate|].
        split; [exact Ha_nf|].
        split; [lia|].
        split; [intros _; exact Ha_sum|].
        split; [intros _ _; exact Ha_sum|].
        intros i Hi.
        destruct Ha as [(? & ? & ? & Hins)
                       |(? & ? & ? & cfg & m & lg' & s' & Hins & Hml)];
          rewrite Hins in Hi; [contradiction|].
        destruct (runJobs_instance r ctx cfg m lg' s' i Hi)
          as (Hm & Hlg & Hkeys).
        split; [|exact Hkeys].
        destruct Hml as [[-> ->]|[Hne ->]]; [left|right]; split; congruence. }
    destruct (select_refresh ctx (world s1)) as [[|] w]; cbv beta iota zeta.
    + (* the refresh timer *)
      destruct (reportMetrics_spec (reporter r) (tracker l')
                  (ClientID (globalJobsCfg r)) lg (set_world s1 w))
        as (s2 & t2 & Hrep & Hr_c & Hr_r & Hr_ref & Hr_nf & Hr_in & Hr_sum).
      rewrite Hrep. cbv beta iota zeta. cbn [fst snd app].
      specialize (IH l' s2). cbv zeta in IH.
      destruct IH as (I1 & I2 & I3 & I4 & I5 & I6 & I7 & I8).
      destruct (Run_for fuel r ctx lg l' s2) as [[r3 s3] t3].
      unfold result_of, trace_of in *. cbn [fst snd] in *.
      rewrite ?app_nil_r.
      destruct Ha as [(Hl' & Hc0 & Hr0 & Hins)
                     |(Hc1 & Hr1 & Hcf & cfg & m & lg' & s' & Hins & Hml)].
      * injection Hl' as ->.
        split; [revert I1; count_events; try by_generations l|].
        split; [revert I2; count_events; try by_generations l|].
        split; [intros Hret; specialize (I3 Hret); revert I3; count_events;
                try by_generations l|].
        split; [revert I4; count_events|].
        split; [revert I5; count_events;
                destruct (reporter r), (tracker l); lia|].
        split; [intros Hnone; specialize (I6 Hnone); revert I6; count_events;
                rewrite Hnone in Hr_sum; lia|].
        split; [intros Hnone Hz;
                assert (Hz3 : count is_runJobs t3 = 0%nat)
                  by (revert Hz; count_events);
                specialize (I7 Hnone Hz3); revert I7; count_events;
                rewrite Hnone in Hr_sum;
                destruct (reporter r); lia|].
        intros i Hi. norm_inside Hi.
        rewrite Hins, Hr_in in Hi. cbn [app] in Hi.
        rewrite ?app_nil_r in Hi. apply I8. exact Hi.
      * assert (Hcf' : cancelFunc l' <> None) by (apply Hcf; reflexivity).
        destruct (cancelFunc l') as [c'|]; [clear Hcf'|congruence].
        split; [revert I1; count_events; try by_generations l|].
        split; [revert I2; count_events; try by_generations l|].
        split; [intros Hret; specialize (I3 Hret); revert I3; count_events;
                try by_generations l|].
        split; [revert I4; count_events|].
        split; [revert I5; count_events;
                destruct (reporter r), (tracker l'); lia|].
        split; [intros Hnone; specialize (I6 Hnone); revert I6; count_events;
                rewrite Hnone in Hr_sum; lia|].
        split; [intros _; count_events|].
        intros i Hi. norm_inside Hi.
        rewrite Hins, Hr_in in Hi. cbn [app] in Hi.
        rewrite ?app_nil_r in Hi. rewrite launched_app in Hi.
        apply in_app_or in Hi as [Hi|Hi]; [|apply I8; exact Hi].
        destruct (runJobs_instance r ctx cfg m lg' s' i Hi)
          as (Hm & Hlg & Hkeys).
        split; [|exact Hkeys].
        destruct Hml as [[-> ->]|[Hne ->]]; [left|right]; split; congruence.
    + (* the stop signal *)
      destruct Ha as [(Hl' & Hc0 & Hr0 & Hins)
                     |(Hc1 & Hr1 & Hcf & cfg & m & lg' & s' & Hins & Hml)].
      * injection Hl' as ->.
        destruct (cancelFunc l) as [c0|]; cbn [fst snd app];
          rewrite ?app_nil_r.
        all: split; [count_events|].
        all: split; [count_events|].
        all: split; [intros _; count_events|].
        all: split; [count_events|].
        all: split; [count_events|].
        all: split; [intros _; count_events|].
        all: split; [intros _ _; count_events|].
        all: intros i Hi; norm_inside Hi;
          rewrite Hins in Hi; cbn in Hi; contradiction.
      * assert (Hcf' : cancelFunc l' <> None) by (apply Hcf; reflexivity).
        destruct (cancelFunc l') as [c'|]; [clear Hcf'|congruence].
        cbn [fst snd app]. rewrite ?app_nil_r.
        split; [count_events; try by_generations l|].
        split; [count_events; try by_generations l|].
        split; [intros _; count_events; try by_generations l|].
        split; [count_events|].
        split; [count_events|].
        split; [intros _; count_events|].
        split; [intros _; count_events|].
        intros i Hi. norm_inside Hi.
        rewrite Hins in Hi. cbn [app] in Hi.
        rewrite ?app_nil_r in Hi.
        destruct (runJobs_instance r ctx cfg m lg' s' i Hi)
          as (Hm & Hlg & Hkeys).
        split; [|exact Hkeys].
        destruct Hml as [[-> ->]|[Hne ->]]; [left|right]; split; congruence.
Qed.

(** [Run] is the refresh loop after [metrics.IncClient()], unless the
    ticker panics. *)
Lemma Run_unfold
  (fuel : nat) (r : @Runner Reporter) (ctx : Context) (lg : Logger)
  (s : State) :
  let out := Run fuel r ctx lg s in
  (result_of out = Halted Panicked /\ trace_of out = [])
  \/ exists s1,
       let loop :=
         Run_for fuel r
           (WithValue ctx (ContextKey "global") (CtxGlobal (globalJobsCfg r)))
           lg {| lastKnownConfig := {| Body := None; Protected := false |};
                 cancelFunc := None; tracker := None |} s1 in
       result_of out = result_of loop
       /\ trace_of out = Called c_IncClient [] :: trace_of loop.
Proof.
  cbv zeta. unfold Run.
  destruct (RefreshTimeout (cfgOptions r) <=? 0); [left; split; reflexivity|].
  right. cbv beta iota zeta delta [bind outside].
  destruct (IncClient (world s)) as [u w]. exists (set_world s w).
  destruct (Run_for _ _ _ _ _ _) as [[r0 s0] t0]. split; reflexivity.
Qed.


(** X21.  [Run] writes a metrics summary at most once per refresh it
    waited for, never without a reporter, and never before it has
    launched a generation. *)
Theorem Run_writes_summaries_only_after_a_launch
  (fuel : nat) (r : @Runner Reporter) (ctx : Context) (lg : Logger)
  (s : State) :
  let tr := trace_of (Run fuel r ctx lg s) in
  (count is_summary tr <= count is_refresh tr)%nat
  /\ (reporter r = None -> count is_summary tr = 0%nat)
  /\ (count is_runJobs tr = 0%nat -> count is_summary tr = 0%nat).
Proof.
  cbv zeta.
  destruct (Run_unfold fuel r ctx lg s) as [[Hres ->]|(s1 & Hres & ->)].
  - cbn. repeat split; lia.
  - match goal with
    | |- context [Run_for fuel r ?c lg ?l s1] =>
        destruct (Run_for_spec r c lg fuel l s1)
          as (_ & _ & _ & _ & I5 & I6 & I7 & _)
    end.
    cbn [tracker] in I7.
    split; [revert I5; count_events|].
    split; [intros Hn; specialize (I6 Hn); revert I6; count_events|].
    intros Hz.
    assert (Hz' : count is_runJobs
                    (trace_of
                       (Run_for fuel r
                          (WithValue ctx (ContextKey "global")
                             (CtxGlobal (globalJobsCfg r))) lg
                          {| lastKnownConfig :=
                               {| Body := None; Protected := false |};
                             cancelFunc := None; tracker := None |} s1))
                  = 0%nat) by (revert Hz; count_events).
    specialize (I7 eq_refl Hz'). revert I7. count_events.
Qed.

(** X22.  [Run] never asks for a configuration without offering a
    fallback that has a body: the last applied configuration, or before
    any was applied (or when the applied one has no body) the backup
    configuration or the built-in default. *)
Theorem Run_always_offers_a_fallback_body
  (fuel : nat) (r : @Runner Reporter) (ctx : Context) (lg : Logger)
  (s : State) :
  count nil_fallback (trace_of (Run fuel r ctx lg s)) = 0%nat.
Proof.
  destruct (Run_unfold fuel r ctx lg s) as [[Hres ->]|(s1 & Hres & ->)].
  - reflexivity.
  - match goal with
    | |- context [Run_for fuel r ?c lg ?l s1] =>
        destruct (Run_for_spec r c lg fuel l s1) as (_ & _ & _ & I4 & _)
    end.
    revert I4. count_events.
Qed.

(** X23.  Every goroutine [Run] ever starts, in any generation, can
    read the runner's global configuration under "global", and whatever
    else the context given to [Run] holds under keys the launch pass does
    not set; and it has either no metrics sink and the no-op logger (a
    protected configuration) or a sink and the logger [Run] was given. *)
Theorem Run_instances_read_the_global_configuration
  (fuel : nat) (r : @Runner Reporter) (ctx : Context) (lg : Logger)
  (s : State) :
  forall i,
    In i (launched (inside_runJobs (trace_of (Run fuel r ctx lg s)))) ->
    ctx_Value (inst_ctx i) (ContextKey "global")
    = Some (CtxGlobal (globalJobsCfg r))
    /\ (forall key,
          ~ In key ["global"; "goos"; "goarch"; "version"; "metrics"; "config"] ->
          ctx_Value (inst_ctx i) key = ctx_Value ctx key)
    /\ ((inst_metric i = None /\ inst_logger i = NopLogger)
        \/ (inst_metric i <> None /\ inst_logger i = lg)).
Proof.
  intros i Hi.
  destruct (Run_unfold fuel r ctx lg s) as [[Hres Htr]|(s1 & Hres & Htr)];
    rewrite Htr in Hi; [contradiction|].
  cbn [inside_runJobs] in Hi.
  match type of Hi with
  | context [Run_for fuel r ?c lg ?l s1] =>
      destruct (Run_for_spec r c lg fuel l s1)
        as (_ & _ & _ & _ & _ & _ & _ & I8)
  end.
  destruct (I8 i Hi) as [Hml Hkeys].
  split; [|split; [|exact Hml]].
  - rewrite Hkeys; [reflexivity|].
    unfold ContextKey. cbn. intros [H|[H|[H|[H|[H|[]]]]]]; discriminate.
  - intros key Hk. rewrite Hkeys.
    + unfold ContextKey. cbn [ctx_Value].
      destruct (String.eqb_spec "global" key) as [Heq|_]; [|reflexivity].
      exfalso. apply Hk. left. exact Heq.
    + intros Hin. apply Hk. right. exact Hin.
Qed.

(** ** The goroutine of an instance *)

(** X24.  The goroutine of an instance runs the handler once, with the
    instance's context, the entry's arguments and an accumulator made
    from the instance's sink and a fresh identifier.  An error the handler
    returns goes nowhere but into one log line at error level, with the
    entry's name and type (none on the no-op logger); a handler that
    returns without error leaves no line.  The deferred panic handler is
    then run, not panicking; when the handler panics it is run panicking,
    and when it recovers the goroutine ends normally. *)
Theorem goroutine_contains_the_failures_of_its_job
  (r : @Runner Reporter) (job : Job) (i : Instance) (s : State) :
  let id := fst (uuid_NewString (world s)) in
  let s1 := set_world s (snd (uuid_NewString (world s))) in
  let inner :=
    job (inst_ctx i) (Args_ (inst_entry i)) (globalJobsCfg r)
        (NewAccumulator (inst_metric i) id) (inst_logger i) s1 in
  let ran :=
    Called (c_job (Type_ (inst_entry i)) (inst_ctx i)
              (NewAccumulator (inst_metric i) id) (inst_logger i)
              (result_of inner))
           (trace_of inner) in
  let out := runJobs_goroutine r job i s in
  (forall d e,
     result_of inner = Ret (d, e) ->
     let handler := PanicHandler (inst_logger i) false (state_of inner) in
     trace_of out
     = ran
       :: match e, inst_logger i with
          | Some err, ZapLogger _ =>
              [Log ErrorLevel "error running job"
                 [FString "name" (Name (inst_entry i));
                  FString "type" (Type_ (inst_entry i));
                  FError err]]
          | _, _ => []
          end
       ++ trace_of handler
     /\ (forall b, result_of handler = Ret b -> result_of out = Ret tt))
  /\ (result_of inner = Halted Panicked ->
      let handler := PanicHandler (inst_logger i) true (state_of inner) in
      trace_of out = ran :: trace_of handler
      /\ (result_of handler = Ret true -> result_of out = Ret tt)
      /\ (result_of handler = Ret false -> result_of out = Halted Panicked)).
Proof.
  cbv zeta. unfold runJobs_goroutine, defer_recover.
  cbv beta iota zeta delta [bind run calling ret log emit].
  destruct (uuid_NewString (world s)) as [id w]. cbn [fst snd app].
  unfold result_of, state_of, trace_of.
  destruct (job _ _ _ _ _ _) as [[[[d e]|h] s2] t2]; cbn [fst snd app].
  - split; [|discriminate].
    intros d0 e0 Heq. injection Heq as <- <-.
    destruct e as [err|], (inst_logger i) as [|zid]; cbn [fst snd app];
      destruct (PanicHandler _ false s2) as [[[b|h'] s3] t3]; cbn [fst snd app];
      (split; [reflexivity|]); intros b0 Hb; try discriminate; reflexivity.
  - split; [discriminate|].
    intros Hh. injection Hh as ->.
    destruct (PanicHandler _ true s2) as [[[[|]|h'] s3] t3]; cbn [fst snd app];
      (split; [reflexivity|]); split; intros Hb; try discriminate;
      reflexivity.
Qed.

End MoreProperties.

(* ===================================================================== *)
(** * The further properties, on the small installation                   *)
(* ===================================================================== *)

(** X1 on a "log" job given the arguments of a "sleep". *)
Lemma terminal_jobs_report_decode_failure_witness :
  Decode_log (Helpers := Demo2.H) (Demo.SleepArgs 1)
  = inl (ErrorString "cannot decode")
  /\ logJob (E := Demo2.E) (H := Demo2.H) Demo.ctx0 (Demo.SleepArgs 1)
       (Demo.globals false) None Demo.logger0 Demo.st0
     = (Ret (parse_error (ErrorString "cannot decode")), Demo.st0,
        [Called c_mapstructure_Decode []]).
Proof.
  split; [reflexivity|].
  apply (proj1 (terminal_jobs_report_decode_failure (E := Demo2.E)
                  (Hl := Demo2.H) Demo.ctx0 (Demo.SleepArgs 1)
                  (Demo.globals false) None Demo.logger0 Demo.st0
                  (ErrorString "cannot decode"))).
  reflexivity.
Defined.

(** X2 on the value "true". *)
Lemma checkJob_passes_exactly_on_true_witness :
  Decode_check (Helpers := Demo2.H) (Demo.SetVarArgs "true" "")
  = inr "true"
  /\ result_of (checkJob (E := Demo2.E) (H := Demo2.H) Demo.ctx0
                  (Demo.SetVarArgs "true" "") (Demo.globals false) None
                  Demo.logger0 Demo.st0)
     = Ret (VNil, None).
Proof.
  split; [reflexivity|].
  apply (checkJob_passes_exactly_on_true (E := Demo2.E) (Hl := Demo2.H)
           Demo.ctx0 (Demo.SetVarArgs "true" "") (Demo.globals false) None
           Demo.logger0 Demo.st0 "true" eq_refl).
  reflexivity.
Defined.

(** X3 on the third entry of the demo configuration, whose filter is
    "true". *)
Lemma check_pass_implies_filter_pass_witness :
  result_of (checkJob (E := Demo2.E) (H := Demo2.H) Demo.ctx0
               (Demo.SetVarArgs "true" "") (Demo.globals false) None
               Demo.logger0 Demo.st0)
  = Ret (VNil, None)
  /\ count is_lookup
       (trace_of (runJobs_entry (E := Demo2.E) Demo.runner0 Demo.ctx0 None
                    Demo.logger0
                    {| Name := "s"; Type_ := "sleep"; Count := 2;
                       Filter := "true"; Args_ := Demo.SleepArgs 1 |}
                    0 Demo.st0))
     = 1%nat.
Proof.
  split; [reflexivity|].
  apply (check_pass_implies_filter_pass (E := Demo2.E) (Hl := Demo2.H)
           Demo.runner0 Demo.ctx0 (Demo.SetVarArgs "true" "")
           (Demo.globals false) None None Demo.logger0 Demo.st0 Demo.st0
           {| Name := "s"; Type_ := "sleep"; Count := 2;
              Filter := "true"; Args_ := Demo.SleepArgs 1 |} 0);
    reflexivity.
Defined.

(** X4 on a "set-value" job. *)
Lemma terminal_jobs_leave_state_alone_witness :
  state_of (setVarJob (E := Demo2.E) Demo.ctx0 (Demo.SetVarArgs "12" "int")
              (Demo.globals false) None Demo.logger0 Demo.st0)
  = Demo.st0.
Proof.
  apply (terminal_jobs_leave_state_alone (E := Demo2.E) (Hl := Demo2.H)
           Demo.ctx0 (Demo.SetVarArgs "12" "int") (Demo.globals false) None
           Demo.logger0 Demo.st0 setVarJob).
  right. left. reflexivity.
Defined.

(** X5 on a number too large for a [uint]. *)
Lemma setVarJob_result_follows_type_witness :
  exists v e,
    result_of (setVarJob (E := Demo2.E) Demo.ctx0
                 (Demo.SetVarArgs "99999999999" "uint") (Demo.globals false)
                 None Demo.logger0 Demo.st0)
    = Ret (v, e)
    /\ value_type v = "uint"
    /\ exists f k, e = Some (NumError f "99999999999" k).
Proof.
  destruct (setVarJob_result_follows_type (E := Demo2.E) Demo.ctx0
              (Demo.SetVarArgs "99999999999" "uint") (Demo.globals false)
              None Demo.logger0 Demo.st0
              {| sv_Value := "99999999999"; sv_Type := "uint" |} eq_refl)
    as (v & e & Hres & Hty & _ & Herr).
  exists v, e. split; [exact Hres|].
  split; [apply Hty; right; left; reflexivity|].
  destruct e as [err|]; [|discriminate Hres].
  destruct (Herr err eq_refl) as (f & k & ->). eauto.
Defined.

(** X6 on the first number below the 64-bit range. *)
Lemma setVarJob_int64_saturates_witness :
  is_signed_decimal "-9223372036854775809" = true
  /\ result_of (setVarJob (E := Demo2.E) Demo.ctx0
                  (Demo.SetVarArgs "-9223372036854775809" "int64")
                  (Demo.globals false) None Demo.logger0 Demo.st0)
     = Ret (VInt64 (- 9223372036854775808),
            Some (NumError "ParseInt" "-9223372036854775809"
                    Strconv.ErrRange)).
Proof.
  split; [reflexivity|].
  apply (setVarJob_int64_saturates (E := Demo2.E) Demo.ctx0
           (Demo.SetVarArgs "-9223372036854775809" "int64")
           (Demo.globals false) None Demo.logger0 Demo.st0
           {| sv_Value := "-9223372036854775809"; sv_Type := "int64" |}
           eq_refl eq_refl eq_refl).
Defined.

(** X7 on a 64-bit platform. *)
Lemma setVarJob_int_saturates_at_platform_width_witness :
  Float64.intSize (platform (Collaborators := Demo2.E)) = 64
  /\ result_of (setVarJob (E := Demo2.E) Demo.ctx0
                  (Demo.SetVarArgs "+9223372036854775808" "int")
                  (Demo.globals false) None Demo.logger0 Demo.st0)
     = Ret (VInt 9223372036854775807,
            Some (NumError "Atoi" "+9223372036854775808" Strconv.ErrRange)).
Proof.
  split; [reflexivity|].
  apply (setVarJob_int_saturates_at_platform_width (E := Demo2.E) Demo.ctx0
           (Demo.SetVarArgs "+9223372036854775808" "int")
           (Demo.globals false) None Demo.logger0 Demo.st0
           {| sv_Value := "+9223372036854775808"; sv_Type := "int" |}
           (or_intror eq_refl) eq_refl eq_refl eq_refl).
Defined.

(** X8 on a "timeout" given the arguments of a "sleep". *)
Lemma discard_and_timeout_report_decode_failure_witness :
  ParseConfig_timeout (Collaborators := Demo2.E) (Demo.SleepArgs 1)
    (Demo.globals false)
  = inl (ErrorString "cannot decode")
  /\ timeoutJob (E := Demo2.E) Demo.ctx0 (Demo.SleepArgs 1)
       (Demo.globals false) None Demo.logger0 Demo.st0
     = (Ret (parse_error (ErrorString "cannot decode")), Demo.st0,
        [Called c_ParseConfig []]).
Proof.
  split; [reflexivity|].
  apply (proj2 (discard_and_timeout_report_decode_failure
                  (E := Demo2.E) Demo.ctx0 (Demo.SleepArgs 1)
                  (Demo.globals false) None Demo.logger0
                  Demo.st0 (ErrorString "cannot decode"))).
  reflexivity.
Defined.

(** X9 on a "loop" given the arguments of a "sleep". *)
Lemma scoped_combinators_report_decode_failure_witness :
  ParseConfig_loop (Collaborators := Demo2.E) (Demo.SleepArgs 1)
    (Demo.globals false)
  = inl (ErrorString "cannot decode")
  /\ loopJob (E := Demo2.E) 10 Demo.ctx0 (Demo.SleepArgs 1)
       (Demo.globals false) None Demo.logger0 Demo.st0
     = (Ret (parse_error (ErrorString "cannot decode")),
        after_cancel 1 (scoped Demo.st0),
        [Called c_ParseConfig []; Called (c_cancel 1) []]).
Proof.
  split; [reflexivity|].
  apply (proj1 (scoped_combinators_report_decode_failure
                  (E := Demo2.E) 10 Demo.ctx0 (Demo.SleepArgs 1)
                  (Demo.globals false) None Demo.logger0
                  Demo.st0 (ErrorString "cannot decode"))).
  reflexivity.
Defined.

(** X10 around a "set-value" that fails. *)
Lemma discardErrorJob_runs_nested_job_once_witness :
  count is_run
    (trace_of (discardErrorJob (E := Demo.E) Demo.ctx0 Demo.discard_args
                 (Demo.globals false) None Demo.logger0 Demo.st0))
  = 1%nat
  /\ count is_log
       (trace_of (discardErrorJob (E := Demo.E) Demo.ctx0 Demo.discard_args
                    (Demo.globals false) None Demo.logger0 Demo.st0))
     = 1%nat.
Proof.
  destruct (discardErrorJob_runs_nested_job_once (E := Demo.E) Demo.ctx0
              Demo.discard_args (Demo.globals false) None Demo.logger0
              Demo.st0
              {| de_Basic := 0%nat;
                 de_Job := Demo.nested "x" "set-value"
                             (Demo.SetVarArgs "99999999999" "uint") |}
              (setVarJob (E := Demo.E0)) eq_refl eq_refl)
    as (Hrun & _ & _ & _ & Hlog).
  split; [exact Hrun | exact Hlog].
Defined.

(** X11 around a "sleep", with a timeout of five nanoseconds. *)
Lemma timeoutJob_runs_nested_job_under_deadline_witness :
  result_of (timeoutJob (E := Demo2.E) Demo.ctx0 Demo2.sleep_args
               (Demo.globals false) None Demo.logger0 Demo.st0)
  = Ret (VNil, None)
  /\ ctx_done (state_of (timeoutJob (E := Demo2.E) Demo.ctx0 Demo2.sleep_args
                           (Demo.globals false) None Demo.logger0 Demo.st0))
       (WithDeadline Demo.ctx0 1 5)
     = true.
Proof.
  destruct (timeoutJob_runs_nested_job_under_deadline (E := Demo2.E)
              Demo.ctx0 Demo2.sleep_args (Demo.globals false) None
              Demo.logger0 Demo.st0
              {| to_Basic := 1%nat; to_Timeout := 5;
                 to_Job := Demo.nested "x" "sleep" (Demo.SleepArgs 1) |}
              (sleepJob (E := Demo.E0)) eq_refl eq_refl)
    as (Hres & _ & _ & Hlast).
  split; [exact Hres|].
  destruct Hlast as [Hst _]; [discriminate | discriminate |].
  rewrite Hst. reflexivity.
Defined.

(** X12 around a "sleep". *)
Lemma lockJob_holds_lock_around_nested_job_witness :
  count (is_lock "k")
    (trace_of (lockJob (E := Demo2.E) Demo.ctx0 Demo2.sleep_args
                 (Demo.globals false) None Demo.logger0 Demo.st0))
  = 1%nat
  /\ count (is_unlock "k")
       (trace_of (lockJob (E := Demo2.E) Demo.ctx0 Demo2.sleep_args
                    (Demo.globals false) None Demo.logger0 Demo.st0))
     = 1%nat.
Proof.
  destruct (lockJob_holds_lock_around_nested_job (E := Demo2.E)
              Demo.ctx0 Demo2.sleep_args (Demo.globals false) None
              Demo.logger0 Demo.st0
              {| lk_Basic := 1%nat; lk_Key := "k";
                 lk_Job := Demo.nested "x" "sleep" (Demo.SleepArgs 1) |}
              eq_refl)
    as (Hlock & Hunlock & _).
  split; [exact Hlock | exact Hunlock].
Defined.

(** X13 on data that is no base64. *)
Lemma encryptedJob_returns_first_failure_unwrapped_witness :
  result_of (encryptedJob (E := Demo2.E) Demo.ctx0
               (Demo.EncryptedArgs "yaml" "!") (Demo.globals false) None
               Demo.logger0 Demo.st0)
  = Ret (VNil, Some (ErrorString "illegal base64 data")).
Proof.
  apply (proj1 (encryptedJob_returns_first_failure_unwrapped (E := Demo2.E)
                  Demo.ctx0 (Demo.EncryptedArgs "yaml" "!")
                  (Demo.globals false) None Demo.logger0 Demo.st0
                  {| en_Basic := 0%nat; en_Format := "yaml"; en_Data := "!" |}
                  eq_refl eq_refl)
               (ErrorString "illegal base64 data") eq_refl).
Defined.

(** X14 on a loop of three runs of "set-value". *)
Lemma loopJob_returns_no_data_witness :
  exists d e,
    result_of (loopJob (E := Demo.E) 10 Demo.ctx0 Demo.loop_args
                 (Demo.globals false) None Demo.logger0 Demo.st0)
    = Ret (d, e)
    /\ d = VNil.
Proof.
  eexists. exists None. split; [reflexivity|].
  apply (loopJob_returns_no_data (E := Demo.E) 10 Demo.ctx0 Demo.loop_args
           (Demo.globals false) None Demo.logger0 Demo.st0 VNil None).
  reflexivity.
Defined.

(** X15 on a "lock" around a "sleep". *)
Lemma combinators_cancel_the_scope_they_open_witness :
  last_event
    (trace_of (lockJob (E := Demo2.E) Demo.ctx0 Demo2.sleep_args
                 (Demo.globals false) None Demo.logger0 Demo.st0))
  = Some (Called (c_cancel 1) [])
  /\ ctx_done
       (state_of (lockJob (E := Demo2.E) Demo.ctx0 Demo2.sleep_args
                    (Demo.globals false) None Demo.logger0 Demo.st0))
       (WithValue (WithCancel Demo.ctx0 1) "data.x" (CtxData VNil))
     = true.
Proof.
  destruct (combinators_cancel_the_scope_they_open (E := Demo2.E) 0
              Demo.ctx0 Demo2.sleep_args (Demo.globals false) None
              Demo.logger0 Demo.st0 lockJob (or_intror (or_introl eq_refl)))
    as (Hlast & Hdone); [discriminate | discriminate |].
  split; [exact Hlast|].
  apply Hdone. reflexivity.
Defined.

(** X16 on the demo configuration: the instances are those of its third
    entry. *)
Lemma runJobs_starts_instances_of_its_configuration_witness :
  exists i,
    In i (launched (inside_runJobs
                      (trace_of (runJobs (E := Demo2.E) Demo.runner0 Demo.ctx0
                                   Demo2.cfg3 None Demo.logger0 Demo.st0))))
    /\ exists entry,
         In entry (Jobs Demo2.cfg3)
         /\ Name (inst_entry i) = Name entry
         /\ Get (Collaborators := Demo2.E) (Type_ entry) <> None.
Proof.
  eexists. split; [vm_compute; left; reflexivity|].
  destruct (runJobs_starts_instances_of_its_configuration (E := Demo2.E)
              Demo.runner0 Demo.ctx0 Demo2.cfg3 None Demo.logger0 Demo.st0
              _ (or_introl eq_refl))
    as (entry & Hin & _ & _ & Hname & _ & _ & _ & Hget & _).
  exists entry. split; [exact Hin|]. split; [exact Hname | exact Hget].
Defined.

(** X17 on the demo configuration. *)
Lemma launched_instance_environment_witness :
  exists i,
    In i (launched (inside_runJobs
                      (trace_of (runJobs (E := Demo2.E) Demo.runner0 Demo.ctx0
                                   Demo2.cfg3 None Demo.logger0 Demo.st0))))
    /\ ctx_Value (inst_ctx i) (ContextKey "goos") = Some (CtxString "linux")
    /\ ctx_done Demo.st_cancelled (inst_ctx i) = true.
Proof.
  eexists. split; [vm_compute; left; reflexivity|].
  destruct (launched_instance_environment (E := Demo2.E)
              Demo.runner0 Demo.ctx0 Demo2.cfg3 None Demo.logger0 Demo.st0
              _ (or_introl eq_refl))
    as (Hgoos & _ & _ & _ & _ & _ & Hdone).
  split; [exact Hgoos|]. rewrite Hdone. reflexivity.
Defined.

(** X18 on the demo configuration: two goroutines. *)
Lemma runJobs_reports_the_goroutines_it_started_witness :
  result_of (runJobs (E := Demo2.E) Demo.runner0 Demo.ctx0 Demo2.cfg3 None
               Demo.logger0 Demo.st0)
  = Ret 1%nat
  /\ last_event
       (inside_runJobs
          (trace_of (runJobs (E := Demo2.E) Demo.runner0 Demo.ctx0 Demo2.cfg3
                       None Demo.logger0 Demo.st0)))
     = Some (Log InfoLevel "job instances (re)started"
               [FInt "count"
                  (Z.of_nat
                     (count is_go
                        (inside_runJobs
                           (trace_of (runJobs (E := Demo2.E) Demo.runner0
                                        Demo.ctx0 Demo2.cfg3 None Demo.logger0
                                        Demo.st0)))))]).
Proof.
  apply (runJobs_reports_the_goroutines_it_started (E := Demo2.E)
           Demo.runner0 Demo.ctx0 Demo2.cfg3 None 0 Demo.st0).
  intros e'. exists tt. reflexivity.
Defined.

(** X19 on an entry of count zero, without scaling. *)
Lemma runJobs_entry_count_below_one_witness :
  Count Demo2.idle_entry <= 0
  /\ count is_go
       (trace_of (runJobs_entry (E := Demo2.E) Demo.runner0 Demo.ctx0 None
                    Demo.logger0 Demo2.idle_entry 0 Demo.st0))
     = 0%nat.
Proof.
  split; [vm_compute; discriminate|].
  apply (proj1 (runJobs_entry_count_below_one (E := Demo2.E) Demo.runner0
                  Demo.ctx0 None Demo.logger0 Demo2.idle_entry 0 Demo.st0
                  ltac:(vm_compute; discriminate))).
  reflexivity.
Defined.


(** X21 on a runner without reporter. *)
Lemma Run_writes_summaries_only_after_a_launch_witness :
  reporter Demo.runner0 = None
  /\ count is_summary
       (trace_of (Run (E := Demo2.E) 5 Demo.runner0 Demo.ctx0 Demo.logger0
                    Demo.st0))
     = 0%nat.
Proof.
  split; [reflexivity|].
  apply (proj1 (proj2 (Run_writes_summaries_only_after_a_launch
                         (E := Demo2.E) 5 Demo.runner0 Demo.ctx0 Demo.logger0
                         Demo.st0))).
  reflexivity.
Defined.

(** X23 on a run that is stopped in its first cycle. *)
Lemma Run_instances_read_the_global_configuration_witness :
  exists i,
    In i (launched (inside_runJobs
                      (trace_of (Run (E := Demo2.stopping) 5 Demo.runner0
                                   Demo.ctx0 Demo.logger0 Demo.st0))))
    /\ ctx_Value (inst_ctx i) (ContextKey "global")
       = Some (CtxGlobal (Demo.globals false)).
Proof.
  eexists. split; [vm_compute; left; reflexivity|].
  apply (Run_instances_read_the_global_configuration (E := Demo2.stopping) 5
           Demo.runner0 Demo.ctx0 Demo.logger0 Demo.st0 _
           (or_introl eq_refl)).
Defined.

(** X24 on a handler that fails. *)
Lemma goroutine_contains_the_failures_of_its_job_witness :
  result_of (runJobs_goroutine (H := Demo2.H) Demo.runner0
               Demo2.failing_job Demo2.instance0 Demo.st0)
  = Ret tt.
Proof.
  destruct (goroutine_contains_the_failures_of_its_job
              (Hl := Demo2.H) Demo.runner0 Demo2.failing_job Demo2.instance0
              Demo.st0) as [Hret _].
  destruct (Hret VNil (Some (ErrorString "boom")) eq_refl) as [_ Hres].
  apply (Hres false). reflexivity.
Defined.
